(** * TRIPLE V:RusT3 drum engine: a shallow embedding of
      [src/services/drumEngine.ts] and the properties of its synthesis
      and effects-chain code.

    Numbers.  A JavaScript [number] is modelled as a real number ([R]):
    the arithmetic of the engine ([+], [*], [/], [Math.tanh], [Math.pow],
    [Math.ceil]) is the arithmetic of the reals, and the rounding of
    IEEE doubles and of [Float32Array] cells is not modelled.  Rounding
    moves a cell of the waveshaper table that is close to a bound of the
    table onto that bound, and makes neighbouring cells equal where the
    curve is flat: the bounds and the order of the table are stated with
    [<=].

    Web Audio.  The platform objects the engine drives (the audio context,
    its nodes, their [AudioParam]s and the connections between them) are
    modelled as an explicit store: a node reference is an index into the
    list of nodes of the context, so that two fields holding the same node
    alias the same cell.  Every method of the class is a state transformer
    over that store.  What the platform later renders from the store is
    outside the source and is not modelled.  Neither is the validation the
    platform makes of the values it is handed: the store records every call
    the code issues, whether the platform accepts it or not, so every
    method is a total function of the state.  The Web Audio API rejects a
    negative time, and an exponential ramp whose target is 0, with a
    RangeError that ends the method there; what the store shows after such
    a call is what the code goes on to do when the call is accepted.  What
    a whole trigger builds is therefore stated for a trigger time that is
    not negative and, where a ramp target comes from the configuration,
    for configurations that keep every such target away from 0. *)

From Stdlib Require Import Reals Lra Lia ZArith List.
From stdpp Require Import base list.

Open Scope R_scope.

(* ====================================================================== *)
(** ** Loops *)

(** [for (let i = start; i < start + n; i++) s = body(i, s)]: the counted
    loop of the source, with the loop-carried state made explicit. *)
Fixpoint for_range {S : Type} (n start : nat) (body : nat -> S -> S) (s : S) : S :=
  match n with
  | O => s
  | Datatypes.S n' => for_range n' (Datatypes.S start) body (body start s)
  end.

(* ====================================================================== *)
(** ** Waveshaper curve ([makeRatCurve]) *)

(** [const samples = 44100]. *)
Definition samples : Z := 44100.

(** [new Float32Array(n)]: [n] cells, all zero.  A cell holds a real
    number: the rounding of a stored number to single precision is not
    modelled. *)
Definition Float32Array_new (n : nat) : list R := replicate n 0.

(** The table input at index [i]: [(i * 2) / samples - 1]. *)
Definition curve_x (i : nat) : R := (INR i * 2) / IZR samples - 1.

(** One iteration of the loop of [makeRatCurve]. *)
Definition makeRatCurve_body (k : R) (i : nat) (curve : list R) : list R :=
  let x := curve_x i in
  if Rge_dec x 0
  then <[ i := tanh (x * k * 1.2) * 0.9 ]> curve
  else <[ i := tanh (x * k * 0.8) ]> curve.

Definition makeRatCurve (amount : R) : list R :=
  let curve := Float32Array_new (Z.to_nat samples) in
  let k := amount * 50 + 1 in
  for_range (Z.to_nat samples) 0 (makeRatCurve_body k) curve.

(** The transfer function the table samples, as a function of the input. *)
Definition rat_shape (k x : R) : R :=
  if Rge_dec x 0 then tanh (x * k * 1.2) * 0.9 else tanh (x * k * 0.8).


(* ====================================================================== *)
(** ** The Web Audio store *)

(** A reference to a node: its index in the node list of the context. *)
Abbreviation NodeRef := nat.

(** The automation calls of an [AudioParam], in the order they are made. *)
Inductive AutomationEvent : Type :=
| SetValueAtTime (v time : R)
| LinearRampToValueAtTime (v endTime : R)
| ExponentialRampToValueAtTime (v endTime : R)
| SetTargetAtTime (target startTime timeConstant : R).

(** An [AudioParam]: the value set by assignment to [.value] and the
    automation events scheduled on it. *)
Record AudioParam : Type := mkParam {
  value : R;
  events : list AutomationEvent
}.

Inductive OscillatorType : Type := sine | square | sawtooth | triangle.
Inductive BiquadFilterType : Type := lowpass | highpass | bandpass.
Inductive OverSampleType : Type := oversample_none | oversample_2x | oversample_4x.

(** An [AudioBuffer] with its single channel. *)
Record AudioBuffer : Type := mkBuffer {
  numberOfChannels : nat;
  buffer_length : Z;
  buffer_sampleRate : R;
  channelData : list R
}.

(** The node kinds the engine creates, each with the attributes and
    parameters the engine touches. *)
Inductive AudioNode : Type :=
| GainNode (gain_p : AudioParam)
| OscillatorNode (type : OscillatorType) (frequency_p detune_p : AudioParam)
                 (startTime stopTime : option R)
| BiquadFilterNode (type : BiquadFilterType) (frequency_p Q_p : AudioParam)
| AudioBufferSourceNode (buffer : option AudioBuffer) (loop : bool)
                        (startTime stopTime : option R)
| WaveShaperNode (curve : option (list R)) (oversample : OverSampleType)
| DynamicsCompressorNode (threshold_p knee_p ratio_p attack_p release_p : AudioParam)
| AudioDestinationNode.

(** The names of the parameters of the nodes above. *)
Inductive ParamName : Type :=
| gain | frequency | detune | Q | threshold | knee | ratio | attack | release.

(** The audio context: its clock, its sample rate, the nodes created in it
    and the connections made between them.  The number of [Math.random()]
    draws made so far is kept with it. *)
Record AudioContext : Type := mkContext {
  currentTime : R;
  sampleRate : R;
  nodes : list AudioNode;
  connections : list (NodeRef * NodeRef);
  randomDraws : nat
}.

(* ---------------------------------------------------------------------- *)
(** *** Parameters *)

(** [param.value = v]. *)
Definition assign_value (v : R) (p : AudioParam) : AudioParam :=
  {| value := v; events := events p |}.

(** Any of the scheduling methods: the event is appended to the timeline. *)
Definition schedule (ev : AutomationEvent) (p : AudioParam) : AudioParam :=
  {| value := value p; events := events p ++ [ev] |}.

(** The parameter [name] of a node, when the node has it. *)
Definition getParam (name : ParamName) (n : AudioNode) : option AudioParam :=
  match name, n with
  | gain, GainNode g => Some g
  | frequency, OscillatorNode _ f _ _ _ => Some f
  | detune, OscillatorNode _ _ d _ _ => Some d
  | frequency, BiquadFilterNode _ f _ => Some f
  | Q, BiquadFilterNode _ _ q => Some q
  | threshold, DynamicsCompressorNode t _ _ _ _ => Some t
  | knee, DynamicsCompressorNode _ k _ _ _ => Some k
  | ratio, DynamicsCompressorNode _ _ r _ _ => Some r
  | attack, DynamicsCompressorNode _ _ _ a _ => Some a
  | release, DynamicsCompressorNode _ _ _ _ r => Some r
  | _, _ => None
  end.

(** Apply [f] to the parameter [name] of a node. *)
Definition alterParam (name : ParamName) (f : AudioParam -> AudioParam)
    (n : AudioNode) : AudioNode :=
  match name, n with
  | gain, GainNode g => GainNode (f g)
  | frequency, OscillatorNode ty fr d s e => OscillatorNode ty (f fr) d s e
  | detune, OscillatorNode ty fr d s e => OscillatorNode ty fr (f d) s e
  | frequency, BiquadFilterNode ty fr q => BiquadFilterNode ty (f fr) q
  | Q, BiquadFilterNode ty fr q => BiquadFilterNode ty fr (f q)
  | threshold, DynamicsCompressorNode t k r a rl => DynamicsCompressorNode (f t) k r a rl
  | knee, DynamicsCompressorNode t k r a rl => DynamicsCompressorNode t (f k) r a rl
  | ratio, DynamicsCompressorNode t k r a rl => DynamicsCompressorNode t k (f r) a rl
  | attack, DynamicsCompressorNode t k r a rl => DynamicsCompressorNode t k r (f a) rl
  | release, DynamicsCompressorNode t k r a rl => DynamicsCompressorNode t k r a (f rl)
  | _, _ => n
  end.

(** [osc.type = ty]. *)
Definition assign_oscillator_type (ty : OscillatorType) (n : AudioNode) : AudioNode :=
  match n with
  | OscillatorNode _ fr d s e => OscillatorNode ty fr d s e
  | _ => n
  end.

(** [filter.type = ty]. *)
Definition assign_filter_type (ty : BiquadFilterType) (n : AudioNode) : AudioNode :=
  match n with
  | BiquadFilterNode _ fr q => BiquadFilterNode ty fr q
  | _ => n
  end.

(** [src.buffer = b]. *)
Definition assign_buffer (b : AudioBuffer) (n : AudioNode) : AudioNode :=
  match n with
  | AudioBufferSourceNode _ l s e => AudioBufferSourceNode (Some b) l s e
  | _ => n
  end.

(** [shaper.curve = c]. *)
Definition assign_curve (c : list R) (n : AudioNode) : AudioNode :=
  match n with
  | WaveShaperNode _ o => WaveShaperNode (Some c) o
  | _ => n
  end.

(** [shaper.oversample = o]. *)
Definition assign_oversample (o : OverSampleType) (n : AudioNode) : AudioNode :=
  match n with
  | WaveShaperNode c _ => WaveShaperNode c o
  | _ => n
  end.

(** [src.start(t)] on an oscillator or a buffer source. *)
Definition schedule_start (t : R) (n : AudioNode) : AudioNode :=
  match n with
  | OscillatorNode ty fr d _ e => OscillatorNode ty fr d (Some t) e
  | AudioBufferSourceNode b l _ e => AudioBufferSourceNode b l (Some t) e
  | _ => n
  end.

(** [src.stop(t)] on an oscillator or a buffer source. *)
Definition schedule_stop (t : R) (n : AudioNode) : AudioNode :=
  match n with
  | OscillatorNode ty fr d s _ => OscillatorNode ty fr d s (Some t)
  | AudioBufferSourceNode b l s _ => AudioBufferSourceNode b l s (Some t)
  | _ => n
  end.

(* ====================================================================== *)
(** ** Types of the engine *)

Inductive DrumType : Type := KICK | SNARE | HAT | CLAP.

Module DrumVoiceConfig.
Record t : Type := mk {
  volume : R;      (* 0-1 *)
  tune : R;        (* 0-1 *)
  decay : R;       (* 0-1 *)
  tone : R;        (* 0-1 *)
  velocity : R     (* 0-127 *)
}.
End DrumVoiceConfig.

Module RatConfig.
Record t : Type := mk {
  distortion : R;  (* 0-1 *)
  filter : R;      (* 0-1 *)
  volume : R       (* 0-1 *)
}.
End RatConfig.

(** [Partial<RatConfig>]: each key is present or absent. *)
Module PartialRatConfig.
Record t : Type := mk {
  distortion : option R;
  filter : option R;
  volume : option R
}.
(** The empty partial, [{}]. *)
Definition empty : t := mk None None None.
End PartialRatConfig.

(** [Object.assign(target, source)] on a [RatConfig]: the keys present in
    the source overwrite those of the target. *)
Definition Object_assign (target : RatConfig.t) (source : PartialRatConfig.t) : RatConfig.t :=
  {| RatConfig.distortion :=
       default (RatConfig.distortion target) (PartialRatConfig.distortion source);
     RatConfig.filter :=
       default (RatConfig.filter target) (PartialRatConfig.filter source);
     RatConfig.volume :=
       default (RatConfig.volume target) (PartialRatConfig.volume source) |}.

(** The fields of the class [DrumEngine]. *)
Record DrumEngine : Type := mkEngine {
  ctx : AudioContext;
  outputNode : NodeRef;
  ratInput : NodeRef;
  ratPreGain : NodeRef;
  ratWaveshaper : NodeRef;
  ratFilter : NodeRef;
  ratPostGain : NodeRef;
  compressor : NodeRef;
  kickModEnabled : bool;
  ratConfig : RatConfig.t
}.

Definition with_ctx (f : AudioContext -> AudioContext) (e : DrumEngine) : DrumEngine :=
  mkEngine (f (ctx e)) (outputNode e) (ratInput e) (ratPreGain e) (ratWaveshaper e)
           (ratFilter e) (ratPostGain e) (compressor e) (kickModEnabled e) (ratConfig e).

Definition with_nodes (f : list AudioNode -> list AudioNode) (c : AudioContext) : AudioContext :=
  mkContext (currentTime c) (sampleRate c) (f (nodes c)) (connections c) (randomDraws c).

Definition with_connections (f : list (NodeRef * NodeRef) -> list (NodeRef * NodeRef))
    (c : AudioContext) : AudioContext :=
  mkContext (currentTime c) (sampleRate c) (nodes c) (f (connections c)) (randomDraws c).

Definition with_randomDraws (f : nat -> nat) (c : AudioContext) : AudioContext :=
  mkContext (currentTime c) (sampleRate c) (nodes c) (connections c) (f (randomDraws c)).

(* ====================================================================== *)
(** ** The monad of the methods: state passing over the engine *)

Definition M (A : Type) : Type := DrumEngine -> A * DrumEngine.

Definition ret {A : Type} (a : A) : M A := fun e => (a, e).

Definition bind {A B : Type} (m : M A) (k : A -> M B) : M B :=
  fun e => let (a, e') := m e in k a e'.

Definition gets {A : Type} (f : DrumEngine -> A) : M A := fun e => (f e, e).

Definition modify (f : DrumEngine -> DrumEngine) : M unit := fun e => (tt, f e).

(** The state a method leaves behind. *)
Definition exec {A : Type} (m : M A) (e : DrumEngine) : DrumEngine := snd (m e).

Declare Scope engine_scope.
Delimit Scope engine_scope with engine.
Notation "x <- c1 ;; c2" := (bind c1 (fun x => c2))
  (at level 100, c1 at next level, right associativity) : engine_scope.
Notation "c1 ;; c2" := (bind c1 (fun _ => c2))
  (at level 100, right associativity) : engine_scope.
Open Scope engine_scope.

(** A counted loop whose body runs in the monad. *)
Fixpoint for_rangeM {A : Type} (n start : nat) (body : nat -> A -> M A) (a : A) : M A :=
  match n with
  | O => ret a
  | Datatypes.S n' => a' <- body start a ;; for_rangeM n' (Datatypes.S start) body a'
  end.

(** [array.forEach((x, i) => body)], with the state the callback closes
    over made explicit. *)
Fixpoint forEachM {X A : Type} (l : list X) (i : nat) (body : X -> nat -> A -> M A)
    (a : A) : M A :=
  match l with
  | [] => ret a
  | x :: l' => a' <- body x i a ;; forEachM l' (Datatypes.S i) body a'
  end.

(* ---------------------------------------------------------------------- *)
(** *** Operations of the platform *)

(** Every operation records the call as the code issues it.  The checks
    the platform makes on the arguments of a call (a time that is not
    negative, an exponential-ramp target that is not 0, a buffer that is
    not empty) are not modelled: a call the platform would reject is
    recorded like any other. *)


(** Creating a node appends it to the store and returns its reference. *)
Definition createNode (n : AudioNode) : M NodeRef :=
  fun e => (length (nodes (ctx e)), with_ctx (with_nodes (fun ns => ns ++ [n])) e).

(** The factory methods of the context, with the platform's defaults. *)
Definition createGain : M NodeRef := createNode (GainNode (mkParam 1 [])).
Definition createOscillator : M NodeRef :=
  createNode (OscillatorNode sine (mkParam 440 []) (mkParam 0 []) None None).
Definition createBiquadFilter : M NodeRef :=
  createNode (BiquadFilterNode lowpass (mkParam 350 []) (mkParam 1 [])).
Definition createBufferSource : M NodeRef :=
  createNode (AudioBufferSourceNode None false None None).
Definition createWaveShaper : M NodeRef :=
  createNode (WaveShaperNode None oversample_none).
Definition createDynamicsCompressor : M NodeRef :=
  createNode (DynamicsCompressorNode (mkParam (-24) []) (mkParam 30 []) (mkParam 12 [])
                (mkParam 0.003 []) (mkParam 0.25 [])).

(** [ctx.createBuffer(channels, length, sampleRate)]: zero-filled.  A
    length that is not positive leaves no cell. *)
Definition createBuffer (channels : nat) (len : Z) (rate : R) : AudioBuffer :=
  mkBuffer channels len rate (Float32Array_new (Z.to_nat len)).

(** A method call or an assignment on the node behind a reference. *)
Definition updateNode (r : NodeRef) (f : AudioNode -> AudioNode) : M unit :=
  modify (with_ctx (with_nodes (alter f r))).

(** [src.connect(dst)]. *)
Definition connect (src dst : NodeRef) : M unit :=
  modify (with_ctx (with_connections (fun cs => cs ++ [(src, dst)]))).

(** [node.disconnect()]: every outgoing connection of the node is removed. *)
Definition disconnect (src : NodeRef) : M unit :=
  modify (with_ctx (with_connections
    (List.filter (fun c => negb (Nat.eqb (fst c) src))))).

Definition assignValue (r : NodeRef) (p : ParamName) (v : R) : M unit :=
  updateNode r (alterParam p (assign_value v)).
Definition setValueAtTime (r : NodeRef) (p : ParamName) (v time : R) : M unit :=
  updateNode r (alterParam p (schedule (SetValueAtTime v time))).
Definition linearRampToValueAtTime (r : NodeRef) (p : ParamName) (v endTime : R) : M unit :=
  updateNode r (alterParam p (schedule (LinearRampToValueAtTime v endTime))).
Definition exponentialRampToValueAtTime (r : NodeRef) (p : ParamName) (v endTime : R) : M unit :=
  updateNode r (alterParam p (schedule (ExponentialRampToValueAtTime v endTime))).
Definition setTargetAtTime (r : NodeRef) (p : ParamName) (target startTime timeConstant : R)
    : M unit :=
  updateNode r (alterParam p (schedule (SetTargetAtTime target startTime timeConstant))).

Definition start (r : NodeRef) (time : R) : M unit := updateNode r (schedule_start time).
Definition stop (r : NodeRef) (time : R) : M unit := updateNode r (schedule_stop time).

(* ====================================================================== *)
(** ** The class [DrumEngine] *)

Definition set_outputNode (r : NodeRef) : M unit := modify (fun e =>
  mkEngine (ctx e) r (ratInput e) (ratPreGain e) (ratWaveshaper e) (ratFilter e)
           (ratPostGain e) (compressor e) (kickModEnabled e) (ratConfig e)).
Definition set_ratInput (r : NodeRef) : M unit := modify (fun e =>
  mkEngine (ctx e) (outputNode e) r (ratPreGain e) (ratWaveshaper e) (ratFilter e)
           (ratPostGain e) (compressor e) (kickModEnabled e) (ratConfig e)).
Definition set_ratPreGain (r : NodeRef) : M unit := modify (fun e =>
  mkEngine (ctx e) (outputNode e) (ratInput e) r (ratWaveshaper e) (ratFilter e)
           (ratPostGain e) (compressor e) (kickModEnabled e) (ratConfig e)).
Definition set_ratWaveshaper (r : NodeRef) : M unit := modify (fun e =>
  mkEngine (ctx e) (outputNode e) (ratInput e) (ratPreGain e) r (ratFilter e)
           (ratPostGain e) (compressor e) (kickModEnabled e) (ratConfig e)).
Definition set_ratFilter (r : NodeRef) : M unit := modify (fun e =>
  mkEngine (ctx e) (outputNode e) (ratInput e) (ratPreGain e) (ratWaveshaper e) r
           (ratPostGain e) (compressor e) (kickModEnabled e) (ratConfig e)).
Definition set_ratPostGain (r : NodeRef) : M unit := modify (fun e =>
  mkEngine (ctx e) (outputNode e) (ratInput e) (ratPreGain e) (ratWaveshaper e)
           (ratFilter e) r (compressor e) (kickModEnabled e) (ratConfig e)).
Definition set_compressor (r : NodeRef) : M unit := modify (fun e =>
  mkEngine (ctx e) (outputNode e) (ratInput e) (ratPreGain e) (ratWaveshaper e)
           (ratFilter e) (ratPostGain e) r (kickModEnabled e) (ratConfig e)).
Definition set_kickModEnabled (b : bool) : M unit := modify (fun e =>
  mkEngine (ctx e) (outputNode e) (ratInput e) (ratPreGain e) (ratWaveshaper e)
           (ratFilter e) (ratPostGain e) (compressor e) b (ratConfig e)).
Definition set_ratConfig (c : RatConfig.t) : M unit := modify (fun e =>
  mkEngine (ctx e) (outputNode e) (ratInput e) (ratPreGain e) (ratWaveshaper e)
           (ratFilter e) (ratPostGain e) (compressor e) (kickModEnabled e) c).

Section Engine.

(** [Math.random()]: the [n]-th draw of the run.  The platform promises
    a number in [0, 1). *)
Variable random : nat -> R.

Definition Math_random : M R :=
  fun e => (random (randomDraws (ctx e)), with_ctx (with_randomDraws Datatypes.S) e).

(* -------------------------------------------------------------------- *)
(** *** RAT pedal emulation *)

Definition setupRatPedal : M unit :=
  (* Input stage *)
  r <- createGain ;; set_ratInput r ;;
  r <- gets ratInput ;; assignValue r gain 1.0 ;;
  (* Pre-gain (drive) *)
  r <- createGain ;; set_ratPreGain r ;;
  r <- gets ratPreGain ;; assignValue r gain 1.0 ;;
  (* Waveshaper *)
  r <- createWaveShaper ;; set_ratWaveshaper r ;;
  r <- gets ratWaveshaper ;; updateNode r (assign_curve (makeRatCurve 0.4)) ;;
  r <- gets ratWaveshaper ;; updateNode r (assign_oversample oversample_4x) ;;
  (* Filter *)
  r <- createBiquadFilter ;; set_ratFilter r ;;
  r <- gets ratFilter ;; updateNode r (assign_filter_type lowpass) ;;
  r <- gets ratFilter ;; assignValue r frequency 8000 ;;
  r <- gets ratFilter ;; assignValue r Q 0.7 ;;
  (* Post-gain (volume) *)
  r <- createGain ;; set_ratPostGain r ;;
  r <- gets ratPostGain ;; assignValue r gain 0.8 ;;
  (* Connect chain *)
  a <- gets ratInput ;; b <- gets ratPreGain ;; connect a b ;;
  a <- gets ratPreGain ;; b <- gets ratWaveshaper ;; connect a b ;;
  a <- gets ratWaveshaper ;; b <- gets ratFilter ;; connect a b ;;
  a <- gets ratFilter ;; b <- gets ratPostGain ;; connect a b.

Definition setupCompressor : M unit :=
  r <- createDynamicsCompressor ;; set_compressor r ;;
  r <- gets compressor ;; assignValue r threshold (-12) ;;
  r <- gets compressor ;; assignValue r knee 6 ;;
  r <- gets compressor ;; assignValue r ratio 4 ;;
  r <- gets compressor ;; assignValue r attack 0.003 ;;
  r <- gets compressor ;; assignValue r release 0.15.

(** The body of the constructor; [this.ctx] is already in the state. *)
Definition constructor (destination : NodeRef) : M unit :=
  r <- createGain ;; set_outputNode r ;;
  r <- gets outputNode ;; assignValue r gain 1.0 ;;
  setupRatPedal ;;
  setupCompressor ;;
  (* Chain: Drums -> RAT -> Compressor -> Output *)
  a <- gets ratPostGain ;; b <- gets compressor ;; connect a b ;;
  a <- gets compressor ;; b <- gets outputNode ;; connect a b ;;
  a <- gets outputNode ;; connect a destination.

(** [new DrumEngine(ctx, destination)]: the field initialisers
    ([kickModEnabled = false], the default [ratConfig]), then the
    constructor body.  The node fields hold a placeholder until the body
    assigns them. *)
Definition new_DrumEngine (context : AudioContext) (destination : NodeRef) : DrumEngine :=
  exec (constructor destination)
    (mkEngine context 0%nat 0%nat 0%nat 0%nat 0%nat 0%nat 0%nat false
       (RatConfig.mk 0.4 0.8 0.8)).

(* -------------------------------------------------------------------- *)
(** *** Update methods *)

Definition updateRat (config : PartialRatConfig.t) : M unit :=
  rc <- gets ratConfig ;; set_ratConfig (Object_assign rc config) ;;
  now <- gets (fun e => currentTime (ctx e)) ;;
  (* Distortion amount affects pre-gain and curve *)
  rc <- gets ratConfig ;;
  let drive := 1 + (RatConfig.distortion rc * 10) in
  r <- gets ratPreGain ;; setTargetAtTime r gain drive now 0.05 ;;
  rc <- gets ratConfig ;;
  r <- gets ratWaveshaper ;;
  updateNode r (assign_curve (makeRatCurve (RatConfig.distortion rc))) ;;
  (* Filter: 200Hz to 20kHz logarithmic *)
  let minFreq := 200 in
  let maxFreq := 20000 in
  rc <- gets ratConfig ;;
  let freq := minFreq * Rpower (maxFreq / minFreq) (RatConfig.filter rc) in
  r <- gets ratFilter ;; setTargetAtTime r frequency freq now 0.05 ;;
  (* Output volume *)
  rc <- gets ratConfig ;;
  r <- gets ratPostGain ;; setTargetAtTime r gain (RatConfig.volume rc) now 0.05.

Definition setKickMod (enabled : bool) : M unit :=
  set_kickModEnabled enabled.

Definition setMasterVolume (vol : R) : M unit :=
  r <- gets outputNode ;;
  now <- gets (fun e => currentTime (ctx e)) ;;
  setTargetAtTime r gain vol now 0.05.

(* -------------------------------------------------------------------- *)
(** *** Utility *)

Definition createNoiseBuffer_body (i : nat) (data : list R) : M (list R) :=
  r <- Math_random ;;
  ret (<[ i := r * 2 - 1 ]> data).

(** [data] is the channel of [buffer]: the writes of the loop are writes
    to the buffer that is returned. *)
Definition createNoiseBuffer (duration : R) : M AudioBuffer :=
  sampleRate <- gets (fun e => sampleRate (ctx e)) ;;
  let length := Zceil (sampleRate * duration) in
  let buffer := createBuffer 1 length sampleRate in
  let data := channelData buffer in
  data <- for_rangeM (Z.to_nat length) 0 createNoiseBuffer_body data ;;
  ret (mkBuffer (numberOfChannels buffer) (buffer_length buffer)
                (buffer_sampleRate buffer) data).

(** Cleanup. *)
Definition dispose : M unit :=
  r <- gets outputNode ;; disconnect r.

(* -------------------------------------------------------------------- *)
(** *** Kick drum *)

Definition triggerKick (time : R) (config : DrumVoiceConfig.t) : M unit :=
  let volume := DrumVoiceConfig.volume config in
  let tune := DrumVoiceConfig.tune config in
  let velocity := DrumVoiceConfig.velocity config in
  let vel := velocity / 127 in
  let masterVol := volume * vel in
  isModded <- gets kickModEnabled ;;
  (* Tuning maps to base frequency (35-55Hz) *)
  let baseFreq := 35 + (tune * 20) in
  (* === LAYER 1: SUB === *)
  subOsc <- createOscillator ;;
  subGain <- createGain ;;
  updateNode subOsc (assign_oscillator_type sine) ;;
  setValueAtTime subOsc frequency baseFreq time ;;
  setValueAtTime subGain gain 0 time ;;
  linearRampToValueAtTime subGain gain (masterVol * 0.8) (time + 0.005) ;;
  exponentialRampToValueAtTime subGain gain 0.001
    (time + (if isModded then 0.4 else 0.5)) ;;
  connect subOsc subGain ;;
  ri <- gets ratInput ;; connect subGain ri ;;
  start subOsc time ;;
  stop subOsc (time + 0.6) ;;
  (* === LAYER 2: BODY (Pitch Envelope) === *)
  bodyOsc <- createOscillator ;;
  bodyGain <- createGain ;;
  updateNode bodyOsc (assign_oscillator_type sine) ;;
  let startPitch := if isModded then 300 + (tune * 100) else 180 + (tune * 60) in
  let endPitch := baseFreq in
  let pitchTime := if isModded then 0.04 else 0.08 in
  setValueAtTime bodyOsc frequency startPitch time ;;
  exponentialRampToValueAtTime bodyOsc frequency endPitch (time + pitchTime) ;;
  setValueAtTime bodyGain gain (masterVol * (if isModded then 1.2 else 0.9)) time ;;
  exponentialRampToValueAtTime bodyGain gain 0.001
    (time + (if isModded then 0.25 else 0.35)) ;;
  connect bodyOsc bodyGain ;;
  ri <- gets ratInput ;; connect bodyGain ri ;;
  start bodyOsc time ;;
  stop bodyOsc (time + 0.4) ;;
  (* === LAYER 3: CLICK === *)
  clickOsc <- createOscillator ;;
  clickGain <- createGain ;;
  clickFilter <- createBiquadFilter ;;
  updateNode clickOsc (assign_oscillator_type (if isModded then sawtooth else square)) ;;
  setValueAtTime clickOsc frequency (if isModded then 120 else 80) time ;;
  exponentialRampToValueAtTime clickOsc frequency 40 (time + 0.02) ;;
  updateNode clickFilter (assign_filter_type highpass) ;;
  assignValue clickFilter frequency (if isModded then 100 else 60) ;;
  assignValue clickFilter Q 1 ;;
  setValueAtTime clickGain gain (masterVol * (if isModded then 0.5 else 0.3)) time ;;
  exponentialRampToValueAtTime clickGain gain 0.001 (time + 0.03) ;;
  connect clickOsc clickFilter ;;
  connect clickFilter clickGain ;;
  ri <- gets ratInput ;; connect clickGain ri ;;
  start clickOsc time ;;
  stop clickOsc (time + 0.05) ;;
  (* === OPTIONAL: NOISE TRANSIENT (KICK MOD only) === *)
  if isModded then
    noiseBuffer <- createNoiseBuffer 0.02 ;;
    noiseSrc <- createBufferSource ;;
    noiseGain <- createGain ;;
    noiseHP <- createBiquadFilter ;;
    noiseLP <- createBiquadFilter ;;
    updateNode noiseSrc (assign_buffer noiseBuffer) ;;
    updateNode noiseHP (assign_filter_type highpass) ;;
    assignValue noiseHP frequency 500 ;;
    updateNode noiseLP (assign_filter_type lowpass) ;;
    assignValue noiseLP frequency 2000 ;;
    setValueAtTime noiseGain gain (masterVol * 0.2) time ;;
    exponentialRampToValueAtTime noiseGain gain 0.001 (time + 0.015) ;;
    connect noiseSrc noiseHP ;;
    connect noiseHP noiseLP ;;
    connect noiseLP noiseGain ;;
    ri <- gets ratInput ;; connect noiseGain ri ;;
    start noiseSrc time
  else ret tt.

(* -------------------------------------------------------------------- *)
(** *** Snare drum *)

Definition triggerSnare (time : R) (config : DrumVoiceConfig.t) : M unit :=
  let volume := DrumVoiceConfig.volume config in
  let tune := DrumVoiceConfig.tune config in
  let velocity := DrumVoiceConfig.velocity config in
  let vel := velocity / 127 in
  let masterVol := volume * vel in
  (* Tune affects pitch (150-250Hz base) *)
  let bodyFreq := 150 + (tune * 100) in
  (* === LAYER 1: BODY LOW === *)
  bodyLow <- createOscillator ;;
  bodyLowGain <- createGain ;;
  updateNode bodyLow (assign_oscillator_type sine) ;;
  setValueAtTime bodyLow frequency (bodyFreq * 0.8) time ;;
  setValueAtTime bodyLowGain gain (masterVol * 0.5) time ;;
  exponentialRampToValueAtTime bodyLowGain gain 0.001 (time + 0.15) ;;
  connect bodyLow bodyLowGain ;;
  ri <- gets ratInput ;; connect bodyLowGain ri ;;
  start bodyLow time ;;
  stop bodyLow (time + 0.2) ;;
  (* === LAYER 2: BODY HIGH (pitch envelope) === *)
  bodyHigh <- createOscillator ;;
  bodyHighGain <- createGain ;;
  updateNode bodyHigh (assign_oscillator_type triangle) ;;
  setValueAtTime bodyHigh frequency (bodyFreq * 2) time ;;
  exponentialRampToValueAtTime bodyHigh frequency (bodyFreq * 1.2) (time + 0.05) ;;
  setValueAtTime bodyHighGain gain (masterVol * 0.4) time ;;
  exponentialRampToValueAtTime bodyHighGain gain 0.001 (time + 0.1) ;;
  connect bodyHigh bodyHighGain ;;
  ri <- gets ratInput ;; connect bodyHighGain ri ;;
  start bodyHigh time ;;
  stop bodyHigh (time + 0.15) ;;
  (* === LAYER 3: SNARE WIRES (Bandpassed Noise) === *)
  noiseBuffer <- createNoiseBuffer 0.3 ;;
  noiseSrc <- createBufferSource ;;
  noiseGain <- createGain ;;
  noiseHP <- createBiquadFilter ;;
  noiseLP <- createBiquadFilter ;;
  updateNode noiseSrc (assign_buffer noiseBuffer) ;;
  updateNode noiseHP (assign_filter_type highpass) ;;
  assignValue noiseHP frequency 2000 ;;
  assignValue noiseHP Q 0.5 ;;
  updateNode noiseLP (assign_filter_type lowpass) ;;
  assignValue noiseLP frequency (8000 + (tune * 4000)) ;;
  assignValue noiseLP Q 0.5 ;;
  setValueAtTime noiseGain gain (masterVol * 0.6) time ;;
  exponentialRampToValueAtTime noiseGain gain (masterVol * 0.1) (time + 0.08) ;;
  exponentialRampToValueAtTime noiseGain gain 0.001 (time + 0.25) ;;
  connect noiseSrc noiseHP ;;
  connect noiseHP noiseLP ;;
  connect noiseLP noiseGain ;;
  ri <- gets ratInput ;; connect noiseGain ri ;;
  start noiseSrc time ;;
  stop noiseSrc (time + 0.35) ;;
  (* === LAYER 4: TRANSIENT CLICK === *)
  clickBuffer <- createNoiseBuffer 0.01 ;;
  clickSrc <- createBufferSource ;;
  clickGain <- createGain ;;
  clickHP <- createBiquadFilter ;;
  updateNode clickSrc (assign_buffer clickBuffer) ;;
  updateNode clickHP (assign_filter_type highpass) ;;
  assignValue clickHP frequency 1000 ;;
  setValueAtTime clickGain gain (masterVol * 0.3) time ;;
  exponentialRampToValueAtTime clickGain gain 0.001 (time + 0.01) ;;
  connect clickSrc clickHP ;;
  connect clickHP clickGain ;;
  ri <- gets ratInput ;; connect clickGain ri ;;
  start clickSrc time.

(* -------------------------------------------------------------------- *)
(** *** Hi-hat *)

(** The callback of [ratios.forEach]; [oscillators] is the local array
    the callback pushes to. *)
Definition triggerHiHat_osc (time baseFreq : R) (isOpen : bool) (mixGain : NodeRef)
    (ratio : R) (i : nat) (oscillators : list NodeRef) : M (list NodeRef) :=
  osc <- createOscillator ;;
  oscGain <- createGain ;;
  updateNode osc (assign_oscillator_type square) ;;
  assignValue osc frequency (baseFreq * ratio) ;;
  (* Slight random detune for thickness *)
  r <- Math_random ;;
  assignValue osc detune ((r - 0.5) * 20) ;;
  (* Each oscillator slightly different level *)
  assignValue oscGain gain (0.15 - (INR i * 0.02)) ;;
  connect osc oscGain ;;
  connect oscGain mixGain ;;
  start osc time ;;
  stop osc (time + (if isOpen then 0.5 else 0.1)) ;;
  ret (oscillators ++ [osc]).

Definition triggerHiHat (time : R) (config : DrumVoiceConfig.t) (isOpen : bool) : M unit :=
  let volume := DrumVoiceConfig.volume config in
  let tune := DrumVoiceConfig.tune config in
  let velocity := DrumVoiceConfig.velocity config in
  let vel := velocity / 127 in
  let masterVol := volume * vel in
  (* Base frequency (higher tune = higher pitch) *)
  let baseFreq := 300 + (tune * 400) in
  (* Non-harmonic frequency ratios for metallic sound *)
  let ratios := [1.0; 1.34; 1.67; 1.91; 2.18; 2.41] in
  (* Create oscillator bank *)
  let oscillators : list NodeRef := [] in
  mixGain <- createGain ;;
  oscillators <- forEachM ratios 0 (triggerHiHat_osc time baseFreq isOpen mixGain)
                   oscillators ;;
  (* Bandpass filter for metallic character *)
  bp <- createBiquadFilter ;;
  updateNode bp (assign_filter_type bandpass) ;;
  assignValue bp frequency (8000 + (tune * 4000)) ;;
  assignValue bp Q 1.5 ;;
  (* Highpass to remove low rumble *)
  hp <- createBiquadFilter ;;
  updateNode hp (assign_filter_type highpass) ;;
  assignValue hp frequency 6000 ;;
  assignValue hp Q 0.5 ;;
  (* Output envelope *)
  envGain <- createGain ;;
  let decayTime := if isOpen then 0.35 else 0.05 in
  setValueAtTime envGain gain (masterVol * 0.5) time ;;
  exponentialRampToValueAtTime envGain gain 0.001 (time + decayTime) ;;
  (* Connect chain *)
  connect mixGain bp ;;
  connect bp hp ;;
  connect hp envGain ;;
  ri <- gets ratInput ;; connect envGain ri.

(* -------------------------------------------------------------------- *)
(** *** Clap *)

Definition triggerClapBurst (time volume tune : R) : M unit :=
  noiseBuffer <- createNoiseBuffer 0.02 ;;
  noiseSrc <- createBufferSource ;;
  noiseGain <- createGain ;;
  bp <- createBiquadFilter ;;
  updateNode noiseSrc (assign_buffer noiseBuffer) ;;
  updateNode bp (assign_filter_type bandpass) ;;
  assignValue bp frequency (1200 + (tune * 800)) ;;
  assignValue bp Q 2 ;;
  setValueAtTime noiseGain gain volume time ;;
  exponentialRampToValueAtTime noiseGain gain 0.001 (time + 0.015) ;;
  connect noiseSrc bp ;;
  connect bp noiseGain ;;
  ri <- gets ratInput ;; connect noiseGain ri ;;
  start noiseSrc time.

Definition triggerClapTail (time volume tune : R) : M unit :=
  noiseBuffer <- createNoiseBuffer 0.25 ;;
  noiseSrc <- createBufferSource ;;
  noiseGain <- createGain ;;
  bp <- createBiquadFilter ;;
  hp <- createBiquadFilter ;;
  updateNode noiseSrc (assign_buffer noiseBuffer) ;;
  updateNode bp (assign_filter_type bandpass) ;;
  assignValue bp frequency (1500 + (tune * 1000)) ;;
  assignValue bp Q 1 ;;
  updateNode hp (assign_filter_type highpass) ;;
  assignValue hp frequency 800 ;;
  (* Longer decay for tail *)
  setValueAtTime noiseGain gain volume time ;;
  exponentialRampToValueAtTime noiseGain gain 0.001 (time + 0.2) ;;
  connect noiseSrc bp ;;
  connect bp hp ;;
  connect hp noiseGain ;;
  ri <- gets ratInput ;; connect noiseGain ri ;;
  start noiseSrc time ;;
  stop noiseSrc (time + 0.3).

Definition triggerClap (time : R) (config : DrumVoiceConfig.t) : M unit :=
  let volume := DrumVoiceConfig.volume config in
  let tune := DrumVoiceConfig.tune config in
  let velocity := DrumVoiceConfig.velocity config in
  let vel := velocity / 127 in
  let masterVol := volume * vel in
  (* Number of "hands" in the clap *)
  let numBursts := 4%nat in
  let burstSpacing := 0.012 in
  for_rangeM numBursts 0 (fun i _ =>
    let burstTime := time + (INR i * burstSpacing) in
    let burstVol := if (i <? numBursts - 1)%nat then masterVol * 0.4 else masterVol * 0.8 in
    triggerClapBurst burstTime burstVol tune) tt ;;
  (* Add reverb tail *)
  triggerClapTail (time + 0.04) (masterVol * 0.3) tune.

(* -------------------------------------------------------------------- *)
(** *** Drum triggers *)

Definition trigger (type : DrumType) (time : R) (config : DrumVoiceConfig.t) : M unit :=
  match type with
  | KICK => triggerKick time config
  | SNARE => triggerSnare time config
  | HAT => triggerHiHat time config false
  | CLAP => triggerClap time config
  end.

End Engine.

(* ====================================================================== *)
(** ** Observations on the store, closed forms and predicates *)

(** The node behind a reference and one of its parameters. *)
Definition node_at (e : DrumEngine) (r : NodeRef) : option AudioNode :=
  nodes (ctx e) !! r.

Definition param_at (e : DrumEngine) (r : NodeRef) (p : ParamName) : option AudioParam :=
  match node_at e r with
  | Some n => getParam p n
  | None => None
  end.

(** The curve installed in the waveshaper of the chain. *)
Definition curve_at (e : DrumEngine) : option (list R) :=
  match node_at e (ratWaveshaper e) with
  | Some (WaveShaperNode c _) => c
  | _ => None
  end.

(** The value an automation event drives its parameter to. *)
Definition event_value (ev : AutomationEvent) : R :=
  match ev with
  | SetValueAtTime v _ => v
  | LinearRampToValueAtTime v _ => v
  | ExponentialRampToValueAtTime v _ => v
  | SetTargetAtTime target _ _ => target
  end.

(** The target of a parameter: where its last scheduled event drives it,
    or its assigned value when nothing is scheduled. *)
Definition param_target (p : AudioParam) : R :=
  match last (events p) with
  | Some ev => event_value ev
  | None => value p
  end.

(** The target parameters of the effects chain: pre-gain, waveshaper curve,
    filter cutoff and post-gain. *)
Record ChainTargets : Type := mkTargets {
  preGain_target : option R;
  curve_values : option (list R);
  cutoff_target : option R;
  postGain_target : option R
}.

Definition chain_targets (e : DrumEngine) : ChainTargets :=
  {| preGain_target := option_map param_target (param_at e (ratPreGain e) gain);
     curve_values := curve_at e;
     cutoff_target := option_map param_target (param_at e (ratFilter e) frequency);
     postGain_target := option_map param_target (param_at e (ratPostGain e) gain) |}.

(** The targets the stored configuration asks for, as [updateRat]
    computes them. *)
Definition config_targets (rc : RatConfig.t) : ChainTargets :=
  {| preGain_target := Some (1 + RatConfig.distortion rc * 10);
     curve_values := Some (makeRatCurve (RatConfig.distortion rc));
     cutoff_target := Some (200 * Rpower (20000 / 200) (RatConfig.filter rc));
     postGain_target := Some (RatConfig.volume rc) |}.

(** The long-lived nodes of the engine, as the store holds them. *)
Definition chain_refs (e : DrumEngine) : list NodeRef :=
  [outputNode e; ratInput e; ratPreGain e; ratWaveshaper e; ratFilter e;
   ratPostGain e; compressor e].

Definition chain_nodes (e : DrumEngine) : list (option AudioNode) :=
  map (node_at e) (chain_refs e).

(** The engine's node fields refer to seven distinct nodes of the store, of
    the kinds the constructor creates. *)
Definition chain_built (e : DrumEngine) : Prop :=
  (exists g, node_at e (outputNode e) = Some (GainNode g)) /\
  (exists g, node_at e (ratInput e) = Some (GainNode g)) /\
  (exists g, node_at e (ratPreGain e) = Some (GainNode g)) /\
  (exists c o, node_at e (ratWaveshaper e) = Some (WaveShaperNode c o)) /\
  (exists ty f q, node_at e (ratFilter e) = Some (BiquadFilterNode ty f q)) /\
  (exists g, node_at e (ratPostGain e) = Some (GainNode g)) /\
  (exists t k r a rl, node_at e (compressor e) = Some (DynamicsCompressorNode t k r a rl)) /\
  NoDup (chain_refs e).

(** Two nodes of the same kind. *)
Definition same_kind (a b : AudioNode) : Prop :=
  match a, b with
  | GainNode _, GainNode _ => True
  | OscillatorNode _ _ _ _ _, OscillatorNode _ _ _ _ _ => True
  | BiquadFilterNode _ _ _, BiquadFilterNode _ _ _ => True
  | AudioBufferSourceNode _ _ _ _, AudioBufferSourceNode _ _ _ _ => True
  | WaveShaperNode _ _, WaveShaperNode _ _ => True
  | DynamicsCompressorNode _ _ _ _ _, DynamicsCompressorNode _ _ _ _ _ => True
  | AudioDestinationNode, AudioDestinationNode => True
  | _, _ => False
  end.

(** The nodes and connections a call added to the store. *)
Definition new_nodes (before after : DrumEngine) : list AudioNode :=
  drop (length (nodes (ctx before))) (nodes (ctx after)).

Definition new_connections (before after : DrumEngine) : list (NodeRef * NodeRef) :=
  drop (length (connections (ctx before))) (connections (ctx after)).

(** The engine [e] after a call that added the nodes [added] and the
    connections [wires] to the store, left the number of draws at [draws]
    and touched nothing else. *)
Definition grown (e : DrumEngine) (added : list AudioNode) (wires : list (nat * nat))
    (draws : nat) : DrumEngine :=
  mkEngine
    (mkContext (currentTime (ctx e)) (sampleRate (ctx e)) (nodes (ctx e) ++ added)
       (connections (ctx e) ++ wires) draws)
    (outputNode e) (ratInput e) (ratPreGain e) (ratWaveshaper e) (ratFilter e)
    (ratPostGain e) (compressor e) (kickModEnabled e) (ratConfig e).

(** A connection made by a trigger call on [e] that added the nodes
    [added]: it leaves a new node and enters a new node or the input of
    the chain. *)
Definition wire_into (e : DrumEngine) (added : list AudioNode) (w : nat * nat) : Prop :=
  let n0 := length (nodes (ctx e)) in
  (n0 <= fst w < n0 + length added)%nat /\
  ((n0 <= snd w < n0 + length added)%nat \/ snd w = ratInput e).

(** What is scheduled on a source node.  For an oscillator: when it is
    started and when it is stopped.  For a buffer source: the number of
    samples of the buffer it plays, whether it loops, when it is started
    and when it is stopped.  [None] is a buffer, a start or a stop that was
    never set. *)
Inductive SourceLife : Type :=
| OscillatorLife (startTime stopTime : option R)
| BufferSourceLife (samples : option Z) (loop : bool) (startTime stopTime : option R).

Definition source_life (n : AudioNode) : option SourceLife :=
  match n with
  | OscillatorNode _ _ _ s e => Some (OscillatorLife s e)
  | AudioBufferSourceNode b l s e => Some (BufferSourceLife (option_map buffer_length b) l s e)
  | _ => None
  end.

(** The source nodes of a list of nodes, in order, with what is scheduled
    on each. *)
Definition source_lives (l : list AudioNode) : list SourceLife := omap source_life l.

(** Source nodes: oscillators and buffer sources. *)
Definition is_source (n : AudioNode) : bool :=
  match n with
  | OscillatorNode _ _ _ _ _ | AudioBufferSourceNode _ _ _ _ => true
  | _ => false
  end.

Definition is_buffer_source (n : AudioNode) : bool :=
  match n with
  | AudioBufferSourceNode _ _ _ _ => true
  | _ => false
  end.

(** The stop time scheduled on a source node, if any. *)
Definition stop_time (n : AudioNode) : option R :=
  match n with
  | OscillatorNode _ _ _ _ e => e
  | AudioBufferSourceNode _ _ _ e => e
  | _ => None
  end.

Definition start_time (n : AudioNode) : option R :=
  match n with
  | OscillatorNode _ _ _ s _ => s
  | AudioBufferSourceNode _ _ s _ => s
  | _ => None
  end.

(** The documented domains of a [DrumVoiceConfig] and the clamping the
    specification asks for. *)
Definition clamp (lo hi x : R) : R := Rmax lo (Rmin hi x).

Definition clampConfig (c : DrumVoiceConfig.t) : DrumVoiceConfig.t :=
  {| DrumVoiceConfig.volume := clamp 0 1 (DrumVoiceConfig.volume c);
     DrumVoiceConfig.tune := clamp 0 1 (DrumVoiceConfig.tune c);
     DrumVoiceConfig.decay := clamp 0 1 (DrumVoiceConfig.decay c);
     DrumVoiceConfig.tone := clamp 0 1 (DrumVoiceConfig.tone c);
     DrumVoiceConfig.velocity := clamp 0 127 (DrumVoiceConfig.velocity c) |}.

(** A context with nothing in it but its destination, and the engine
    constructed on it. *)
Definition context0 : AudioContext :=
  mkContext 0 44100 [AudioDestinationNode] [] 0.

Definition engine0 : DrumEngine := new_DrumEngine context0 0%nat.

Section NoiseClosedForm.

Variable random : nat -> R.

(** The loop of [createNoiseBuffer] with the draws named: the cell
    [start + j] receives the draw [d0 + j]. *)
Fixpoint noise_fill (n start d0 : nat) (data : list R) : list R :=
  match n with
  | O => data
  | Datatypes.S n' =>
      noise_fill n' (Datatypes.S start) (Datatypes.S d0)
        (<[ start := random d0 * 2 - 1 ]> data)
  end.

(** The buffer [createNoiseBuffer(duration)] returns in a context of
    sample rate [sr] after [d0] draws. *)
Definition noiseBuffer (sr duration : R) (d0 : nat) : AudioBuffer :=
  let len := Zceil (sr * duration) in
  mkBuffer 1 len sr (noise_fill (Z.to_nat len) 0 d0 (Float32Array_new (Z.to_nat len))).

End NoiseClosedForm.

(** The calls a client can make on an engine before it is disposed, and
    the states they reach from a newly constructed engine. *)
Inductive Call : Type :=
| Call_updateRat (config : PartialRatConfig.t)
| Call_setKickMod (enabled : bool)
| Call_setMasterVolume (vol : R)
| Call_trigger (type : DrumType) (time : R) (config : DrumVoiceConfig.t).

Definition call (random : nat -> R) (c : Call) : M unit :=
  match c with
  | Call_updateRat config => updateRat config
  | Call_setKickMod enabled => setKickMod enabled
  | Call_setMasterVolume vol => setMasterVolume vol
  | Call_trigger type time config => trigger random type time config
  end.

Inductive reachable (random : nat -> R) : DrumEngine -> Prop :=
| reachable_new (context : AudioContext) (destination : nat) :
    reachable random (new_DrumEngine context destination)
| reachable_call (e : DrumEngine) (c : Call) :
    reachable random e -> reachable random (exec (call random c) e).

(** [a] is connected to [b] in the store. *)
Definition connected (e : DrumEngine) (a b : nat) : Prop :=
  (a, b) ∈ connections (ctx e).

(** The signal path of the chain, from its input to the master gain. *)
Definition chain_path (e : DrumEngine) : list nat :=
  [ratInput e; ratPreGain e; ratWaveshaper e; ratFilter e; ratPostGain e;
   compressor e; outputNode e].

(** Every node of a path is connected to the next one. *)
Definition wired (e : DrumEngine) (path : list nat) : Prop :=
  forall (i a b : nat),
    path !! i = Some a -> path !! Datatypes.S i = Some b -> connected e a b.

Definition is_oscillator (n : AudioNode) : bool :=
  match n with
  | OscillatorNode _ _ _ _ _ => true
  | _ => false
  end.

(** The parameters of a node and the targets of the exponential ramps
    scheduled on them. *)
Definition node_params (n : AudioNode) : list AudioParam :=
  match n with
  | GainNode g => [g]
  | OscillatorNode _ f d _ _ => [f; d]
  | BiquadFilterNode _ f q => [f; q]
  | DynamicsCompressorNode t k r a rl => [t; k; r; a; rl]
  | _ => []
  end.

Definition exp_ramp_target (ev : AutomationEvent) : list R :=
  match ev with
  | ExponentialRampToValueAtTime v _ => [v]
  | _ => []
  end.

Definition exp_ramp_targets (n : AudioNode) : list R :=
  flat_map (fun p => flat_map exp_ramp_target (events p)) (node_params n).

(** The numbers a node holds: for each of its parameters, the value
    assigned to it followed by the values of the events scheduled on it. *)
Definition param_values (p : AudioParam) : list R :=
  value p :: map event_value (events p).

Definition node_values (n : AudioNode) : list R :=
  flat_map param_values (node_params n).

(** The connections of a list that enter the node [r]. *)
Definition wires_into (r : nat) (wires : list (nat * nat)) : list (nat * nat) :=
  List.filter (fun w => Nat.eqb (snd w) r) wires.

(* ====================================================================== *)
(** * Properties *)

(* ====================================================================== *)
(** ** Hyperbolic tangent and powers *)

Lemma tanh_exp x : tanh x = 1 - 2 / (exp (2 * x) + 1).
Proof.
  unfold tanh, sinh, cosh.
  replace (2 * x) with (x + x) by lra.
  rewrite exp_plus, exp_Ropp.
  pose proof (exp_pos x) as Hp.
  assert (exp x * exp x + 1 > 0) by nra.
  field. split; [|lra].
  intros H0. assert (exp x * exp x + 1 = 0) by (rewrite <- H0; field; lra). lra.
Qed.

Lemma tanh_lt x y : x < y -> tanh x < tanh y.
Proof.
  intros Hxy. rewrite !tanh_exp.
  assert (He : exp (2 * x) < exp (2 * y)) by (apply exp_increasing; lra).
  pose proof (exp_pos (2 * x)) as Hx.
  assert (/ (exp (2 * y) + 1) < / (exp (2 * x) + 1)).
  { apply Rinv_lt_contravar; [nra|lra]. }
  unfold Rdiv. lra.
Qed.

Lemma tanh_at_0 : tanh 0 = 0.
Proof. rewrite tanh_exp, Rmult_0_r, exp_0. lra. Qed.

Lemma tanh_pos x : 0 < x -> 0 < tanh x.
Proof. intros H. rewrite <- tanh_at_0. apply tanh_lt, H. Qed.

Lemma tanh_neg x : x < 0 -> tanh x < 0.
Proof. intros H. rewrite <- tanh_at_0. apply tanh_lt, H. Qed.

Lemma tanh_lt_1 x : tanh x < 1.
Proof.
  rewrite tanh_exp. pose proof (exp_pos (2 * x)).
  assert (0 < 2 / (exp (2 * x) + 1)) by (apply Rdiv_lt_0_compat; lra). lra.
Qed.

Lemma tanh_opp x : tanh (- x) = - tanh x.
Proof.
  rewrite !tanh_exp.
  replace (2 * - x) with (- (2 * x)) by lra.
  rewrite exp_Ropp. pose proof (exp_pos (2 * x)) as Hp.
  field. split; lra.
Qed.



Lemma INR_to_nat (z : Z) : (0 <= z)%Z -> INR (Z.to_nat z) = IZR z.
Proof. intros Hz. rewrite INR_IZR_INZ, Z2Nat.id by exact Hz. reflexivity. Qed.

(* ====================================================================== *)
(** ** The waveshaper curve *)

(* ---------------------------------------------------------------------- *)
(** *** The loop fills every cell *)

Lemma for_range_length (f : nat -> R) body n start (c : list R) :
  (forall i c', body i c' = <[ i := f i ]> c') ->
  length (for_range n start body c) = length c.
Proof.
  intros Hb. revert start c.
  induction n as [|n IH]; intros start c; simpl; [reflexivity|].
  rewrite IH, Hb. apply length_insert.
Qed.

Lemma for_range_lookup (f : nat -> R) body n start (c : list R) (j : nat) :
  (forall i c', body i c' = <[ i := f i ]> c') ->
  (j < length c)%nat ->
  for_range n start body c !! j =
    if decide (start <= j < start + n)%nat then Some (f j) else c !! j.
Proof.
  intros Hb. revert start c.
  induction n as [|n IH]; intros start c Hj; simpl.
  - destruct (decide _) as [H|H]; [lia|reflexivity].
  - rewrite IH by (rewrite Hb, length_insert; exact Hj).
    rewrite Hb.
    destruct (decide (Datatypes.S start <= j < Datatypes.S start + n)%nat) as [H|H].
    + destruct (decide _) as [_|H']; [reflexivity|lia].
    + destruct (decide (start = j)) as [->|Hne].
      * rewrite list_lookup_insert_eq by exact Hj.
        destruct (decide _) as [_|H']; [reflexivity|lia].
      * rewrite list_lookup_insert_ne by exact Hne.
        destruct (decide _) as [H'|_]; [lia|reflexivity].
Qed.

Lemma makeRatCurve_body_insert k i c :
  makeRatCurve_body k i c = <[ i := rat_shape k (curve_x i) ]> c.
Proof.
  unfold makeRatCurve_body, rat_shape.
  destruct (Rge_dec (curve_x i) 0); reflexivity.
Qed.

Lemma makeRatCurve_length amount :
  length (makeRatCurve amount) = Z.to_nat 44100.
Proof.
  unfold makeRatCurve.
  rewrite (for_range_length (fun i => rat_shape (amount * 50 + 1) (curve_x i)))
    by (intros; apply makeRatCurve_body_insert).
  apply length_replicate.
Qed.

Lemma makeRatCurve_lookup amount (i : nat) :
  (i < Z.to_nat 44100)%nat ->
  makeRatCurve amount !! i = Some (rat_shape (amount * 50 + 1) (curve_x i)).
Proof.
  intros Hi. unfold makeRatCurve.
  rewrite (for_range_lookup (fun i => rat_shape (amount * 50 + 1) (curve_x i)))
    by (first [ intros; apply makeRatCurve_body_insert
              | unfold Float32Array_new; rewrite length_replicate; exact Hi ]).
  destruct (decide _) as [_|H]; [reflexivity|].
  exfalso. apply H. unfold samples. lia.
Qed.

(** C4.  For every drive amount in [0,1] the curve has exactly 44100
    entries, and with [k = driveAmount*50 + 1] and [x = 2*i/N - 1] the entry
    at index [i] is [tanh(x*k*1.2)*0.9] when [x >= 0] and [tanh(x*k*0.8)]
    when [x < 0]. *)
Theorem makeRatCurve_spec (driveAmount : R) :
  0 <= driveAmount <= 1 ->
  length (makeRatCurve driveAmount) = Z.to_nat 44100 /\
  forall i : nat, (i < Z.to_nat 44100)%nat ->
    let k := driveAmount * 50 + 1 in
    let x := 2 * INR i / 44100 - 1 in
    (0 <= x -> makeRatCurve driveAmount !! i = Some (tanh (x * k * 1.2) * 0.9)) /\
    (x < 0 -> makeRatCurve driveAmount !! i = Some (tanh (x * k * 0.8))).
Proof.
  intros _. split; [apply makeRatCurve_length|].
  intros i Hi k x.
  rewrite (makeRatCurve_lookup _ _ Hi).
  assert (Hx : curve_x i = x).
  { unfold curve_x, x, samples. lra. }
  rewrite Hx. fold k. unfold rat_shape.
  split; intros H; destruct (Rge_dec x 0) as [Hge|Hlt]; try reflexivity; lra.
Qed.

Lemma makeRatCurve_spec_witness :
  length (makeRatCurve (1/2)) = Z.to_nat 44100 /\
  forall i : nat, (i < Z.to_nat 44100)%nat ->
    let k := 1/2 * 50 + 1 in
    let x := 2 * INR i / 44100 - 1 in
    (0 <= x -> makeRatCurve (1/2) !! i = Some (tanh (x * k * 1.2) * 0.9)) /\
    (x < 0 -> makeRatCurve (1/2) !! i = Some (tanh (x * k * 0.8))).
Proof. apply (makeRatCurve_spec (1/2)). lra. Defined.

(* ---------------------------------------------------------------------- *)
(** *** Asymmetry of the curve at full distortion *)

Lemma curve_x_IZR (i : Z) : (0 <= i)%Z -> curve_x (Z.to_nat i) = 2 * IZR i / 44100 - 1.
Proof. intros Hi. unfold curve_x, samples. rewrite INR_to_nat by exact Hi. lra. Qed.

Lemma rat_shape_pos k x : 0 < x -> rat_shape k x = tanh (x * k * 1.2) * 0.9.
Proof. intros Hx. unfold rat_shape. destruct (Rge_dec x 0); [reflexivity|lra]. Qed.







(* ====================================================================== *)
(** ** Running the methods

    The methods are run one platform call at a time on a store whose node
    list and connection list are written [ns ++ l] and [cs ++ c]: [ns] and
    [cs] are what the store held before the call, [l] and [c] are what the
    call has added so far. *)

Lemma bind_gets {A B : Type} (f : DrumEngine -> A) (k : A -> M B) e :
  bind (gets f) k e = k (f e) e.
Proof. reflexivity. Qed.

Lemma bind_ret {A B : Type} (a : A) (k : A -> M B) e : bind (ret a) k e = k a e.
Proof. reflexivity. Qed.

Lemma bind_modify {B : Type} (f : DrumEngine -> DrumEngine) (k : unit -> M B) e :
  bind (modify f) k e = k tt (f e).
Proof. reflexivity. Qed.

Lemma bind_bind {A B C : Type} (m : M A) (k1 : A -> M B) (k2 : B -> M C) e :
  bind (bind m k1) k2 e = bind m (fun a => bind (k1 a) k2) e.
Proof. unfold bind. destruct (m e). reflexivity. Qed.

Lemma exec_bind_ret {A : Type} (m : M A) e : exec m e = snd (bind m ret e).
Proof. unfold exec, bind, ret. destruct (m e). reflexivity. Qed.

Lemma bind_createNode {B : Type} n (k : NodeRef -> M B)
    t sr ns l cs d o ri rp rw rf rpo co km rc :
  bind (createNode n) k
    (mkEngine (mkContext t sr (ns ++ l) cs d) o ri rp rw rf rpo co km rc) =
  k (length ns + length l)%nat
    (mkEngine (mkContext t sr (ns ++ (l ++ [n])) cs d) o ri rp rw rf rpo co km rc).
Proof.
  unfold bind, createNode, with_ctx, with_nodes. cbn.
  rewrite length_app, <- app_assoc. reflexivity.
Qed.

Lemma bind_updateNode {B : Type} j f (k : unit -> M B)
    t sr ns l cs d o ri rp rw rf rpo co km rc :
  bind (updateNode (length ns + j)%nat f) k
    (mkEngine (mkContext t sr (ns ++ l) cs d) o ri rp rw rf rpo co km rc) =
  k tt (mkEngine (mkContext t sr (ns ++ alter f j l) cs d) o ri rp rw rf rpo co km rc).
Proof.
  unfold bind, updateNode, modify, with_ctx, with_nodes. cbn.
  rewrite alter_app_r. reflexivity.
Qed.

Lemma bind_connect {B : Type} a b (k : unit -> M B)
    t sr ns cs c d o ri rp rw rf rpo co km rc :
  bind (connect a b) k
    (mkEngine (mkContext t sr ns (cs ++ c) d) o ri rp rw rf rpo co km rc) =
  k tt (mkEngine (mkContext t sr ns (cs ++ (c ++ [(a, b)])) d) o ri rp rw rf rpo co km rc).
Proof.
  unfold bind, connect, modify, with_ctx, with_connections. cbn.
  rewrite <- app_assoc. reflexivity.
Qed.

Section Running.

Variable random : nat -> R.

Lemma bind_Math_random {B : Type} (k : R -> M B)
    t sr ns cs d o ri rp rw rf rpo co km rc :
  bind (Math_random random) k
    (mkEngine (mkContext t sr ns cs d) o ri rp rw rf rpo co km rc) =
  k (random d)
    (mkEngine (mkContext t sr ns cs (Datatypes.S d)) o ri rp rw rf rpo co km rc).
Proof. reflexivity. Qed.

(** The loop of [createNoiseBuffer] makes [n] draws and leaves the rest
    of the state alone. *)
Lemma createNoiseBuffer_loop n :
  forall start data t sr ns cs d o ri rp rw rf rpo co km rc,
    for_rangeM n start (createNoiseBuffer_body random) data
      (mkEngine (mkContext t sr ns cs d) o ri rp rw rf rpo co km rc) =
    (noise_fill random n start d data,
     mkEngine (mkContext t sr ns cs (d + n)%nat) o ri rp rw rf rpo co km rc).
Proof.
  induction n as [|n IH]; intros; simpl.
  - unfold ret. rewrite Nat.add_0_r. reflexivity.
  - unfold createNoiseBuffer_body at 1.
    rewrite bind_bind, bind_Math_random, bind_ret, IH.
    replace (Datatypes.S d + n)%nat with (d + Datatypes.S n)%nat by lia.
    reflexivity.
Qed.

Lemma createNoiseBuffer_run duration t sr ns cs d o ri rp rw rf rpo co km rc :
  createNoiseBuffer random duration
    (mkEngine (mkContext t sr ns cs d) o ri rp rw rf rpo co km rc) =
  (noiseBuffer random sr duration d,
   mkEngine (mkContext t sr ns cs (d + Z.to_nat (Zceil (sr * duration)))%nat)
     o ri rp rw rf rpo co km rc).
Proof.
  unfold createNoiseBuffer. rewrite bind_gets. cbn [ctx sampleRate]. cbv zeta.
  unfold bind. rewrite createNoiseBuffer_loop. reflexivity.
Qed.

Lemma bind_createNoiseBuffer {B : Type} duration (k : AudioBuffer -> M B)
    t sr ns cs d o ri rp rw rf rpo co km rc :
  bind (createNoiseBuffer random duration) k
    (mkEngine (mkContext t sr ns cs d) o ri rp rw rf rpo co km rc) =
  k (noiseBuffer random sr duration d)
    (mkEngine (mkContext t sr ns cs (d + Z.to_nat (Zceil (sr * duration)))%nat)
       o ri rp rw rf rpo co km rc).
Proof. unfold bind at 1. rewrite createNoiseBuffer_run. reflexivity. Qed.

(* -------------------------------------------------------------------- *)
(** *** The noise buffer *)

Lemma noise_fill_length n : forall start d0 data,
  length (noise_fill random n start d0 data) = length data.
Proof.
  induction n as [|n IH]; intros; simpl; [reflexivity|].
  rewrite IH. apply length_insert.
Qed.

Lemma noise_fill_Forall (P : R -> Prop) n : forall start d0 data,
  (forall k, P (random k * 2 - 1)) ->
  Forall P data ->
  Forall P (noise_fill random n start d0 data).
Proof.
  induction n as [|n IH]; intros start d0 data HP Hd; simpl; [exact Hd|].
  apply IH; [exact HP|]. apply Forall_insert; [exact Hd|apply HP].
Qed.

(** Every cell the loop visits holds a draw, scaled to [2r - 1]. *)
Lemma noise_fill_lookup n : forall start d0 (data : list R) (j : nat),
  (j < length data)%nat ->
  noise_fill random n start d0 data !! j =
    if decide (start <= j < start + n)%nat
    then Some (random (d0 + (j - start))%nat * 2 - 1)
    else data !! j.
Proof.
  induction n as [|n IH]; intros start d0 data j Hj; simpl.
  - destruct (decide _) as [H|H]; [lia|reflexivity].
  - rewrite IH by (rewrite length_insert; exact Hj).
    destruct (decide (Datatypes.S start <= j < Datatypes.S start + n)%nat) as [H|H].
    + destruct (decide _) as [_|H']; [|lia].
      replace (Datatypes.S d0 + (j - Datatypes.S start))%nat
        with (d0 + (j - start))%nat by lia.
      reflexivity.
    + destruct (decide (start = j)) as [->|Hne].
      * rewrite list_lookup_insert_eq by exact Hj.
        destruct (decide _) as [_|H']; [|lia].
        rewrite Nat.sub_diag, Nat.add_0_r. reflexivity.
      * rewrite list_lookup_insert_ne by exact Hne.
        destruct (decide _) as [H'|_]; [lia|reflexivity].
Qed.

Lemma Zceil_pos x : 0 < x -> (0 < Zceil x)%Z.
Proof.
  intros Hx. apply lt_IZR. pose proof (Zceil_bound x) as Hb. lra.
Qed.

(** C7.  For every duration > 0 and every (positive) sample rate, the
    noise buffer generator returns a buffer of length
    [ceil(duration * sampleRate)] in which every sample lies in [-1, 1]. *)
Theorem createNoiseBuffer_spec (duration : R) (e : DrumEngine) :
  (forall n, 0 <= random n < 1) ->
  0 < duration ->
  0 < sampleRate (ctx e) ->
  let buffer := fst (createNoiseBuffer random duration e) in
  buffer_length buffer = Zceil (duration * sampleRate (ctx e)) /\
  Z.of_nat (length (channelData buffer)) = Zceil (duration * sampleRate (ctx e)) /\
  Forall (fun s => -1 <= s <= 1) (channelData buffer).
Proof.
  intros Hr Hd Hsr.
  destruct e as [[t sr ns cs d] o ri rp rw rf rpo co km rc].
  cbn [ctx sampleRate] in *.
  rewrite createNoiseBuffer_run. cbn [fst]. cbv zeta.
  unfold noiseBuffer. cbn [buffer_length channelData].
  rewrite (Rmult_comm duration sr).
  assert (Hpos : (0 < Zceil (sr * duration))%Z) by (apply Zceil_pos; nra).
  split; [reflexivity|]. split.
  - rewrite noise_fill_length. unfold Float32Array_new.
    rewrite length_replicate. lia.
  - apply noise_fill_Forall.
    + intros k. specialize (Hr k). lra.
    + unfold Float32Array_new. apply Forall_replicate. lra.
Qed.

End Running.

Lemma engine0_sampleRate : sampleRate (ctx engine0) = 44100.
Proof. reflexivity. Qed.

Lemma createNoiseBuffer_spec_witness :
  let buffer := fst (createNoiseBuffer (fun _ => 0) 1 engine0) in
  buffer_length buffer = Zceil (1 * sampleRate (ctx engine0)) /\
  Z.of_nat (length (channelData buffer)) = Zceil (1 * sampleRate (ctx engine0)) /\
  Forall (fun s => -1 <= s <= 1) (channelData buffer).
Proof.
  apply (createNoiseBuffer_spec (fun _ => 0) 1 engine0).
  - intros _. lra.
  - lra.
  - rewrite engine0_sampleRate. lra.
Defined.

(* ---------------------------------------------------------------------- *)
(** *** Tactics *)

Ltac unfold_methods :=
  cbv beta iota zeta delta
    [new_DrumEngine constructor setupRatPedal setupCompressor updateRat setKickMod
     setMasterVolume dispose
     trigger triggerKick triggerSnare triggerHiHat triggerHiHat_osc triggerClap
     triggerClapBurst triggerClapTail
     set_outputNode set_ratInput set_ratPreGain set_ratWaveshaper set_ratFilter
     set_ratPostGain set_compressor set_kickModEnabled set_ratConfig
     createGain createOscillator createBiquadFilter createBufferSource createWaveShaper
     createDynamicsCompressor assignValue setValueAtTime linearRampToValueAtTime
     exponentialRampToValueAtTime setTargetAtTime start stop].

Ltac step_simpl :=
  cbn [length app alter list_alter alterParam
       assign_oscillator_type assign_filter_type assign_buffer assign_curve
       assign_oversample schedule_start schedule_stop
       ctx outputNode ratInput ratPreGain ratWaveshaper ratFilter ratPostGain compressor
       kickModEnabled ratConfig currentTime sampleRate nodes connections randomDraws
       for_rangeM forEachM Nat.ltb Nat.leb Nat.sub].

Ltac step :=
  first [ rewrite bind_gets | rewrite bind_ret | rewrite bind_modify | rewrite bind_bind
        | rewrite bind_createNode | rewrite bind_updateNode | rewrite bind_connect
        | rewrite bind_Math_random | rewrite bind_createNoiseBuffer ];
  step_simpl.

(** Run a method to the end on a store in the form [ns ++ l], [cs ++ c]. *)
Ltac run :=
  rewrite exec_bind_ret; unfold_methods; repeat step;
  cbv beta iota delta [ret snd schedule assign_value]; cbn [value events app].

(** Evaluate the observations on a store that is written out. *)
Ltac observe :=
  cbv [chain_targets param_at node_at curve_at chain_nodes chain_refs
       ctx nodes outputNode ratInput ratPreGain ratWaveshaper ratFilter ratPostGain
       compressor lookup list_lookup getParam option_map param_target events value last
       map].

(** Equalities between nodes that differ in how a number is written. *)
Ltac num_eq := first [ reflexivity | lra | (f_equal; num_eq) ].

Lemma lookup_app_plus {A : Type} (ns l : list A) (k : nat) :
  (ns ++ l) !! (length ns + k)%nat = l !! k.
Proof. rewrite lookup_app_r by lia. f_equal. lia. Qed.

(* ====================================================================== *)
(** ** The constructor *)

(** What [new DrumEngine(ctx, destination)] adds to a context: the master
    gain, the five nodes of the pedal and the compressor, wired
    input -> pre-gain -> waveshaper -> filter -> post-gain -> compressor ->
    master gain -> destination. *)
Lemma new_DrumEngine_eq t sr ns cs d dest :
  new_DrumEngine (mkContext t sr ns cs d) dest =
  mkEngine
    (mkContext t sr
       (ns ++
        [GainNode (mkParam 1.0 []);
         GainNode (mkParam 1.0 []);
         GainNode (mkParam 1.0 []);
         WaveShaperNode (Some (makeRatCurve 0.4)) oversample_4x;
         BiquadFilterNode lowpass (mkParam 8000 []) (mkParam 0.7 []);
         GainNode (mkParam 0.8 []);
         DynamicsCompressorNode (mkParam (-12) []) (mkParam 6 []) (mkParam 4 [])
           (mkParam 0.003 []) (mkParam 0.15 [])])
       (cs ++
        [((length ns + 1)%nat, (length ns + 2)%nat);
         ((length ns + 2)%nat, (length ns + 3)%nat);
         ((length ns + 3)%nat, (length ns + 4)%nat);
         ((length ns + 4)%nat, (length ns + 5)%nat);
         ((length ns + 5)%nat, (length ns + 6)%nat);
         ((length ns + 6)%nat, (length ns + 0)%nat);
         ((length ns + 0)%nat, dest)])
       d)
    (length ns + 0)%nat (length ns + 1)%nat (length ns + 2)%nat (length ns + 3)%nat
    (length ns + 4)%nat (length ns + 5)%nat (length ns + 6)%nat
    false (RatConfig.mk 0.4 0.8 0.8).
Proof.
  rewrite <- (app_nil_r ns) at 1. rewrite <- (app_nil_r cs) at 1.
  unfold new_DrumEngine. run. reflexivity.
Qed.

Lemma NoDup_offsets (n : nat) :
  NoDup [(n + 0)%nat; (n + 1)%nat; (n + 2)%nat; (n + 3)%nat; (n + 4)%nat;
         (n + 5)%nat; (n + 6)%nat].
Proof.
  repeat (apply NoDup_cons_2;
          [rewrite ?not_elem_of_cons; repeat split; try lia; apply not_elem_of_nil|]).
  apply NoDup_nil_2.
Qed.

Lemma new_DrumEngine_chain_built context dest :
  chain_built (new_DrumEngine context dest).
Proof.
  destruct context as [t sr ns cs d]. rewrite new_DrumEngine_eq.
  unfold chain_built, node_at, chain_refs.
  cbn [ctx nodes outputNode ratInput ratPreGain ratWaveshaper ratFilter ratPostGain
       compressor].
  rewrite !lookup_app_plus. cbn.
  repeat split; eauto 10 using NoDup_offsets.
Qed.

Lemma engine0_chain_built : chain_built engine0.
Proof. apply new_DrumEngine_chain_built. Qed.

(** The seven references of a built chain are pairwise different. *)
Lemma chain_built_distinct e :
  chain_built e ->
  ratPreGain e <> ratWaveshaper e /\ ratPreGain e <> ratFilter e /\
  ratPreGain e <> ratPostGain e /\ ratWaveshaper e <> ratFilter e /\
  ratWaveshaper e <> ratPostGain e /\ ratFilter e <> ratPostGain e.
Proof.
  intros (_ & _ & _ & _ & _ & _ & _ & Hnd). unfold chain_refs in Hnd.
  repeat (apply NoDup_cons in Hnd as [? Hnd]).
  repeat match goal with
         | H : _ ∉ _ :: _ |- _ => apply not_elem_of_cons in H as [? ?]
         end.
  repeat split; assumption.
Qed.

(* ====================================================================== *)
(** ** The distortion update ([updateRat]) *)

(** The state [updateRat] leaves: the merged configuration, and four
    writes to the store. *)
Lemma updateRat_exec (config : PartialRatConfig.t) (e : DrumEngine) :
  exec (updateRat config) e =
  let rc := Object_assign (ratConfig e) config in
  let now := currentTime (ctx e) in
  mkEngine
    (mkContext (currentTime (ctx e)) (sampleRate (ctx e))
       (alter (alterParam gain (schedule (SetTargetAtTime (RatConfig.volume rc) now 0.05)))
          (ratPostGain e)
          (alter (alterParam frequency (schedule
                    (SetTargetAtTime (200 * Rpower (20000 / 200) (RatConfig.filter rc))
                       now 0.05)))
             (ratFilter e)
             (alter (assign_curve (makeRatCurve (RatConfig.distortion rc)))
                (ratWaveshaper e)
                (alter (alterParam gain (schedule
                          (SetTargetAtTime (1 + RatConfig.distortion rc * 10) now 0.05)))
                   (ratPreGain e) (nodes (ctx e))))))
       (connections (ctx e)) (randomDraws (ctx e)))
    (outputNode e) (ratInput e) (ratPreGain e) (ratWaveshaper e) (ratFilter e)
    (ratPostGain e) (compressor e) (kickModEnabled e) rc.
Proof. destruct e as [[t sr ns cs d] o ri rp rw rf rpo co km rc]. reflexivity. Qed.

(** What [updateRat] does to each node of a built chain. *)
Lemma updateRat_effect (config : PartialRatConfig.t) (e : DrumEngine) :
  chain_built e ->
  let e' := exec (updateRat config) e in
  let rc := Object_assign (ratConfig e) config in
  let now := currentTime (ctx e) in
  (forall g, node_at e (ratPreGain e) = Some (GainNode g) ->
     node_at e' (ratPreGain e) =
       Some (GainNode (schedule (SetTargetAtTime (1 + RatConfig.distortion rc * 10) now 0.05) g))) /\
  (forall c o, node_at e (ratWaveshaper e) = Some (WaveShaperNode c o) ->
     node_at e' (ratWaveshaper e) =
       Some (WaveShaperNode (Some (makeRatCurve (RatConfig.distortion rc))) o)) /\
  (forall ty f q, node_at e (ratFilter e) = Some (BiquadFilterNode ty f q) ->
     node_at e' (ratFilter e) =
       Some (BiquadFilterNode ty
               (schedule (SetTargetAtTime (200 * Rpower (20000 / 200) (RatConfig.filter rc))
                            now 0.05) f) q)) /\
  (forall g, node_at e (ratPostGain e) = Some (GainNode g) ->
     node_at e' (ratPostGain e) =
       Some (GainNode (schedule (SetTargetAtTime (RatConfig.volume rc) now 0.05) g))) /\
  (forall r, r <> ratPreGain e -> r <> ratWaveshaper e -> r <> ratFilter e ->
     r <> ratPostGain e -> node_at e' r = node_at e r).
Proof.
  intros Hb e' rc now.
  destruct (chain_built_distinct e Hb) as (H1 & H2 & H3 & H4 & H5 & H6).
  subst e'. rewrite updateRat_exec. cbv zeta. fold rc now.
  unfold node_at. cbn [ctx nodes].
  repeat split.
  - intros g Hg.
    rewrite !list_lookup_alter_ne by congruence.
    rewrite list_lookup_alter_eq, Hg. reflexivity.
  - intros c o Hc.
    rewrite !list_lookup_alter_ne by congruence.
    rewrite list_lookup_alter_eq, list_lookup_alter_ne, Hc by congruence. reflexivity.
  - intros ty f q Hf.
    rewrite list_lookup_alter_ne by congruence.
    rewrite list_lookup_alter_eq, !list_lookup_alter_ne, Hf by congruence. reflexivity.
  - intros g Hg.
    rewrite list_lookup_alter_eq, !list_lookup_alter_ne, Hg by congruence. reflexivity.
  - intros r Hr1 Hr2 Hr3 Hr4.
    rewrite !list_lookup_alter_ne by congruence. reflexivity.
Qed.

Lemma updateRat_fields (config : PartialRatConfig.t) (e : DrumEngine) :
  ratConfig (exec (updateRat config) e) = Object_assign (ratConfig e) config /\
  outputNode (exec (updateRat config) e) = outputNode e /\
  ratInput (exec (updateRat config) e) = ratInput e /\
  ratPreGain (exec (updateRat config) e) = ratPreGain e /\
  ratWaveshaper (exec (updateRat config) e) = ratWaveshaper e /\
  ratFilter (exec (updateRat config) e) = ratFilter e /\
  ratPostGain (exec (updateRat config) e) = ratPostGain e /\
  compressor (exec (updateRat config) e) = compressor e /\
  kickModEnabled (exec (updateRat config) e) = kickModEnabled e /\
  currentTime (ctx (exec (updateRat config) e)) = currentTime (ctx e) /\
  sampleRate (ctx (exec (updateRat config) e)) = sampleRate (ctx e) /\
  connections (ctx (exec (updateRat config) e)) = connections (ctx e) /\
  length (nodes (ctx (exec (updateRat config) e))) = length (nodes (ctx e)).
Proof.
  rewrite updateRat_exec. cbv zeta.
  cbn [ratConfig outputNode ratInput ratPreGain ratWaveshaper ratFilter ratPostGain
       compressor kickModEnabled ctx currentTime sampleRate connections nodes].
  rewrite !length_alter. repeat split; reflexivity.
Qed.

Lemma updateRat_chain_built (config : PartialRatConfig.t) (e : DrumEngine) :
  chain_built e -> chain_built (exec (updateRat config) e).
Proof.
  intros Hb.
  destruct (updateRat_effect config e Hb) as (Hpre & Hws & Hf & Hpost & Hother).
  pose proof Hb as ((g0 & Ho) & (gi & Hi) & (g1 & Hg1) & (c & ov & Hc)
                       & (ty & f & q & Hq) & (g2 & Hg2)
                       & (ct & ck & cr & ca & crl & Hco) & Hnd).
  destruct (updateRat_fields config e)
    as (_ & Eo & Eri & Erp & Erw & Erf & Erpo & Eco & _).
  assert (Hother' : forall r, r ∈ [outputNode e; ratInput e; compressor e] ->
            node_at (exec (updateRat config) e) r = node_at e r).
  { intros r Hr. unfold chain_refs in Hnd.
    apply Hother; intros ->;
      repeat (apply NoDup_cons in Hnd as [? Hnd]);
      repeat match goal with
             | H : _ ∉ _ :: _ |- _ => apply not_elem_of_cons in H as [? ?]
             end;
      repeat match goal with
             | H : _ ∈ _ :: _ |- _ => apply elem_of_cons in H as [?|H]
             | H : _ ∈ [] |- _ => apply elem_of_nil in H; contradiction
             end; congruence. }
  unfold chain_built, chain_refs.
  rewrite Eo, Eri, Erp, Erw, Erf, Erpo, Eco.
  rewrite (Hother' (outputNode e)), (Hother' (ratInput e)), (Hother' (compressor e))
    by (rewrite !elem_of_cons; auto).
  rewrite (Hpre _ Hg1), (Hws _ _ Hc), (Hf _ _ _ Hq), (Hpost _ Hg2), Ho, Hi, Hco.
  repeat split; eauto 10.
Qed.

Lemma param_target_schedule ev p : param_target (schedule ev p) = event_value ev.
Proof. unfold param_target, schedule. cbn [events]. rewrite last_snoc. reflexivity. Qed.

(** After an update the targets of the chain are those of the stored
    configuration. *)
Lemma updateRat_targets (config : PartialRatConfig.t) (e : DrumEngine) :
  chain_built e ->
  chain_targets (exec (updateRat config) e) =
  config_targets (ratConfig (exec (updateRat config) e)).
Proof.
  intros Hb.
  destruct (updateRat_effect config e Hb) as (Hpre & Hws & Hf & Hpost & _).
  destruct (updateRat_fields config e) as (Hrc & _ & _ & Erp & Erw & Erf & Erpo & _).
  pose proof Hb as (_ & _ & (g1 & Hg1) & (c & ov & Hc) & (ty & f & q & Hq)
                      & (g2 & Hg2) & _).
  unfold chain_targets, config_targets, param_at, curve_at.
  rewrite Erp, Erw, Erf, Erpo, Hrc.
  rewrite (Hpre _ Hg1), (Hws _ _ Hc), (Hf _ _ _ Hq), (Hpost _ Hg2).
  cbn [getParam option_map]. rewrite !param_target_schedule. reflexivity.
Qed.

Lemma Object_assign_empty (rc : RatConfig.t) :
  Object_assign rc PartialRatConfig.empty = rc.
Proof. destruct rc. reflexivity. Qed.

(* ---------------------------------------------------------------------- *)
(** *** The filter cutoff *)

Lemma cutoff_increasing f1 f2 :
  f1 < f2 -> 200 * Rpower (20000 / 200) f1 < 200 * Rpower (20000 / 200) f2.
Proof.
  intros H. apply Rmult_lt_compat_l; [lra|].
  apply Rpower_lt; [lra|exact H].
Qed.

(** C5.  The filter cutoff that the distortion update schedules is
    [200 * (20000/200)^filter]; it is strictly increasing in [filter] over
    [0,1], is 200 Hz at [filter = 0] and 20000 Hz at [filter = 1]. *)
Theorem updateRat_cutoff (e : DrumEngine) :
  chain_built e ->
  exists cutoff : R -> R,
    (forall config : PartialRatConfig.t,
       let e' := exec (updateRat config) e in
       cutoff_target (chain_targets e') = Some (cutoff (RatConfig.filter (ratConfig e')))) /\
    (forall d f v,
       ratConfig (exec (updateRat (PartialRatConfig.mk d (Some f) v)) e) =
       RatConfig.mk (default (RatConfig.distortion (ratConfig e)) d) f
                    (default (RatConfig.volume (ratConfig e)) v)) /\
    (forall f, cutoff f = 200 * Rpower (20000 / 200) f) /\
    (forall f1 f2, 0 <= f1 -> f1 < f2 -> f2 <= 1 -> cutoff f1 < cutoff f2) /\
    cutoff 0 = 200 /\
    cutoff 1 = 20000.
Proof.
  intros Hb. exists (fun f => 200 * Rpower (20000 / 200) f).
  split; [|split; [|split; [|split; [|split]]]].
  - intros config e'. subst e'.
    rewrite (updateRat_targets config e Hb). reflexivity.
  - intros d f v. rewrite updateRat_exec. reflexivity.
  - reflexivity.
  - intros f1 f2 _ Hlt _. apply cutoff_increasing, Hlt.
  - rewrite Rpower_O by lra. lra.
  - rewrite Rpower_1 by lra. lra.
Qed.

Lemma updateRat_cutoff_witness :
  exists cutoff : R -> R,
    (forall config : PartialRatConfig.t,
       let e' := exec (updateRat config) engine0 in
       cutoff_target (chain_targets e') = Some (cutoff (RatConfig.filter (ratConfig e')))) /\
    (forall d f v,
       ratConfig (exec (updateRat (PartialRatConfig.mk d (Some f) v)) engine0) =
       RatConfig.mk (default (RatConfig.distortion (ratConfig engine0)) d) f
                    (default (RatConfig.volume (ratConfig engine0)) v)) /\
    (forall f, cutoff f = 200 * Rpower (20000 / 200) f) /\
    (forall f1 f2, 0 <= f1 -> f1 < f2 -> f2 <= 1 -> cutoff f1 < cutoff f2) /\
    cutoff 0 = 200 /\
    cutoff 1 = 20000.
Proof. apply (updateRat_cutoff engine0). exact engine0_chain_built. Defined.

(* ---------------------------------------------------------------------- *)
(** *** The freshly constructed engine *)

Lemma engine0_eq :
  engine0 =
  mkEngine
    (mkContext 0 44100
       [AudioDestinationNode;
        GainNode (mkParam 1.0 []);
        GainNode (mkParam 1.0 []);
        GainNode (mkParam 1.0 []);
        WaveShaperNode (Some (makeRatCurve 0.4)) oversample_4x;
        BiquadFilterNode lowpass (mkParam 8000 []) (mkParam 0.7 []);
        GainNode (mkParam 0.8 []);
        DynamicsCompressorNode (mkParam (-12) []) (mkParam 6 []) (mkParam 4 [])
          (mkParam 0.003 []) (mkParam 0.15 [])]
       [(2, 3); (3, 4); (4, 5); (5, 6); (6, 7); (7, 1); (1, 0)]%nat
       0)
    1 2 3 4 5 6 7 false (RatConfig.mk 0.4 0.8 0.8).
Proof. unfold engine0, context0. rewrite new_DrumEngine_eq. reflexivity. Qed.

Lemma engine0_targets :
  chain_targets engine0 =
  mkTargets (Some 1.0) (Some (makeRatCurve 0.4)) (Some 8000) (Some 0.8).
Proof. rewrite engine0_eq. observe. reflexivity. Qed.

Lemma engine0_updateRat_config config :
  ratConfig (exec (updateRat config) engine0) =
  Object_assign (RatConfig.mk 0.4 0.8 0.8) config.
Proof.
  destruct (updateRat_fields config engine0) as (-> & _).
  rewrite engine0_eq. reflexivity.
Qed.

(* ---------------------------------------------------------------------- *)
(** *** The empty update *)

Lemma engine0_preGain_target :
  preGain_target (chain_targets engine0) = Some 1.0.
Proof. rewrite engine0_targets. reflexivity. Qed.

Lemma engine0_updated_targets :
  chain_targets (exec (updateRat PartialRatConfig.empty) engine0) =
  config_targets (RatConfig.mk 0.4 0.8 0.8).
Proof.
  rewrite (updateRat_targets _ _ engine0_chain_built), engine0_updateRat_config,
    Object_assign_empty.
  reflexivity.
Qed.

Lemma engine0_updated_preGain_target :
  preGain_target (chain_targets (exec (updateRat PartialRatConfig.empty) engine0)) =
  Some (1 + 0.4 * 10).
Proof. rewrite engine0_updated_targets. reflexivity. Qed.

(** C8, counterexample.  On the freshly constructed engine the pre-gain
    target is 1 (the value the constructor assigns) while the stored
    distortion is 0.4: [updateRat({})] moves the pre-gain target to
    [1 + 0.4 * 10 = 5]. *)
Lemma updateRat_empty_moves_fresh_engine :
  exists before after : R,
    preGain_target (chain_targets engine0) = Some before /\
    preGain_target (chain_targets (exec (updateRat PartialRatConfig.empty) engine0))
      = Some after /\
    before = 1 /\
    after = 5 /\
    chain_targets (exec (updateRat PartialRatConfig.empty) engine0) <> chain_targets engine0.
Proof.
  exists 1.0, (1 + 0.4 * 10).
  split; [exact engine0_preGain_target|].
  split; [exact engine0_updated_preGain_target|].
  split; [lra|]. split; [lra|].
  intros Heq.
  pose proof engine0_updated_preGain_target as Ha.
  rewrite Heq, engine0_preGain_target in Ha.
  injection Ha as Ha. lra.
Qed.

(** C8, as the code has it.  In every state of a built chain whose targets
    are those of the stored configuration (every state an earlier
    distortion update leaves, see [updateRat_targets]), the update with an
    empty partial leaves the pre-gain target, the curve values, the filter
    cutoff target, the post-gain target and the stored configuration
    unchanged. *)
Theorem updateRat_empty_idempotent (e : DrumEngine) :
  chain_built e ->
  chain_targets e = config_targets (ratConfig e) ->
  chain_targets (exec (updateRat PartialRatConfig.empty) e) = chain_targets e /\
  ratConfig (exec (updateRat PartialRatConfig.empty) e) = ratConfig e.
Proof.
  intros Hb Hs.
  assert (Hrc : ratConfig (exec (updateRat PartialRatConfig.empty) e) = ratConfig e).
  { destruct (updateRat_fields PartialRatConfig.empty e) as (-> & _).
    apply Object_assign_empty. }
  split; [|exact Hrc].
  rewrite (updateRat_targets _ _ Hb), Hrc, Hs. reflexivity.
Qed.

Lemma updateRat_empty_idempotent_witness :
  let e := exec (updateRat (PartialRatConfig.mk (Some 1) None None)) engine0 in
  chain_targets (exec (updateRat PartialRatConfig.empty) e) = chain_targets e /\
  ratConfig (exec (updateRat PartialRatConfig.empty) e) = ratConfig e.
Proof.
  apply (updateRat_empty_idempotent
           (exec (updateRat (PartialRatConfig.mk (Some 1) None None)) engine0)).
  - apply updateRat_chain_built, engine0_chain_built.
  - apply updateRat_targets, engine0_chain_built.
Defined.

(* ---------------------------------------------------------------------- *)
(** *** Ramps and the curve *)

Lemma curve_values_chain_targets e : curve_values (chain_targets e) = curve_at e.
Proof. reflexivity. Qed.

Lemma makeRatCurve_differ : makeRatCurve 1 <> makeRatCurve 0.4.
Proof.
  intros Heq.
  assert (H : makeRatCurve 1 !! Z.to_nat 33075 = makeRatCurve 0.4 !! Z.to_nat 33075)
    by (rewrite Heq; reflexivity).
  rewrite !makeRatCurve_lookup in H by lia.
  assert (Hx : curve_x (Z.to_nat 33075) = 1 / 2) by (rewrite curve_x_IZR by lia; lra).
  rewrite Hx, !rat_shape_pos in H by lra.
  injection H as H.
  assert (Hlt : tanh (1 / 2 * (0.4 * 50 + 1) * 1.2) < tanh (1 / 2 * (1 * 50 + 1) * 1.2))
    by (apply tanh_lt; lra).
  lra.
Qed.

(** C9, counterexample.  The waveshaper has no parameter to ramp: the
    update with [distortion = 1] on the freshly constructed engine replaces
    the installed curve, built for 0.4, by the curve built for 1 at once,
    and the two curves differ. *)
Lemma updateRat_replaces_curve_at_once :
  curve_at engine0 = Some (makeRatCurve 0.4) /\
  curve_at (exec (updateRat (PartialRatConfig.mk (Some 1) None None)) engine0)
    = Some (makeRatCurve 1) /\
  makeRatCurve 1 <> makeRatCurve 0.4.
Proof.
  rewrite <- !curve_values_chain_targets.
  rewrite engine0_targets, (updateRat_targets _ _ engine0_chain_built),
    engine0_updateRat_config.
  cbv [Object_assign default PartialRatConfig.distortion PartialRatConfig.filter
       PartialRatConfig.volume config_targets curve_values RatConfig.distortion].
  split; [reflexivity|]. split; [reflexivity|]. exact makeRatCurve_differ.
Qed.

(** C9, as the code has it.  On a built chain, the update changes the
    pre-gain, the filter cutoff and the post-gain each by one
    [setTargetAtTime] toward the new target, starting at the current time
    with a time constant of 0.05 s, appended to the timeline of the
    parameter, whose assigned value stays as it was; the waveshaper curve is
    replaced at once by the curve built for the new distortion. *)
Theorem updateRat_ramps (config : PartialRatConfig.t) (e : DrumEngine) :
  chain_built e ->
  let e' := exec (updateRat config) e in
  let rc := ratConfig e' in
  let now := currentTime (ctx e) in
  (exists g,
     param_at e (ratPreGain e) gain = Some g /\
     param_at e' (ratPreGain e') gain =
       Some (mkParam (value g)
               (events g ++ [SetTargetAtTime (1 + RatConfig.distortion rc * 10) now 0.05]))) /\
  (exists f,
     param_at e (ratFilter e) frequency = Some f /\
     param_at e' (ratFilter e') frequency =
       Some (mkParam (value f)
               (events f ++ [SetTargetAtTime (200 * Rpower (20000 / 200) (RatConfig.filter rc))
                                now 0.05]))) /\
  (exists g,
     param_at e (ratPostGain e) gain = Some g /\
     param_at e' (ratPostGain e') gain =
       Some (mkParam (value g)
               (events g ++ [SetTargetAtTime (RatConfig.volume rc) now 0.05]))) /\
  curve_at e' = Some (makeRatCurve (RatConfig.distortion rc)).
Proof.
  intros Hb e' rc now. subst e' rc.
  destruct (updateRat_effect config e Hb) as (Hpre & Hws & Hf & Hpost & _).
  destruct (updateRat_fields config e) as (Hrc & _ & _ & Erp & Erw & Erf & Erpo & _).
  pose proof Hb as (_ & _ & (g1 & Hg1) & (c & ov & Hc) & (ty & f & q & Hq)
                      & (g2 & Hg2) & _).
  unfold param_at, curve_at. rewrite Erp, Erw, Erf, Erpo, Hrc.
  rewrite (Hpre _ Hg1), (Hws _ _ Hc), (Hf _ _ _ Hq), (Hpost _ Hg2), Hg1, Hq, Hg2.
  cbn [getParam]. unfold schedule. fold now.
  repeat split; eauto.
Qed.

Lemma updateRat_ramps_witness :
  let config := PartialRatConfig.mk (Some 1) None None in
  let e' := exec (updateRat config) engine0 in
  let rc := ratConfig e' in
  let now := currentTime (ctx engine0) in
  (exists g,
     param_at engine0 (ratPreGain engine0) gain = Some g /\
     param_at e' (ratPreGain e') gain =
       Some (mkParam (value g)
               (events g ++ [SetTargetAtTime (1 + RatConfig.distortion rc * 10) now 0.05]))) /\
  (exists f,
     param_at engine0 (ratFilter engine0) frequency = Some f /\
     param_at e' (ratFilter e') frequency =
       Some (mkParam (value f)
               (events f ++ [SetTargetAtTime (200 * Rpower (20000 / 200) (RatConfig.filter rc))
                                now 0.05]))) /\
  (exists g,
     param_at engine0 (ratPostGain engine0) gain = Some g /\
     param_at e' (ratPostGain e') gain =
       Some (mkParam (value g)
               (events g ++ [SetTargetAtTime (RatConfig.volume rc) now 0.05]))) /\
  curve_at e' = Some (makeRatCurve (RatConfig.distortion rc)).
Proof.
  apply (updateRat_ramps (PartialRatConfig.mk (Some 1) None None) engine0).
  exact engine0_chain_built.
Defined.


(* ====================================================================== *)
(** ** The voices

    What each voice adds to the store, written out: the nodes in the order
    they are created ([n0] is the reference of the first one) and the
    connections in the order they are made. *)

(** The kick without kick-mod: sub, body and click layers, seven nodes. *)
Lemma triggerKick_plain (random : nat -> R) (time : R) (config : DrumVoiceConfig.t)
    (e : DrumEngine) :
  kickModEnabled e = false ->
  let n0 := length (nodes (ctx e)) in
  let sr := sampleRate (ctx e) in
  let d0 := randomDraws (ctx e) in
  exec (triggerKick random time config) e =
  grown e
    [OscillatorNode sine
       {|
         value := 440; events := [SetValueAtTime (35 + DrumVoiceConfig.tune config * 20) time]
       |} {| value := 0; events := [] |} (Some time) (Some (time + 0.6));
     GainNode
       {|
         value := 1;
         events :=
           [SetValueAtTime 0 time;
            LinearRampToValueAtTime
              (DrumVoiceConfig.volume config * (DrumVoiceConfig.velocity config / 127) * 0.8)
              (time + 0.005);
            ExponentialRampToValueAtTime 0.001 (time + 0.5)]
       |};
     OscillatorNode sine
       {|
         value := 440;
         events :=
           [SetValueAtTime (180 + DrumVoiceConfig.tune config * 60) time;
            ExponentialRampToValueAtTime (35 + DrumVoiceConfig.tune config * 20) (time + 0.08)]
       |} {| value := 0; events := [] |} (Some time) (Some (time + 0.4));
     GainNode
       {|
         value := 1;
         events :=
           [SetValueAtTime
              (DrumVoiceConfig.volume config * (DrumVoiceConfig.velocity config / 127) * 0.9)
              time;
            ExponentialRampToValueAtTime 0.001 (time + 0.35)]
       |};
     OscillatorNode square
       {|
         value := 440;
         events := [SetValueAtTime 80 time; ExponentialRampToValueAtTime 40 (time + 0.02)]
       |} {| value := 0; events := [] |} (Some time) (Some (time + 0.05));
     GainNode
       {|
         value := 1;
         events :=
           [SetValueAtTime
              (DrumVoiceConfig.volume config * (DrumVoiceConfig.velocity config / 127) * 0.3)
              time;
            ExponentialRampToValueAtTime 0.001 (time + 0.03)]
       |};
     BiquadFilterNode highpass {| value := 60; events := [] |} {| value := 1; events := [] |}]
    [((n0 + 0)%nat, (n0 + 1)%nat); ((n0 + 1)%nat, ratInput e);
     ((n0 + 2)%nat, (n0 + 3)%nat); ((n0 + 3)%nat, ratInput e);
     ((n0 + 4)%nat, (n0 + 6)%nat); ((n0 + 6)%nat, (n0 + 5)%nat);
     ((n0 + 5)%nat, ratInput e)]
    d0.
Proof.
  cbv zeta. intros Hk. destruct e as [[t sr ns cs d] o ri rp rw rf rpo co km rc].
  cbn [ctx nodes sampleRate randomDraws ratInput kickModEnabled] in *. subst km. unfold grown.
  cbn [ctx nodes connections currentTime sampleRate randomDraws outputNode ratInput ratPreGain
       ratWaveshaper ratFilter ratPostGain compressor kickModEnabled ratConfig].
  rewrite <- (app_nil_r ns) at 1. rewrite <- (app_nil_r cs) at 1.
  run. reflexivity.
Qed.

(** The kick with kick-mod: the three layers and the noise transient, eleven nodes. *)
Lemma triggerKick_modded (random : nat -> R) (time : R) (config : DrumVoiceConfig.t)
    (e : DrumEngine) :
  kickModEnabled e = true ->
  let n0 := length (nodes (ctx e)) in
  let sr := sampleRate (ctx e) in
  let d0 := randomDraws (ctx e) in
  exec (triggerKick random time config) e =
  grown e
    [OscillatorNode sine
       {|
         value := 440; events := [SetValueAtTime (35 + DrumVoiceConfig.tune config * 20) time]
       |} {| value := 0; events := [] |} (Some time) (Some (time + 0.6));
     GainNode
       {|
         value := 1;
         events :=
           [SetValueAtTime 0 time;
            LinearRampToValueAtTime
              (DrumVoiceConfig.volume config * (DrumVoiceConfig.velocity config / 127) * 0.8)
              (time + 0.005);
            ExponentialRampToValueAtTime 0.001 (time + 0.4)]
       |};
     OscillatorNode sine
       {|
         value := 440;
         events :=
           [SetValueAtTime (300 + DrumVoiceConfig.tune config * 100) time;
            ExponentialRampToValueAtTime (35 + DrumVoiceConfig.tune config * 20) (time + 0.04)]
       |} {| value := 0; events := [] |} (Some time) (Some (time + 0.4));
     GainNode
       {|
         value := 1;
         events :=
           [SetValueAtTime
              (DrumVoiceConfig.volume config * (DrumVoiceConfig.velocity config / 127) * 1.2)
              time;
            ExponentialRampToValueAtTime 0.001 (time + 0.25)]
       |};
     OscillatorNode sawtooth
       {|
         value := 440;
         events := [SetValueAtTime 120 time; ExponentialRampToValueAtTime 40 (time + 0.02)]
       |} {| value := 0; events := [] |} (Some time) (Some (time + 0.05));
     GainNode
       {|
         value := 1;
         events :=
           [SetValueAtTime
              (DrumVoiceConfig.volume config * (DrumVoiceConfig.velocity config / 127) * 0.5)
              time;
            ExponentialRampToValueAtTime 0.001 (time + 0.03)]
       |};
     BiquadFilterNode highpass {| value := 100; events := [] |} {| value := 1; events := [] |};
     AudioBufferSourceNode (Some (noiseBuffer random sr 0.02 d0)) false (Some time) None;
     GainNode
       {|
         value := 1;
         events :=
           [SetValueAtTime
              (DrumVoiceConfig.volume config * (DrumVoiceConfig.velocity config / 127) * 0.2)
              time;
            ExponentialRampToValueAtTime 0.001 (time + 0.015)]
       |};
     BiquadFilterNode highpass {| value := 500; events := [] |} {| value := 1; events := [] |};
     BiquadFilterNode lowpass {| value := 2000; events := [] |} {| value := 1; events := [] |}]
    [((n0 + 0)%nat, (n0 + 1)%nat); ((n0 + 1)%nat, ratInput e);
     ((n0 + 2)%nat, (n0 + 3)%nat); ((n0 + 3)%nat, ratInput e);
     ((n0 + 4)%nat, (n0 + 6)%nat); ((n0 + 6)%nat, (n0 + 5)%nat);
     ((n0 + 5)%nat, ratInput e); ((n0 + 7)%nat, (n0 + 9)%nat);
     ((n0 + 9)%nat, (n0 + 10)%nat); ((n0 + 10)%nat, (n0 + 8)%nat);
     ((n0 + 8)%nat, ratInput e)]
    (d0 + Z.to_nat (Zceil (sr * 0.02)))%nat.
Proof.
  cbv zeta. intros Hk. destruct e as [[t sr ns cs d] o ri rp rw rf rpo co km rc].
  cbn [ctx nodes sampleRate randomDraws ratInput kickModEnabled] in *. subst km. unfold grown.
  cbn [ctx nodes connections currentTime sampleRate randomDraws outputNode ratInput ratPreGain
       ratWaveshaper ratFilter ratPostGain compressor kickModEnabled ratConfig].
  rewrite <- (app_nil_r ns) at 1. rewrite <- (app_nil_r cs) at 1.
  run. reflexivity.
Qed.

(** The snare: body low, body high, wires and click, eleven nodes. *)
Lemma triggerSnare_run (random : nat -> R) (time : R) (config : DrumVoiceConfig.t)
    (e : DrumEngine) :
  let n0 := length (nodes (ctx e)) in
  let sr := sampleRate (ctx e) in
  let d0 := randomDraws (ctx e) in
  exec (triggerSnare random time config) e =
  grown e
    [OscillatorNode sine
       {|
         value := 440;
         events := [SetValueAtTime ((150 + DrumVoiceConfig.tune config * 100) * 0.8) time]
       |} {| value := 0; events := [] |} (Some time) (Some (time + 0.2));
     GainNode
       {|
         value := 1;
         events :=
           [SetValueAtTime
              (DrumVoiceConfig.volume config * (DrumVoiceConfig.velocity config / 127) * 0.5)
              time;
            ExponentialRampToValueAtTime 0.001 (time + 0.15)]
       |};
     OscillatorNode triangle
       {|
         value := 440;
         events :=
           [SetValueAtTime ((150 + DrumVoiceConfig.tune config * 100) * 2) time;
            ExponentialRampToValueAtTime ((150 + DrumVoiceConfig.tune config * 100) * 1.2)
              (time + 0.05)]
       |} {| value := 0; events := [] |} (Some time) (Some (time + 0.15));
     GainNode
       {|
         value := 1;
         events :=
           [SetValueAtTime
              (DrumVoiceConfig.volume config * (DrumVoiceConfig.velocity config / 127) * 0.4)
              time;
            ExponentialRampToValueAtTime 0.001 (time + 0.1)]
       |};
     AudioBufferSourceNode (Some (noiseBuffer random sr 0.3 d0)) false
       (Some time) (Some (time + 0.35));
     GainNode
       {|
         value := 1;
         events :=
           [SetValueAtTime
              (DrumVoiceConfig.volume config * (DrumVoiceConfig.velocity config / 127) * 0.6)
              time;
            ExponentialRampToValueAtTime
              (DrumVoiceConfig.volume config * (DrumVoiceConfig.velocity config / 127) * 0.1)
              (time + 0.08);
            ExponentialRampToValueAtTime 0.001 (time + 0.25)]
       |};
     BiquadFilterNode highpass {| value := 2000; events := [] |}
       {| value := 0.5; events := [] |};
     BiquadFilterNode lowpass
       {| value := 8000 + DrumVoiceConfig.tune config * 4000; events := [] |}
       {| value := 0.5; events := [] |};
     AudioBufferSourceNode
       (Some (noiseBuffer random sr 0.01 (d0 + Z.to_nat (Zceil (sr * 0.3))))) false
       (Some time) None;
     GainNode
       {|
         value := 1;
         events :=
           [SetValueAtTime
              (DrumVoiceConfig.volume config * (DrumVoiceConfig.velocity config / 127) * 0.3)
              time;
            ExponentialRampToValueAtTime 0.001 (time + 0.01)]
       |};
     BiquadFilterNode highpass {| value := 1000; events := [] |} {| value := 1; events := [] |}]
    [((n0 + 0)%nat, (n0 + 1)%nat); ((n0 + 1)%nat, ratInput e);
     ((n0 + 2)%nat, (n0 + 3)%nat); ((n0 + 3)%nat, ratInput e);
     ((n0 + 4)%nat, (n0 + 6)%nat); ((n0 + 6)%nat, (n0 + 7)%nat);
     ((n0 + 7)%nat, (n0 + 5)%nat); ((n0 + 5)%nat, ratInput e);
     ((n0 + 8)%nat, (n0 + 10)%nat); ((n0 + 10)%nat, (n0 + 9)%nat);
     ((n0 + 9)%nat, ratInput e)]
    (d0 + Z.to_nat (Zceil (sr * 0.3)) + Z.to_nat (Zceil (sr * 0.01)))%nat.
Proof.
  cbv zeta. destruct e as [[t sr ns cs d] o ri rp rw rf rpo co km rc].
  cbn [ctx nodes sampleRate randomDraws ratInput kickModEnabled] in *. unfold grown.
  cbn [ctx nodes connections currentTime sampleRate randomDraws outputNode ratInput ratPreGain
       ratWaveshaper ratFilter ratPostGain compressor kickModEnabled ratConfig].
  rewrite <- (app_nil_r ns) at 1. rewrite <- (app_nil_r cs) at 1.
  run. reflexivity.
Qed.

(** The hi-hat: the mix gain, six detuned square oscillators with their gains, two filters and the envelope. *)
Lemma triggerHiHat_run (random : nat -> R) (time : R) (config : DrumVoiceConfig.t) (isOpen : bool)
    (e : DrumEngine) :
  let n0 := length (nodes (ctx e)) in
  let sr := sampleRate (ctx e) in
  let d0 := randomDraws (ctx e) in
  exec (triggerHiHat random time config isOpen) e =
  grown e
    [GainNode {| value := 1; events := [] |};
     OscillatorNode square
       {| value := (300 + DrumVoiceConfig.tune config * 400) * 1.0; events := [] |}
       {| value := (random d0 - 0.5) * 20; events := [] |} (Some time)
       (Some (time + (if isOpen then 0.5 else 0.1)));
     GainNode {| value := 0.15 - INR 0 * 0.02; events := [] |};
     OscillatorNode square
       {| value := (300 + DrumVoiceConfig.tune config * 400) * 1.34; events := [] |}
       {| value := (random (S d0) - 0.5) * 20; events := [] |} (Some time)
       (Some (time + (if isOpen then 0.5 else 0.1)));
     GainNode {| value := 0.15 - INR 1 * 0.02; events := [] |};
     OscillatorNode square
       {| value := (300 + DrumVoiceConfig.tune config * 400) * 1.67; events := [] |}
       {| value := (random (S (S d0)) - 0.5) * 20; events := [] |} (Some time)
       (Some (time + (if isOpen then 0.5 else 0.1)));
     GainNode {| value := 0.15 - INR 2 * 0.02; events := [] |};
     OscillatorNode square
       {| value := (300 + DrumVoiceConfig.tune config * 400) * 1.91; events := [] |}
       {| value := (random (S (S (S d0))) - 0.5) * 20; events := [] |}
       (Some time) (Some (time + (if isOpen then 0.5 else 0.1)));
     GainNode {| value := 0.15 - INR 3 * 0.02; events := [] |};
     OscillatorNode square
       {| value := (300 + DrumVoiceConfig.tune config * 400) * 2.18; events := [] |}
       {| value := (random (S (S (S (S d0)))) - 0.5) * 20; events := [] |}
       (Some time) (Some (time + (if isOpen then 0.5 else 0.1)));
     GainNode {| value := 0.15 - INR 4 * 0.02; events := [] |};
     OscillatorNode square
       {| value := (300 + DrumVoiceConfig.tune config * 400) * 2.41; events := [] |}
       {| value := (random (S (S (S (S (S d0))))) - 0.5) * 20; events := [] |}
       (Some time) (Some (time + (if isOpen then 0.5 else 0.1)));
     GainNode {| value := 0.15 - INR 5 * 0.02; events := [] |};
     BiquadFilterNode bandpass
       {| value := 8000 + DrumVoiceConfig.tune config * 4000; events := [] |}
       {| value := 1.5; events := [] |};
     BiquadFilterNode highpass {| value := 6000; events := [] |}
       {| value := 0.5; events := [] |};
     GainNode
       {|
         value := 1;
         events :=
           [SetValueAtTime
              (DrumVoiceConfig.volume config * (DrumVoiceConfig.velocity config / 127) * 0.5)
              time;
            ExponentialRampToValueAtTime 0.001 (time + (if isOpen then 0.35 else 0.05))]
       |}]
    [((n0 + 1)%nat, (n0 + 2)%nat); ((n0 + 2)%nat, (n0 + 0)%nat);
     ((n0 + 3)%nat, (n0 + 4)%nat); ((n0 + 4)%nat, (n0 + 0)%nat);
     ((n0 + 5)%nat, (n0 + 6)%nat); ((n0 + 6)%nat, (n0 + 0)%nat);
     ((n0 + 7)%nat, (n0 + 8)%nat); ((n0 + 8)%nat, (n0 + 0)%nat);
     ((n0 + 9)%nat, (n0 + 10)%nat); ((n0 + 10)%nat, (n0 + 0)%nat);
     ((n0 + 11)%nat, (n0 + 12)%nat); ((n0 + 12)%nat, (n0 + 0)%nat);
     ((n0 + 0)%nat, (n0 + 13)%nat); ((n0 + 13)%nat, (n0 + 14)%nat);
     ((n0 + 14)%nat, (n0 + 15)%nat); ((n0 + 15)%nat, ratInput e)]
    (S (S (S (S (S (S d0))))))%nat.
Proof.
  cbv zeta. destruct e as [[t sr ns cs d] o ri rp rw rf rpo co km rc].
  cbn [ctx nodes sampleRate randomDraws ratInput kickModEnabled] in *. unfold grown.
  cbn [ctx nodes connections currentTime sampleRate randomDraws outputNode ratInput ratPreGain
       ratWaveshaper ratFilter ratPostGain compressor kickModEnabled ratConfig].
  rewrite <- (app_nil_r ns) at 1. rewrite <- (app_nil_r cs) at 1.
  run. reflexivity.
Qed.

(** The clap: four bursts of three nodes each, then the tail. *)
Lemma triggerClap_run (random : nat -> R) (time : R) (config : DrumVoiceConfig.t)
    (e : DrumEngine) :
  let n0 := length (nodes (ctx e)) in
  let sr := sampleRate (ctx e) in
  let d0 := randomDraws (ctx e) in
  exec (triggerClap random time config) e =
  grown e
    [AudioBufferSourceNode (Some (noiseBuffer random sr 0.02 d0)) false
       (Some (time + INR 0 * 0.012)) None;
     GainNode
       {|
         value := 1;
         events :=
           [SetValueAtTime
              (DrumVoiceConfig.volume config * (DrumVoiceConfig.velocity config / 127) * 0.4)
              (time + INR 0 * 0.012);
            ExponentialRampToValueAtTime 0.001 (time + INR 0 * 0.012 + 0.015)]
       |};
     BiquadFilterNode bandpass
       {| value := 1200 + DrumVoiceConfig.tune config * 800; events := [] |}
       {| value := 2; events := [] |};
     AudioBufferSourceNode
       (Some (noiseBuffer random sr 0.02 (d0 + Z.to_nat (Zceil (sr * 0.02))))) false
       (Some (time + INR 1 * 0.012)) None;
     GainNode
       {|
         value := 1;
         events :=
           [SetValueAtTime
              (DrumVoiceConfig.volume config * (DrumVoiceConfig.velocity config / 127) * 0.4)
              (time + INR 1 * 0.012);
            ExponentialRampToValueAtTime 0.001 (time + INR 1 * 0.012 + 0.015)]
       |};
     BiquadFilterNode bandpass
       {| value := 1200 + DrumVoiceConfig.tune config * 800; events := [] |}
       {| value := 2; events := [] |};
     AudioBufferSourceNode
       (Some
          (noiseBuffer random sr 0.02
             (d0 + Z.to_nat (Zceil (sr * 0.02)) + Z.to_nat (Zceil (sr * 0.02)))))
       false (Some (time + INR 2 * 0.012)) None;
     GainNode
       {|
         value := 1;
         events :=
           [SetValueAtTime
              (DrumVoiceConfig.volume config * (DrumVoiceConfig.velocity config / 127) * 0.4)
              (time + INR 2 * 0.012);
            ExponentialRampToValueAtTime 0.001 (time + INR 2 * 0.012 + 0.015)]
       |};
     BiquadFilterNode bandpass
       {| value := 1200 + DrumVoiceConfig.tune config * 800; events := [] |}
       {| value := 2; events := [] |};
     AudioBufferSourceNode
       (Some
          (noiseBuffer random sr 0.02
             (d0 + Z.to_nat (Zceil (sr * 0.02)) + Z.to_nat (Zceil (sr * 0.02)) +
              Z.to_nat (Zceil (sr * 0.02)))))
       false (Some (time + INR 3 * 0.012)) None;
     GainNode
       {|
         value := 1;
         events :=
           [SetValueAtTime
              (DrumVoiceConfig.volume config * (DrumVoiceConfig.velocity config / 127) * 0.8)
              (time + INR 3 * 0.012);
            ExponentialRampToValueAtTime 0.001 (time + INR 3 * 0.012 + 0.015)]
       |};
     BiquadFilterNode bandpass
       {| value := 1200 + DrumVoiceConfig.tune config * 800; events := [] |}
       {| value := 2; events := [] |};
     AudioBufferSourceNode
       (Some
          (noiseBuffer random sr 0.25
             (d0 + Z.to_nat (Zceil (sr * 0.02)) + Z.to_nat (Zceil (sr * 0.02)) +
              Z.to_nat (Zceil (sr * 0.02)) + Z.to_nat (Zceil (sr * 0.02)))))
       false (Some (time + 0.04)) (Some (time + 0.04 + 0.3));
     GainNode
       {|
         value := 1;
         events :=
           [SetValueAtTime
              (DrumVoiceConfig.volume config * (DrumVoiceConfig.velocity config / 127) * 0.3)
              (time + 0.04);
            ExponentialRampToValueAtTime 0.001 (time + 0.04 + 0.2)]
       |};
     BiquadFilterNode bandpass
       {| value := 1500 + DrumVoiceConfig.tune config * 1000; events := [] |}
       {| value := 1; events := [] |};
     BiquadFilterNode highpass {| value := 800; events := [] |} {| value := 1; events := [] |}]
    [((n0 + 0)%nat, (n0 + 2)%nat); ((n0 + 2)%nat, (n0 + 1)%nat);
     ((n0 + 1)%nat, ratInput e); ((n0 + 3)%nat, (n0 + 5)%nat);
     ((n0 + 5)%nat, (n0 + 4)%nat); ((n0 + 4)%nat, ratInput e);
     ((n0 + 6)%nat, (n0 + 8)%nat); ((n0 + 8)%nat, (n0 + 7)%nat);
     ((n0 + 7)%nat, ratInput e); ((n0 + 9)%nat, (n0 + 11)%nat);
     ((n0 + 11)%nat, (n0 + 10)%nat); ((n0 + 10)%nat, ratInput e);
     ((n0 + 12)%nat, (n0 + 14)%nat);
     ((n0 + 14)%nat, (n0 + 15)%nat);
     ((n0 + 15)%nat, (n0 + 13)%nat); ((n0 + 13)%nat, ratInput e)]
    (d0 + Z.to_nat (Zceil (sr * 0.02)) + Z.to_nat (Zceil (sr * 0.02)) + Z.to_nat (Zceil (sr * 0.02)) + Z.to_nat (Zceil (sr * 0.02)) + Z.to_nat (Zceil (sr * 0.25)))%nat.
Proof.
  cbv zeta. destruct e as [[t sr ns cs d] o ri rp rw rf rpo co km rc].
  cbn [ctx nodes sampleRate randomDraws ratInput kickModEnabled] in *. unfold grown.
  cbn [ctx nodes connections currentTime sampleRate randomDraws outputNode ratInput ratPreGain
       ratWaveshaper ratFilter ratPostGain compressor kickModEnabled ratConfig].
  rewrite <- (app_nil_r ns) at 1. rewrite <- (app_nil_r cs) at 1.
  run. reflexivity.
Qed.

(* ====================================================================== *)
(** ** What a trigger leaves alone *)

Lemma new_nodes_grown e added wires draws :
  new_nodes e (grown e added wires draws) = added.
Proof. unfold new_nodes, grown. cbn [ctx nodes]. apply drop_app_length. Qed.

Lemma new_connections_grown e added wires draws :
  new_connections e (grown e added wires draws) = wires.
Proof. unfold new_connections, grown. cbn [ctx connections]. apply drop_app_length. Qed.

Lemma node_at_grown e added wires draws (r : nat) :
  (r < length (nodes (ctx e)))%nat ->
  node_at (grown e added wires draws) r = node_at e r.
Proof. intros Hr. unfold node_at, grown. cbn [ctx nodes]. apply lookup_app_l, Hr. Qed.

Lemma chain_built_valid e r :
  chain_built e -> r ∈ chain_refs e -> (r < length (nodes (ctx e)))%nat.
Proof.
  intros ((g0 & Ho) & (gi & Hi) & (g1 & Hg1) & (c & ov & Hc) & (ty & f & q & Hq)
          & (g2 & Hg2) & (ct & ck & cr & ca & crl & Hco) & _) Hr.
  unfold chain_refs in Hr. unfold node_at in *.
  repeat (apply elem_of_cons in Hr as [->|Hr]; [eapply lookup_lt_Some; eassumption|]).
  apply elem_of_nil in Hr. contradiction.
Qed.

Lemma chain_nodes_grown e added wires draws :
  chain_built e ->
  chain_nodes (grown e added wires draws) = chain_nodes e.
Proof.
  intros Hb. unfold chain_nodes.
  change (chain_refs (grown e added wires draws)) with (chain_refs e).
  apply map_ext_in. intros r Hr. apply node_at_grown, (chain_built_valid e r Hb).
  apply list_elem_of_In, Hr.
Qed.

Ltac wire_into_tac :=
  unfold wire_into; cbn [fst snd length]; split; [lia | first [ left; lia | right; reflexivity ]].

Ltac forall_explicit tac :=
  repeat (apply List.Forall_cons; [tac|]); apply List.Forall_nil.

(** Every voice grows the store: it adds nodes, wires them among
    themselves and into the input of the chain, and touches nothing
    else. *)
Lemma trigger_grows (random : nat -> R) (type : DrumType) (time : R)
    (config : DrumVoiceConfig.t) (e : DrumEngine) :
  exists added wires draws,
    exec (trigger random type time config) e = grown e added wires draws /\
    Forall (wire_into e added) wires.
Proof.
  destruct type; cbn [trigger].
  - destruct (kickModEnabled e) eqn:Hk.
    + eexists _, _, _. split; [apply (triggerKick_modded random time config e Hk)|].
      forall_explicit wire_into_tac.
    + eexists _, _, _. split; [apply (triggerKick_plain random time config e Hk)|].
      forall_explicit wire_into_tac.
  - eexists _, _, _. split; [apply (triggerSnare_run random time config e)|].
    forall_explicit wire_into_tac.
  - eexists _, _, _. split; [apply (triggerHiHat_run random time config false e)|].
    forall_explicit wire_into_tac.
  - eexists _, _, _. split; [apply (triggerClap_run random time config e)|].
    forall_explicit wire_into_tac.
Qed.

(** A trigger on a built chain leaves it built. *)
Lemma trigger_chain_built (random : nat -> R) (type : DrumType) (time : R)
    (config : DrumVoiceConfig.t) (e : DrumEngine) :
  chain_built e -> chain_built (exec (trigger random type time config) e).
Proof.
  intros Hb.
  destruct (trigger_grows random type time config e) as (added & wires & draws & -> & _).
  pose proof (chain_nodes_grown e added wires draws Hb) as Hn.
  unfold chain_nodes, chain_refs in Hn.
  change (outputNode (grown e added wires draws)) with (outputNode e) in Hn.
  change (ratInput (grown e added wires draws)) with (ratInput e) in Hn.
  change (ratPreGain (grown e added wires draws)) with (ratPreGain e) in Hn.
  change (ratWaveshaper (grown e added wires draws)) with (ratWaveshaper e) in Hn.
  change (ratFilter (grown e added wires draws)) with (ratFilter e) in Hn.
  change (ratPostGain (grown e added wires draws)) with (ratPostGain e) in Hn.
  change (compressor (grown e added wires draws)) with (compressor e) in Hn.
  cbn [map] in Hn. injection Hn as E1 E2 E3 E4 E5 E6 E7.
  unfold chain_built.
  change (chain_refs (grown e added wires draws)) with (chain_refs e).
  change (outputNode (grown e added wires draws)) with (outputNode e).
  change (ratInput (grown e added wires draws)) with (ratInput e).
  change (ratPreGain (grown e added wires draws)) with (ratPreGain e).
  change (ratWaveshaper (grown e added wires draws)) with (ratWaveshaper e).
  change (ratFilter (grown e added wires draws)) with (ratFilter e).
  change (ratPostGain (grown e added wires draws)) with (ratPostGain e).
  change (compressor (grown e added wires draws)) with (compressor e).
  rewrite E1, E2, E3, E4, E5, E6, E7. exact Hb.
Qed.

(** C10.  A trigger call leaves the persistent state of the engine as it
    was: the stored RatConfig, the kick-mod flag, the references to the
    long-lived nodes and those nodes themselves, with every parameter
    (master gain, chain input, pre-gain, waveshaper curve, filter, post-gain,
    compressor); every node and connection the store already held is
    unchanged, and each connection the call makes leaves a new node and
    enters a new node or the input of the chain. *)
Theorem trigger_frame (random : nat -> R) (type : DrumType) (time : R)
    (config : DrumVoiceConfig.t) (e : DrumEngine) :
  chain_built e ->
  let e' := exec (trigger random type time config) e in
  ratConfig e' = ratConfig e /\
  kickModEnabled e' = kickModEnabled e /\
  chain_refs e' = chain_refs e /\
  chain_nodes e' = chain_nodes e /\
  (forall r : nat, (r < length (nodes (ctx e)))%nat -> node_at e' r = node_at e r) /\
  take (length (connections (ctx e))) (connections (ctx e')) = connections (ctx e) /\
  Forall (wire_into e (new_nodes e e')) (new_connections e e').
Proof.
  intros Hb e'. subst e'.
  destruct (trigger_grows random type time config e)
    as (added & wires & draws & -> & Hw).
  rewrite new_nodes_grown, new_connections_grown.
  split; [reflexivity|]. split; [reflexivity|]. split; [reflexivity|].
  split; [apply chain_nodes_grown, Hb|].
  split; [intros r Hr; apply node_at_grown, Hr|].
  split; [|exact Hw].
  unfold grown. cbn [ctx connections]. apply take_app_length.
Qed.

Lemma trigger_frame_witness :
  let e := engine0 in
  let e' := exec (trigger (fun _ => 0) CLAP 0 (DrumVoiceConfig.mk 1 (1/2) (1/2) (1/2) 127)) e in
  ratConfig e' = ratConfig e /\
  kickModEnabled e' = kickModEnabled e /\
  chain_refs e' = chain_refs e /\
  chain_nodes e' = chain_nodes e /\
  (forall r : nat, (r < length (nodes (ctx e)))%nat -> node_at e' r = node_at e r) /\
  take (length (connections (ctx e))) (connections (ctx e')) = connections (ctx e) /\
  Forall (wire_into e (new_nodes e e')) (new_connections e e').
Proof.
  apply (trigger_frame (fun _ => 0) CLAP 0 (DrumVoiceConfig.mk 1 (1/2) (1/2) (1/2) 127) engine0).
  exact engine0_chain_built.
Defined.

(* ====================================================================== *)
(** ** The lifetime of the source nodes *)

(** C3, counterexample.  The snare click is a buffer source that is
    started and never stopped: of the source nodes a snare trigger creates
    on the freshly constructed engine, the last one (the ninth node the
    call creates) has no stop scheduled. *)
Lemma snare_click_has_no_stop :
  exists n : AudioNode,
    new_nodes engine0
      (exec (trigger (fun _ => 0) SNARE 0 (DrumVoiceConfig.mk 1 (1/2) (1/2) (1/2) 127)) engine0)
      !! 8%nat = Some n /\
    is_source n = true /\
    start_time n = Some 0 /\
    stop_time n = None.
Proof.
  cbn [trigger]. rewrite triggerSnare_run, new_nodes_grown.
  eexists. split; [reflexivity|]. repeat split; reflexivity.
Qed.

(** C3, as the code has it.  The source nodes each voice creates, in the
    order of their creation, for a trigger time that is not negative, a
    positive volume and velocity and a tune that is not negative.  Every
    oscillator is started at the trigger time and stopped at a fixed offset
    after it.  Every buffer source is a non-looping source on a noise
    buffer of [ceil (sampleRate * duration)] samples: the snare wires and
    the clap tail are stopped, 0.35 s and 0.34 s after the trigger time;
    the kick-mod noise transient, the snare click and the four clap bursts
    have no stop and end with their buffer. *)
Theorem trigger_sources_bounded (random : nat -> R) (type : DrumType) (time : R)
    (config : DrumVoiceConfig.t) (e : DrumEngine) :
  0 <= time ->
  0 < DrumVoiceConfig.volume config ->
  0 < DrumVoiceConfig.velocity config ->
  0 <= DrumVoiceConfig.tune config ->
  let sr := sampleRate (ctx e) in
  let oscillator (offset : R) :=
    OscillatorLife (Some time) (Some (time + offset)) in
  let one_shot (delay duration : R) :=
    BufferSourceLife (Some (Zceil (sr * duration))) false (Some (time + delay)) None in
  let stopped (delay duration offset : R) :=
    BufferSourceLife (Some (Zceil (sr * duration))) false (Some (time + delay))
      (Some (time + offset)) in
  source_lives (new_nodes e (exec (trigger random type time config) e)) =
  match type with
  | KICK =>
      [oscillator 0.6; oscillator 0.4; oscillator 0.05] ++
      (if kickModEnabled e then [one_shot 0 0.02] else [])
  | SNARE =>
      [oscillator 0.2; oscillator 0.15; stopped 0 0.3 0.35; one_shot 0 0.01]
  | HAT =>
      [oscillator 0.1; oscillator 0.1; oscillator 0.1;
       oscillator 0.1; oscillator 0.1; oscillator 0.1]
  | CLAP =>
      [one_shot 0 0.02; one_shot 0.012 0.02; one_shot 0.024 0.02; one_shot 0.036 0.02;
       stopped 0.04 0.25 0.34]
  end.
Proof.
  intros _ _ _ _. cbv zeta.
  destruct type; cbn [trigger].
  - destruct (kickModEnabled e) eqn:Hk.
    + rewrite (triggerKick_modded random time config e Hk), new_nodes_grown.
      cbn [source_lives omap list_omap source_life option_map noiseBuffer buffer_length app].
      num_eq.
    + rewrite (triggerKick_plain random time config e Hk), new_nodes_grown.
      cbn [source_lives omap list_omap source_life option_map noiseBuffer buffer_length app].
      num_eq.
  - rewrite (triggerSnare_run random time config e), new_nodes_grown.
    cbn [source_lives omap list_omap source_life option_map noiseBuffer buffer_length app].
    num_eq.
  - rewrite (triggerHiHat_run random time config false e), new_nodes_grown.
    cbn [source_lives omap list_omap source_life option_map noiseBuffer buffer_length app].
    num_eq.
  - rewrite (triggerClap_run random time config e), new_nodes_grown.
    cbn [source_lives omap list_omap source_life option_map noiseBuffer buffer_length app INR].
    num_eq.
Qed.

Lemma trigger_sources_bounded_witness :
  let random := fun _ : nat => 0 in
  let time := 0 in
  let config := DrumVoiceConfig.mk 1 (1/2) (1/2) (1/2) 127 in
  let e := engine0 in
  let sr := sampleRate (ctx e) in
  let oscillator (offset : R) :=
    OscillatorLife (Some time) (Some (time + offset)) in
  let one_shot (delay duration : R) :=
    BufferSourceLife (Some (Zceil (sr * duration))) false (Some (time + delay)) None in
  let stopped (delay duration offset : R) :=
    BufferSourceLife (Some (Zceil (sr * duration))) false (Some (time + delay))
      (Some (time + offset)) in
  source_lives (new_nodes e (exec (trigger random SNARE time config) e)) =
  [oscillator 0.2; oscillator 0.15; stopped 0 0.3 0.35; one_shot 0 0.01].
Proof.
  apply (trigger_sources_bounded (fun _ => 0) SNARE 0
           (DrumVoiceConfig.mk 1 (1/2) (1/2) (1/2) 127) engine0);
    cbn [DrumVoiceConfig.volume DrumVoiceConfig.velocity DrumVoiceConfig.tune]; lra.
Defined.

(* ====================================================================== *)
(** ** The kick scenario *)


(* ====================================================================== *)
(** ** Out-of-range configurations *)

(** The voices read [volume], [tune] and [velocity] and nothing else. *)
Lemma trigger_reads_three_fields (random : nat -> R) (type : DrumType) (time : R)
    (config config' : DrumVoiceConfig.t) :
  DrumVoiceConfig.volume config' = DrumVoiceConfig.volume config ->
  DrumVoiceConfig.tune config' = DrumVoiceConfig.tune config ->
  DrumVoiceConfig.velocity config' = DrumVoiceConfig.velocity config ->
  trigger random type time config' = trigger random type time config.
Proof.
  destruct config as [v t d to vel], config' as [v' t' d' to' vel'].
  cbn [DrumVoiceConfig.volume DrumVoiceConfig.tune DrumVoiceConfig.velocity].
  intros -> -> ->.
  destruct type;
    cbv beta iota zeta delta
      [trigger triggerKick triggerSnare triggerHiHat triggerClap
       DrumVoiceConfig.volume DrumVoiceConfig.tune DrumVoiceConfig.velocity];
    reflexivity.
Qed.

(** C2, counterexample.  A kick triggered with a tune outside [0,1].  With
    [tune = 2] the sub oscillator is scheduled at [35 + 2 * 20 = 75] Hz,
    while on the clamped configuration ([tune = 1]) it is scheduled at
    55 Hz.  With [tune = -7/4] the sweep of the body oscillator is an
    exponential ramp to [35 - 7/4 * 20 = 0] Hz, a target the Web Audio API
    rejects with a RangeError, while on the clamped configuration
    ([tune = 0]) it is a ramp to 35 Hz. *)
Lemma trigger_does_not_clamp :
  (let config := DrumVoiceConfig.mk 1 2 (1/2) (1/2) 127 in
   exists f f' : R,
     new_nodes engine0 (exec (trigger (fun _ => 0) KICK 0 config) engine0) !! 0%nat =
       Some (OscillatorNode sine (mkParam 440 [SetValueAtTime f 0]) (mkParam 0 [])
               (Some 0) (Some (0 + 0.6))) /\
     new_nodes engine0 (exec (trigger (fun _ => 0) KICK 0 (clampConfig config)) engine0)
       !! 0%nat =
       Some (OscillatorNode sine (mkParam 440 [SetValueAtTime f' 0]) (mkParam 0 [])
               (Some 0) (Some (0 + 0.6))) /\
     f = 75 /\ f' = 55 /\ f <> f') /\
  (let config := DrumVoiceConfig.mk 1 (-7/4) (1/2) (1/2) 127 in
   exists (n n' : AudioNode) (target target' : R),
     new_nodes engine0 (exec (trigger (fun _ => 0) KICK 0 config) engine0) !! 2%nat =
       Some n /\
     new_nodes engine0 (exec (trigger (fun _ => 0) KICK 0 (clampConfig config)) engine0)
       !! 2%nat = Some n' /\
     exp_ramp_targets n = [target] /\
     exp_ramp_targets n' = [target'] /\
     target = 0 /\ target' = 35).
Proof.
  assert (Hc2 : clamp 0 1 2 = 1).
  { unfold clamp, Rmax, Rmin.
    destruct (Rle_dec 1 2); [|lra]. destruct (Rle_dec 0 1); lra. }
  assert (Hc7 : clamp 0 1 (-7/4) = 0).
  { unfold clamp, Rmax, Rmin.
    destruct (Rle_dec 1 (-7/4)); [lra|]. destruct (Rle_dec 0 (-7/4)); lra. }
  split; cbv zeta; cbn [trigger].
  - rewrite (triggerKick_plain (fun _ => 0) 0 (DrumVoiceConfig.mk 1 2 (1/2) (1/2) 127)
               engine0 (f_equal kickModEnabled engine0_eq)).
    rewrite (triggerKick_plain (fun _ => 0) 0
               (clampConfig (DrumVoiceConfig.mk 1 2 (1/2) (1/2) 127))
               engine0 (f_equal kickModEnabled engine0_eq)).
    rewrite 2!new_nodes_grown.
    cbn [lookup list_lookup clampConfig DrumVoiceConfig.tune].
    rewrite Hc2.
    eexists _, _. split; [reflexivity|]. split; [reflexivity|].
    repeat split; lra.
  - rewrite (triggerKick_plain (fun _ => 0) 0 (DrumVoiceConfig.mk 1 (-7/4) (1/2) (1/2) 127)
               engine0 (f_equal kickModEnabled engine0_eq)).
    rewrite (triggerKick_plain (fun _ => 0) 0
               (clampConfig (DrumVoiceConfig.mk 1 (-7/4) (1/2) (1/2) 127))
               engine0 (f_equal kickModEnabled engine0_eq)).
    rewrite 2!new_nodes_grown.
    cbn [lookup list_lookup clampConfig DrumVoiceConfig.tune].
    rewrite Hc7.
    eexists _, _, _, _. split; [reflexivity|]. split; [reflexivity|].
    cbn [exp_ramp_targets node_params flat_map events exp_ramp_target app].
    split; [reflexivity|]. split; [reflexivity|]. split; lra.
Qed.

(** The nodes of a written list that hold an exponential ramp to 0: each
    candidate is examined in turn, and a target that is a non-zero constant
    is discarded. *)
Ltac zero_target_cases Hn H0 :=
  cbn [In] in Hn;
  repeat (destruct Hn as [Hn|Hn];
          [subst;
           cbn [exp_ramp_targets node_params flat_map events exp_ramp_target app In] in H0;
           repeat (destruct H0 as [H0|H0]; [first [ exfalso; lra | auto ] |]);
           try contradiction |]);
  try contradiction.

Ltac node_values_tac :=
  cbn [map node_values node_params flat_map param_values value events event_value app INR
       Nat.add];
  num_eq.

(** C2, as the code has it.  A trigger call does no clamping, for any
    configuration, inside its documented domains or not, and any trigger
    time that is not negative.  It reads volume, tune and velocity and
    never decay or tone: configurations that agree on the three have the
    same effect, and two configurations with the same effect have the same
    tune and the same product of volume and velocity.  The call hands the
    platform an exponential ramp whose target is 0, which the platform
    rejects, exactly when [35 + 20 tune = 0] for a kick and when
    [1.2 (150 + 100 tune) = 0] or a tenth of the master level is 0 for a
    snare, and never for a hi-hat or a clap.  In every other case the
    numbers the nodes of the voice hold, node by node in the order of
    creation, are the written expressions in the tune and the master level
    [volume * velocity / 127] as they are supplied. *)
Theorem trigger_config_unclamped (random : nat -> R) (type : DrumType) (time : R)
    (config config' : DrumVoiceConfig.t) (e : DrumEngine) :
  0 <= time ->
  let e' := exec (trigger random type time config) e in
  let added := new_nodes e e' in
  let tune := DrumVoiceConfig.tune config in
  let masterVol := DrumVoiceConfig.volume config * (DrumVoiceConfig.velocity config / 127) in
  let modded := kickModEnabled e in
  let draw (i : nat) := random (i + randomDraws (ctx e))%nat in
  let zero_target :=
    match type with
    | KICK => 35 + tune * 20 = 0
    | SNARE => (150 + tune * 100) * 1.2 = 0 \/ masterVol * 0.1 = 0
    | HAT | CLAP => False
    end in
  (DrumVoiceConfig.volume config' = DrumVoiceConfig.volume config ->
   DrumVoiceConfig.tune config' = DrumVoiceConfig.tune config ->
   DrumVoiceConfig.velocity config' = DrumVoiceConfig.velocity config ->
   exec (trigger random type time config') e = e') /\
  (exec (trigger random type time config') e = e' ->
   DrumVoiceConfig.tune config' = DrumVoiceConfig.tune config /\
   DrumVoiceConfig.volume config' * DrumVoiceConfig.velocity config' =
   DrumVoiceConfig.volume config * DrumVoiceConfig.velocity config) /\
  ((exists n : AudioNode, In n added /\ In 0 (exp_ramp_targets n)) <-> zero_target) /\
  (~ zero_target ->
   map node_values added =
   match type with
   | KICK =>
       [ [440; 35 + tune * 20; 0];
         [1; 0; masterVol * 0.8; 0.001];
         [440; if modded then 300 + tune * 100 else 180 + tune * 60; 35 + tune * 20; 0];
         [1; masterVol * (if modded then 1.2 else 0.9); 0.001];
         [440; if modded then 120 else 80; 40; 0];
         [1; masterVol * (if modded then 0.5 else 0.3); 0.001];
         [if modded then 100 else 60; 1] ] ++
       (if modded
        then [ []; [1; masterVol * 0.2; 0.001]; [500; 1]; [2000; 1] ]
        else [])
   | SNARE =>
       [ [440; (150 + tune * 100) * 0.8; 0];
         [1; masterVol * 0.5; 0.001];
         [440; (150 + tune * 100) * 2; (150 + tune * 100) * 1.2; 0];
         [1; masterVol * 0.4; 0.001];
         [];
         [1; masterVol * 0.6; masterVol * 0.1; 0.001];
         [2000; 0.5];
         [8000 + tune * 4000; 0.5];
         [];
         [1; masterVol * 0.3; 0.001];
         [1000; 1] ]
   | HAT =>
       [ [1];
         [(300 + tune * 400) * 1.0; (draw 0%nat - 0.5) * 20]; [0.15];
         [(300 + tune * 400) * 1.34; (draw 1%nat - 0.5) * 20]; [0.13];
         [(300 + tune * 400) * 1.67; (draw 2%nat - 0.5) * 20]; [0.11];
         [(300 + tune * 400) * 1.91; (draw 3%nat - 0.5) * 20]; [0.09];
         [(300 + tune * 400) * 2.18; (draw 4%nat - 0.5) * 20]; [0.07];
         [(300 + tune * 400) * 2.41; (draw 5%nat - 0.5) * 20]; [0.05];
         [8000 + tune * 4000; 1.5];
         [6000; 0.5];
         [1; masterVol * 0.5; 0.001] ]
   | CLAP =>
       [ []; [1; masterVol * 0.4; 0.001]; [1200 + tune * 800; 2];
         []; [1; masterVol * 0.4; 0.001]; [1200 + tune * 800; 2];
         []; [1; masterVol * 0.4; 0.001]; [1200 + tune * 800; 2];
         []; [1; masterVol * 0.8; 0.001]; [1200 + tune * 800; 2];
         []; [1; masterVol * 0.3; 0.001]; [1500 + tune * 1000; 1]; [800; 1] ]
   end).
Proof.
  intros _. cbv zeta.
  split.
  { intros Hv Ht Hvel.
    rewrite (trigger_reads_three_fields random type time config config' Hv Ht Hvel).
    reflexivity. }
  assert (Hlevel : forall a b c d k : R,
            k <> 0 -> a * (b / 127) * k = c * (d / 127) * k -> a * b = c * d).
  { intros a b c d k Hk H. apply Rmult_eq_reg_r in H; [lra | exact Hk]. }
  destruct type; cbn [trigger].
  - destruct (kickModEnabled e) eqn:Hk.
    + rewrite (triggerKick_modded random time config e Hk).
      rewrite (triggerKick_modded random time config' e Hk).
      rewrite new_nodes_grown. split; [|split].
      * intros H.
        apply (f_equal (new_nodes e)) in H. rewrite 2!new_nodes_grown in H.
        pose proof (f_equal (fun l => l !! 0%nat) H) as H0.
        pose proof (f_equal (fun l => l !! 1%nat) H) as H1. clear H.
        cbn [lookup list_lookup] in H0, H1.
        injection H0 as H0. injection H1 as H1.
        split; [lra | apply (Hlevel _ _ _ _ 0.8); [lra | exact H1]].
      * split.
        -- intros (n & Hn & H0). zero_target_cases Hn H0.
        -- intros Hz. eexists. split; [do 2 right; left; reflexivity|].
           cbn [exp_ramp_targets node_params flat_map events exp_ramp_target app In].
           left. exact Hz.
      * intros _. node_values_tac.
    + rewrite (triggerKick_plain random time config e Hk).
      rewrite (triggerKick_plain random time config' e Hk).
      rewrite new_nodes_grown. split; [|split].
      * intros H.
        apply (f_equal (new_nodes e)) in H. rewrite 2!new_nodes_grown in H.
        pose proof (f_equal (fun l => l !! 0%nat) H) as H0.
        pose proof (f_equal (fun l => l !! 1%nat) H) as H1. clear H.
        cbn [lookup list_lookup] in H0, H1.
        injection H0 as H0. injection H1 as H1.
        split; [lra | apply (Hlevel _ _ _ _ 0.8); [lra | exact H1]].
      * split.
        -- intros (n & Hn & H0). zero_target_cases Hn H0.
        -- intros Hz. eexists. split; [do 2 right; left; reflexivity|].
           cbn [exp_ramp_targets node_params flat_map events exp_ramp_target app In].
           left. exact Hz.
      * intros _. node_values_tac.
  - rewrite (triggerSnare_run random time config e).
    rewrite (triggerSnare_run random time config' e).
    rewrite new_nodes_grown. split; [|split].
    + intros H.
      apply (f_equal (new_nodes e)) in H. rewrite 2!new_nodes_grown in H.
      pose proof (f_equal (fun l => l !! 0%nat) H) as H0.
      pose proof (f_equal (fun l => l !! 1%nat) H) as H1. clear H.
      cbn [lookup list_lookup] in H0, H1.
      injection H0 as H0. injection H1 as H1.
      split; [lra | apply (Hlevel _ _ _ _ 0.5); [lra | exact H1]].
    + split.
      * intros (n & Hn & H0). zero_target_cases Hn H0.
      * intros [Hz|Hz].
        -- eexists. split; [do 2 right; left; reflexivity|].
           cbn [exp_ramp_targets node_params flat_map events exp_ramp_target app In].
           left. exact Hz.
        -- eexists. split; [do 5 right; left; reflexivity|].
           cbn [exp_ramp_targets node_params flat_map events exp_ramp_target app In].
           left. exact Hz.
    + intros _. node_values_tac.
  - rewrite (triggerHiHat_run random time config false e).
    rewrite (triggerHiHat_run random time config' false e).
    rewrite new_nodes_grown. split; [|split].
    + intros H.
      apply (f_equal (new_nodes e)) in H. rewrite 2!new_nodes_grown in H.
      pose proof (f_equal (fun l => l !! 1%nat) H) as H0.
      pose proof (f_equal (fun l => l !! 15%nat) H) as H1. clear H.
      cbn [lookup list_lookup] in H0, H1.
      injection H0 as H0. injection H1 as H1.
      split; [lra | apply (Hlevel _ _ _ _ 0.5); [lra | exact H1]].
    + split; [|contradiction].
      intros (n & Hn & H0). zero_target_cases Hn H0.
    + intros _. node_values_tac.
  - rewrite (triggerClap_run random time config e).
    rewrite (triggerClap_run random time config' e).
    rewrite new_nodes_grown. split; [|split].
    + intros H.
      apply (f_equal (new_nodes e)) in H. rewrite 2!new_nodes_grown in H.
      pose proof (f_equal (fun l => l !! 2%nat) H) as H0.
      pose proof (f_equal (fun l => l !! 1%nat) H) as H1. clear H.
      cbn [lookup list_lookup] in H0, H1.
      injection H0 as H0. injection H1 as H1.
      split; [lra | apply (Hlevel _ _ _ _ 0.4); [lra | exact H1]].
    + split; [|contradiction].
      intros (n & Hn & H0). zero_target_cases Hn H0.
    + intros _. node_values_tac.
Qed.

Lemma trigger_config_unclamped_witness :
  let random := fun _ : nat => 0 in
  let time := 0 in
  let config := DrumVoiceConfig.mk 3 2 (1/2) (1/2) 200 in
  let config' := DrumVoiceConfig.mk 3 2 7 (-3) 200 in
  let e := engine0 in
  let e' := exec (trigger random SNARE time config) e in
  let added := new_nodes e e' in
  let tune := DrumVoiceConfig.tune config in
  let masterVol := DrumVoiceConfig.volume config * (DrumVoiceConfig.velocity config / 127) in
  let zero_target := (150 + tune * 100) * 1.2 = 0 \/ masterVol * 0.1 = 0 in
  (DrumVoiceConfig.volume config' = DrumVoiceConfig.volume config ->
   DrumVoiceConfig.tune config' = DrumVoiceConfig.tune config ->
   DrumVoiceConfig.velocity config' = DrumVoiceConfig.velocity config ->
   exec (trigger random SNARE time config') e = e') /\
  (exec (trigger random SNARE time config') e = e' ->
   DrumVoiceConfig.tune config' = DrumVoiceConfig.tune config /\
   DrumVoiceConfig.volume config' * DrumVoiceConfig.velocity config' =
   DrumVoiceConfig.volume config * DrumVoiceConfig.velocity config) /\
  ((exists n : AudioNode, In n added /\ In 0 (exp_ramp_targets n)) <-> zero_target) /\
  (~ zero_target ->
   map node_values added =
   [ [440; (150 + tune * 100) * 0.8; 0];
     [1; masterVol * 0.5; 0.001];
     [440; (150 + tune * 100) * 2; (150 + tune * 100) * 1.2; 0];
     [1; masterVol * 0.4; 0.001];
     [];
     [1; masterVol * 0.6; masterVol * 0.1; 0.001];
     [2000; 0.5];
     [8000 + tune * 4000; 0.5];
     [];
     [1; masterVol * 0.3; 0.001];
     [1000; 1] ]).
Proof.
  apply (trigger_config_unclamped (fun _ => 0) SNARE 0
           (DrumVoiceConfig.mk 3 2 (1/2) (1/2) 200) (DrumVoiceConfig.mk 3 2 7 (-3) 200) engine0).
  lra.
Defined.

(* ====================================================================== *)
(** ** The chain stays built *)

Lemma chain_built_alter (f : AudioNode -> AudioNode) (r : nat) (e : DrumEngine) :
  (forall n, same_kind n (f n)) ->
  chain_built e ->
  chain_built (with_ctx (with_nodes (alter f r)) e).
Proof.
  intros Hk ((g0 & Ho) & (gi & Hi) & (g1 & Hg1) & (c & ov & Hc) & (ty & fq & q & Hq)
             & (g2 & Hg2) & (ct & ck & cr & ca & crl & Hco) & Hnd).
  unfold chain_built, chain_refs, node_at in *.
  cbn [with_ctx with_nodes ctx nodes outputNode ratInput ratPreGain ratWaveshaper
       ratFilter ratPostGain compressor].
  rewrite !list_lookup_alter.
  repeat split; try exact Hnd;
    match goal with
    | |- context [decide (r = ?x)] =>
        destruct (decide (r = x)) as [->|_]; [|eauto 10]
    end.
  - rewrite Ho. cbn. specialize (Hk (GainNode g0)).
    destruct (f _); try contradiction. eauto.
  - rewrite Hi. cbn. specialize (Hk (GainNode gi)).
    destruct (f _); try contradiction. eauto.
  - rewrite Hg1. cbn. specialize (Hk (GainNode g1)).
    destruct (f _); try contradiction. eauto.
  - rewrite Hc. cbn. specialize (Hk (WaveShaperNode c ov)).
    destruct (f _); try contradiction. eauto.
  - rewrite Hq. cbn. specialize (Hk (BiquadFilterNode ty fq q)).
    destruct (f _); try contradiction. eauto.
  - rewrite Hg2. cbn. specialize (Hk (GainNode g2)).
    destruct (f _); try contradiction. eauto.
  - rewrite Hco. cbn. specialize (Hk (DynamicsCompressorNode ct ck cr ca crl)).
    destruct (f _); try contradiction. eauto 10.
Qed.

Lemma alterParam_same_kind p g n : same_kind n (alterParam p g n).
Proof. destruct p, n; exact I. Qed.

Lemma setMasterVolume_chain_built (vol : R) (e : DrumEngine) :
  chain_built e -> chain_built (exec (setMasterVolume vol) e).
Proof.
  intros Hb.
  apply (chain_built_alter _ (outputNode e) e (alterParam_same_kind gain _) Hb).
Qed.

Lemma setKickMod_chain_built (enabled : bool) (e : DrumEngine) :
  chain_built e -> chain_built (exec (setKickMod enabled) e).
Proof. intros Hb. exact Hb. Qed.

(** Every state a client can reach has a built chain: the hypothesis of the
    theorems above on [updateRat] and [trigger] holds whenever they can be
    called. *)
Lemma reachable_chain_built (random : nat -> R) (e : DrumEngine) :
  reachable random e -> chain_built e.
Proof.
  induction 1 as [context destination | e c _ IH].
  - apply new_DrumEngine_chain_built.
  - destruct c as [config | enabled | vol | type time config]; cbn [call].
    + apply updateRat_chain_built, IH.
    + apply setKickMod_chain_built, IH.
    + apply setMasterVolume_chain_built, IH.
    + apply trigger_chain_built, IH.
Qed.

(* ====================================================================== *)
(** ** More on the waveshaper curve *)

Lemma tanh_gt_m1 x : -1 < tanh x.
Proof. pose proof (tanh_lt_1 (- x)) as H. rewrite tanh_opp in H. lra. Qed.

Lemma curve_x_le (i j : nat) : (i <= j)%nat -> curve_x i <= curve_x j.
Proof.
  intros H. apply le_INR in H. unfold curve_x, samples.
  assert (INR i * 2 / 44100 <= INR j * 2 / 44100); [|lra].
  unfold Rdiv. apply Rmult_le_compat_r; lra.
Qed.

(** X1.  For every drive amount in [0,1], every entry of the curve lies
    between -1 and 0.9, both included; it is negative where the table input
    is negative, not negative elsewhere, and zero where the table input is
    zero. *)
Theorem makeRatCurve_range (amount : R) (i : nat) :
  0 <= amount <= 1 ->
  (i < Z.to_nat 44100)%nat ->
  exists y : R,
    makeRatCurve amount !! i = Some y /\
    -1 <= y <= 0.9 /\
    (curve_x i < 0 -> y < 0) /\
    (0 <= curve_x i -> 0 <= y) /\
    (curve_x i = 0 -> y = 0).
Proof.
  intros Ha Hi. exists (rat_shape (amount * 50 + 1) (curve_x i)).
  split; [apply makeRatCurve_lookup, Hi|].
  set (k := amount * 50 + 1). assert (Hk : 0 < k) by (unfold k; lra).
  set (x := curve_x i). unfold rat_shape.
  destruct (Rge_dec x 0) as [Hx|Hx].
  - pose proof (tanh_lt_1 (x * k * 1.2)) as H1.
    assert (H0 : 0 <= tanh (x * k * 1.2)).
    { destruct (Req_dec x 0) as [->|Hne].
      - rewrite !Rmult_0_l, tanh_at_0. lra.
      - left. apply tanh_pos. assert (0 < x * k) by nra. lra. }
    repeat split; try lra.
    intros ->. rewrite !Rmult_0_l, tanh_at_0. lra.
  - assert (Hneg : x * k * 0.8 < 0) by nra.
    pose proof (tanh_neg _ Hneg) as H0.
    pose proof (tanh_gt_m1 (x * k * 0.8)) as H1.
    repeat split; lra.
Qed.

Lemma makeRatCurve_range_witness :
  exists y : R,
    makeRatCurve (1/2) !! 0%nat = Some y /\
    -1 <= y <= 0.9 /\
    (curve_x 0 < 0 -> y < 0) /\
    (0 <= curve_x 0 -> 0 <= y) /\
    (curve_x 0 = 0 -> y = 0).
Proof. apply (makeRatCurve_range (1/2) 0%nat); [lra|lia]. Defined.

(** X2.  For every drive amount in [0,1] the curve never decreases along
    the table: a larger input never gives a smaller output, on either
    branch or across the two. *)
Theorem makeRatCurve_monotone (amount : R) (i j : nat) :
  0 <= amount <= 1 ->
  (i <= j)%nat ->
  (j < Z.to_nat 44100)%nat ->
  exists yi yj : R,
    makeRatCurve amount !! i = Some yi /\
    makeRatCurve amount !! j = Some yj /\
    yi <= yj.
Proof.
  intros Ha Hij Hj.
  exists (rat_shape (amount * 50 + 1) (curve_x i)), (rat_shape (amount * 50 + 1) (curve_x j)).
  split; [apply makeRatCurve_lookup; lia|].
  split; [apply makeRatCurve_lookup; lia|].
  pose proof (curve_x_le i j Hij) as Hx.
  set (k := amount * 50 + 1). assert (Hk : 0 < k) by (unfold k; lra).
  set (xi := curve_x i) in *. set (xj := curve_x j) in *.
  destruct Hx as [Hx|Hx]; [|rewrite Hx; lra].
  unfold rat_shape.
  destruct (Rge_dec xi 0) as [Hi0|Hi0]; destruct (Rge_dec xj 0) as [Hj0|Hj0].
  - assert (tanh (xi * k * 1.2) < tanh (xj * k * 1.2)) by (apply tanh_lt; nra). lra.
  - lra.
  - assert (Hn : xi * k * 0.8 < 0) by nra.
    pose proof (tanh_neg _ Hn).
    assert (0 <= tanh (xj * k * 1.2)).
    { destruct (Req_dec xj 0) as [->|Hne].
      - rewrite !Rmult_0_l, tanh_at_0. lra.
      - left. apply tanh_pos. assert (0 < xj * k) by nra. lra. }
    lra.
  - left. apply tanh_lt. nra.
Qed.

Lemma makeRatCurve_monotone_witness :
  exists yi yj : R,
    makeRatCurve 1 !! 0%nat = Some yi /\
    makeRatCurve 1 !! 1%nat = Some yj /\
    yi <= yj.
Proof. apply (makeRatCurve_monotone 1 0%nat 1%nat); [lra|lia|lia]. Defined.

(* ====================================================================== *)
(** ** More on the noise buffer *)

(** X3.  For a positive duration and sample rate, the cell [i] of the
    buffer [createNoiseBuffer] returns holds [2 r - 1] for the draw [r]
    number [d0 + i], where [d0] draws were made before the call: no cell is
    left at zero and no draw is used twice.  The call makes as many draws as
    the buffer has cells, at least one, and changes nothing else in the
    state. *)
Theorem createNoiseBuffer_draws (random : nat -> R) (duration : R) (e : DrumEngine) :
  0 < duration ->
  0 < sampleRate (ctx e) ->
  let n := Z.to_nat (Zceil (sampleRate (ctx e) * duration)) in
  let d0 := randomDraws (ctx e) in
  let buffer := fst (createNoiseBuffer random duration e) in
  let e' := snd (createNoiseBuffer random duration e) in
  (0 < n)%nat /\
  length (channelData buffer) = n /\
  (forall i : nat, (i < n)%nat ->
     channelData buffer !! i = Some (random (d0 + i)%nat * 2 - 1)) /\
  e' = with_ctx (with_randomDraws (fun d => (d + n)%nat)) e.
Proof.
  intros Hd Hsr.
  destruct e as [[t sr ns cs d] o ri rp rw rf rpo co km rc].
  cbn [ctx sampleRate randomDraws] in *. cbv zeta.
  rewrite createNoiseBuffer_run. cbn [fst snd].
  unfold noiseBuffer. cbn [channelData].
  assert (Hpos : (0 < Zceil (sr * duration))%Z) by (apply Zceil_pos; nra).
  split; [lia|]. split.
  - rewrite noise_fill_length. unfold Float32Array_new. apply length_replicate.
  - split; [|reflexivity].
    intros i Hi.
    rewrite noise_fill_lookup
      by (unfold Float32Array_new; rewrite length_replicate; exact Hi).
    destruct (decide _) as [_|H]; [|lia].
    rewrite Nat.sub_0_r. reflexivity.
Qed.

Lemma createNoiseBuffer_draws_witness :
  let e := engine0 in
  let n := Z.to_nat (Zceil (sampleRate (ctx e) * 1)) in
  let d0 := randomDraws (ctx e) in
  let buffer := fst (createNoiseBuffer (fun _ => 0) 1 e) in
  let e' := snd (createNoiseBuffer (fun _ => 0) 1 e) in
  (0 < n)%nat /\
  length (channelData buffer) = n /\
  (forall i : nat, (i < n)%nat ->
     channelData buffer !! i = Some ((fun _ : nat => 0) (d0 + i)%nat * 2 - 1)) /\
  e' = with_ctx (with_randomDraws (fun d => (d + n)%nat)) e.
Proof.
  apply (createNoiseBuffer_draws (fun _ => 0) 1 engine0).
  - lra.
  - rewrite engine0_sampleRate. lra.
Defined.
(* ====================================================================== *)
(** ** What every call keeps *)

Lemma chain_refs_distinct (e : DrumEngine) (i j a b : nat) :
  chain_built e ->
  chain_refs e !! i = Some a -> chain_refs e !! j = Some b -> i <> j -> a <> b.
Proof.
  intros (_ & _ & _ & _ & _ & _ & _ & Hnd) Hi Hj Hij ->.
  apply Hij. exact (NoDup_lookup _ _ _ _ Hnd Hi Hj).
Qed.

Lemma setMasterVolume_exec (vol : R) (e : DrumEngine) :
  exec (setMasterVolume vol) e =
  with_ctx (with_nodes (alter (alterParam gain
              (schedule (SetTargetAtTime vol (currentTime (ctx e)) 0.05)))
              (outputNode e))) e.
Proof. destruct e as [[t sr ns cs d] o ri rp rw rf rpo co km rc]. reflexivity. Qed.

(** What a call does to the long-lived nodes of a built chain: the
    references stay, connections are only added, the compressor and the
    input of the chain are never written, the assigned values of the gains
    and of the cutoff are never written, and the curve and the post-gain
    target change only to follow the stored configuration. *)
Lemma call_effect (random : nat -> R) (c : Call) (e : DrumEngine) :
  chain_built e ->
  let e' := exec (call random c) e in
  chain_path e' = chain_path e /\
  (forall a b, connected e a b -> connected e' a b) /\
  node_at e' (compressor e) = node_at e (compressor e) /\
  node_at e' (ratInput e) = node_at e (ratInput e) /\
  (forall g, node_at e (outputNode e) = Some (GainNode g) ->
     exists g', node_at e' (outputNode e) = Some (GainNode g') /\ value g' = value g) /\
  (forall g, node_at e (ratPreGain e) = Some (GainNode g) ->
     exists g', node_at e' (ratPreGain e) = Some (GainNode g') /\ value g' = value g) /\
  (forall ty f q, node_at e (ratFilter e) = Some (BiquadFilterNode ty f q) ->
     exists f', node_at e' (ratFilter e) = Some (BiquadFilterNode ty f' q) /\
                value f' = value f) /\
  (forall cv o, node_at e (ratWaveshaper e) = Some (WaveShaperNode cv o) ->
     exists cv', node_at e' (ratWaveshaper e) = Some (WaveShaperNode cv' o) /\
       (cv' = cv /\ ratConfig e' = ratConfig e \/
        cv' = Some (makeRatCurve (RatConfig.distortion (ratConfig e'))))) /\
  (forall g, node_at e (ratPostGain e) = Some (GainNode g) ->
     exists g', node_at e' (ratPostGain e) = Some (GainNode g') /\
       value g' = value g /\
       (g' = g /\ ratConfig e' = ratConfig e \/
        param_target g' = RatConfig.volume (ratConfig e'))).
Proof.
  intros Hb e'. subst e'.
  assert (Hd : forall i j a b, chain_refs e !! i = Some a -> chain_refs e !! j = Some b ->
                 i <> j -> a <> b) by (intros; eapply chain_refs_distinct; eauto).
  destruct c as [config | enabled | vol | type time config]; cbn [call].
  - (* updateRat *)
    destruct (updateRat_effect config e Hb) as (Hpre & Hws & Hf & Hpost & Hother).
    destruct (updateRat_fields config e)
      as (Hrc & Eo & Eri & Erp & Erw & Erf & Erpo & Eco & _ & _ & _ & Ecs & _).
    split; [unfold chain_path; rewrite Eo, Eri, Erp, Erw, Erf, Erpo, Eco; reflexivity|].
    split; [intros a b; unfold connected; rewrite Ecs; tauto|].
    split.
    { apply Hother; [apply (Hd 6%nat 2%nat) | apply (Hd 6%nat 3%nat)
                    | apply (Hd 6%nat 4%nat) | apply (Hd 6%nat 5%nat)];
        solve [reflexivity | lia]. }
    split.
    { apply Hother; [apply (Hd 1%nat 2%nat) | apply (Hd 1%nat 3%nat)
                    | apply (Hd 1%nat 4%nat) | apply (Hd 1%nat 5%nat)];
        solve [reflexivity | lia]. }
    split.
    { intros g Hg. exists g. split; [|reflexivity]. rewrite <- Hg.
      apply Hother; [apply (Hd 0%nat 2%nat) | apply (Hd 0%nat 3%nat)
                    | apply (Hd 0%nat 4%nat) | apply (Hd 0%nat 5%nat)];
        solve [reflexivity | lia]. }
    split; [intros g Hg; eexists; split; [apply (Hpre _ Hg)|reflexivity]|].
    split; [intros ty f q Hq; eexists; split; [apply (Hf _ _ _ Hq)|reflexivity]|].
    split.
    { intros cv o Hc. eexists. split; [apply (Hws _ _ Hc)|].
      right. rewrite Hrc. reflexivity. }
    intros g Hg. eexists. split; [apply (Hpost _ Hg)|]. split; [reflexivity|].
    right. rewrite param_target_schedule, Hrc. reflexivity.
  - (* setKickMod *)
    split; [reflexivity|]. split; [intros a b H; exact H|].
    split; [reflexivity|]. split; [reflexivity|].
    split; [intros g Hg; exists g; split; [exact Hg|reflexivity]|].
    split; [intros g Hg; exists g; split; [exact Hg|reflexivity]|].
    split; [intros ty f q Hq; exists f; split; [exact Hq|reflexivity]|].
    split; [intros cv o Hc; exists cv; split; [exact Hc|left; split; reflexivity]|].
    intros g Hg. exists g. split; [exact Hg|]. split; [reflexivity|].
    left. split; reflexivity.
  - (* setMasterVolume *)
    rewrite setMasterVolume_exec.
    assert (Hne : forall r j, chain_refs e !! j = Some r -> j <> 0%nat ->
              node_at (with_ctx (with_nodes (alter (alterParam gain
                 (schedule (SetTargetAtTime vol (currentTime (ctx e)) 0.05)))
                 (outputNode e))) e) r = node_at e r).
    { intros r j Hj Hj0. unfold node_at. cbn [with_ctx with_nodes ctx nodes].
      apply list_lookup_alter_ne. apply (Hd 0%nat j); [reflexivity|exact Hj|lia]. }
    split; [reflexivity|]. split; [intros a b H; exact H|].
    split; [apply (Hne _ 6%nat); [reflexivity|lia]|].
    split; [apply (Hne _ 1%nat); [reflexivity|lia]|].
    split.
    { intros g Hg. unfold node_at in *. cbn [with_ctx with_nodes ctx nodes outputNode].
      rewrite list_lookup_alter_eq, Hg. eexists. split; reflexivity. }
    split.
    { intros g Hg. exists g. split; [|reflexivity]. rewrite <- Hg.
      apply (Hne _ 2%nat); [reflexivity|lia]. }
    split.
    { intros ty f q Hq. exists f. split; [|reflexivity]. rewrite <- Hq.
      apply (Hne _ 4%nat); [reflexivity|lia]. }
    split.
    { intros cv o Hc. exists cv. split; [|left; split; reflexivity]. rewrite <- Hc.
      apply (Hne _ 3%nat); [reflexivity|lia]. }
    intros g Hg. exists g. split; [|split; [reflexivity|left; split; reflexivity]].
    rewrite <- Hg. apply (Hne _ 5%nat); [reflexivity|lia].
  - (* trigger *)
    destruct (trigger_grows random type time config e) as (added & wires & draws & -> & _).
    assert (Hv : forall r, r ∈ chain_refs e ->
              node_at (grown e added wires draws) r = node_at e r).
    { intros r Hr. apply node_at_grown, (chain_built_valid e r Hb Hr). }
    unfold chain_refs in Hv.
    split; [reflexivity|].
    split; [intros a b H; unfold connected, grown; cbn [ctx connections];
            apply elem_of_app; left; exact H|].
    split; [apply Hv; rewrite !elem_of_cons; auto 10|].
    split; [apply Hv; rewrite !elem_of_cons; auto 10|].
    split.
    { intros g Hg. exists g. split; [|reflexivity]. rewrite <- Hg.
      apply Hv; rewrite !elem_of_cons; auto 10. }
    split.
    { intros g Hg. exists g. split; [|reflexivity]. rewrite <- Hg.
      apply Hv; rewrite !elem_of_cons; auto 10. }
    split.
    { intros ty f q Hq. exists f. split; [|reflexivity]. rewrite <- Hq.
      apply Hv; rewrite !elem_of_cons; auto 10. }
    split.
    { intros cv o Hc. exists cv. split; [|left; split; reflexivity]. rewrite <- Hc.
      apply Hv; rewrite !elem_of_cons; auto 10. }
    intros g Hg. exists g. split; [|split; [reflexivity|left; split; reflexivity]].
    rewrite <- Hg. apply Hv; rewrite !elem_of_cons; auto 10.
Qed.

(** The nodes of a newly constructed engine. *)
Lemma new_DrumEngine_nodes (context : AudioContext) (destination : nat) :
  let e := new_DrumEngine context destination in
  node_at e (outputNode e) = Some (GainNode (mkParam 1.0 [])) /\
  node_at e (ratInput e) = Some (GainNode (mkParam 1.0 [])) /\
  node_at e (ratPreGain e) = Some (GainNode (mkParam 1.0 [])) /\
  node_at e (ratWaveshaper e) = Some (WaveShaperNode (Some (makeRatCurve 0.4)) oversample_4x) /\
  node_at e (ratFilter e) =
    Some (BiquadFilterNode lowpass (mkParam 8000 []) (mkParam 0.7 [])) /\
  node_at e (ratPostGain e) = Some (GainNode (mkParam 0.8 [])) /\
  node_at e (compressor e) =
    Some (DynamicsCompressorNode (mkParam (-12) []) (mkParam 6 []) (mkParam 4 [])
            (mkParam 0.003 []) (mkParam 0.15 [])) /\
  ratConfig e = RatConfig.mk 0.4 0.8 0.8 /\
  kickModEnabled e = false.
Proof.
  destruct context as [t sr ns cs d]. cbv zeta. rewrite new_DrumEngine_eq.
  unfold node_at.
  cbn [ctx nodes outputNode ratInput ratPreGain ratWaveshaper ratFilter ratPostGain
       compressor ratConfig kickModEnabled].
  rewrite !lookup_app_plus.
  cbn [lookup list_lookup].
  repeat split; reflexivity.
Qed.

(** The path the constructor wires. *)
Lemma new_DrumEngine_path (context : AudioContext) (destination : nat) :
  wired (new_DrumEngine context destination)
    (chain_path (new_DrumEngine context destination) ++ [destination]).
Proof.
  destruct context as [t sr ns cs d]. rewrite new_DrumEngine_eq.
  cbn [chain_path outputNode ratInput ratPreGain ratWaveshaper ratFilter ratPostGain
       compressor app].
  intros i a b Ha Hb. unfold connected. cbn [ctx connections].
  apply elem_of_app. right.
  do 7 (destruct i as [|i];
        [cbn in Ha, Hb; injection Ha as <-; injection Hb as <-;
         rewrite !elem_of_cons; auto 10|]).
  cbn in Hb. destruct i; discriminate.
Qed.

(** X4.  The constructor keeps every node and connection the context
    already holds, adds seven nodes and seven connections, and wires the
    chain as one path: input, pre-gain, waveshaper, filter, post-gain,
    compressor, master gain, destination. *)
Theorem new_DrumEngine_wired (context : AudioContext) (destination : nat) :
  let e := new_DrumEngine context destination in
  take (length (nodes context)) (nodes (ctx e)) = nodes context /\
  length (nodes (ctx e)) = (length (nodes context) + 7)%nat /\
  take (length (connections context)) (connections (ctx e)) = connections context /\
  length (connections (ctx e)) = (length (connections context) + 7)%nat /\
  wired e (chain_path e ++ [destination]).
Proof.
  cbv zeta. split; [|split; [|split; [|split]]]; [| | | |apply new_DrumEngine_path];
    destruct context as [t sr ns cs d]; rewrite new_DrumEngine_eq;
    cbn [ctx nodes connections];
    rewrite ?take_app_length, ?length_app; reflexivity.
Qed.

(** X5.  In every state a client can reach, the chain is still wired as
    the constructor wired it, from its input to the master gain and on to
    some destination: no call removes or redirects a connection of the
    chain. *)
Theorem reachable_wired (random : nat -> R) (e : DrumEngine) :
  reachable random e ->
  wired e (chain_path e) /\ exists destination, connected e (outputNode e) destination.
Proof.
  intros Hr. induction Hr as [context destination | e c Hr IH].
  - pose proof (new_DrumEngine_path context destination) as Hw.
    split.
    + intros i a b Ha Hb. apply (Hw i a b).
      * apply lookup_app_l_Some, Ha.
      * apply lookup_app_l_Some, Hb.
    + exists destination. apply (Hw 6%nat); reflexivity.
  - destruct (call_effect random c e (reachable_chain_built random e Hr))
      as (Hp & Hc & _).
    destruct IH as (Hw & dest & Hd).
    split.
    + rewrite Hp. intros i a b Ha Hb. apply Hc, (Hw i a b Ha Hb).
    + exists dest.
      assert (Ho : outputNode (exec (call random c) e) = outputNode e).
      { unfold chain_path in Hp. injection Hp as _ _ _ _ _ _ Ho. exact Ho. }
      rewrite Ho. apply Hc, Hd.
Qed.

Lemma reachable_wired_witness :
  wired engine0 (chain_path engine0) /\
  exists destination, connected engine0 (outputNode engine0) destination.
Proof. apply (reachable_wired (fun _ => 0) engine0). apply reachable_new. Defined.

(** X6.  In every state a client can reach, the compressor holds the
    settings the constructor assigned (threshold -12, knee 6, ratio 4,
    attack 0.003, release 0.15) with nothing scheduled on them, the input
    gain of the chain is 1 with nothing scheduled, the filter is a lowpass
    with Q 0.7, the waveshaper oversamples 4x, and the assigned values of
    the master gain (1), the pre-gain (1), the cutoff (8000) and the
    post-gain (0.8) are those of the constructor: every later change is on
    the timeline of the parameter. *)
Theorem reachable_fixed_settings (random : nat -> R) (e : DrumEngine) :
  reachable random e ->
  node_at e (compressor e) =
    Some (DynamicsCompressorNode (mkParam (-12) []) (mkParam 6 []) (mkParam 4 [])
            (mkParam 0.003 []) (mkParam 0.15 [])) /\
  node_at e (ratInput e) = Some (GainNode (mkParam 1.0 [])) /\
  (exists f, node_at e (ratFilter e) = Some (BiquadFilterNode lowpass f (mkParam 0.7 [])) /\
             value f = 8000) /\
  (exists cv, node_at e (ratWaveshaper e) = Some (WaveShaperNode cv oversample_4x)) /\
  (exists g, node_at e (outputNode e) = Some (GainNode g) /\ value g = 1.0) /\
  (exists g, node_at e (ratPreGain e) = Some (GainNode g) /\ value g = 1.0) /\
  (exists g, node_at e (ratPostGain e) = Some (GainNode g) /\ value g = 0.8).
Proof.
  intros Hr. induction Hr as [context destination | e c Hr IH].
  - destruct (new_DrumEngine_nodes context destination)
      as (Ho & Hi & Hp & Hw & Hf & Hpo & Hc & _).
    rewrite Ho, Hi, Hp, Hw, Hf, Hpo, Hc. repeat split; eauto.
  - destruct (call_effect random c e (reachable_chain_built random e Hr))
      as (Hp & _ & Hco & Hin & Hout & Hpre & Hfil & Hws & Hpost).
    unfold chain_path in Hp. injection Hp as Eri Erp Erw Erf Erpo Eco Eo.
    rewrite Eri, Erp, Erw, Erf, Erpo, Eco, Eo.
    destruct IH as (Ic & Ii & (f & If & Vf) & (cv & Iw) & (go & Io & Vo)
                    & (gp & Ip & Vp) & (gq & Iq & Vq)).
    rewrite Hco, Hin.
    destruct (Hout _ Io) as (go' & -> & Vo').
    destruct (Hpre _ Ip) as (gp' & -> & Vp').
    destruct (Hfil _ _ _ If) as (f' & -> & Vf').
    destruct (Hws _ _ Iw) as (cv' & -> & _).
    destruct (Hpost _ Iq) as (gq' & -> & Vq' & _).
    split; [exact Ic|]. split; [exact Ii|].
    split; [exists f'; split; [reflexivity|congruence]|].
    split; [exists cv'; reflexivity|].
    split; [exists go'; split; [reflexivity|congruence]|].
    split; [exists gp'; split; [reflexivity|congruence]|].
    exists gq'; split; [reflexivity|congruence].
Qed.

Lemma reachable_fixed_settings_witness :
  let e := exec (call (fun _ => 0) (Call_setMasterVolume (1/2))) engine0 in
  node_at e (compressor e) =
    Some (DynamicsCompressorNode (mkParam (-12) []) (mkParam 6 []) (mkParam 4 [])
            (mkParam 0.003 []) (mkParam 0.15 [])) /\
  node_at e (ratInput e) = Some (GainNode (mkParam 1.0 [])) /\
  (exists f, node_at e (ratFilter e) = Some (BiquadFilterNode lowpass f (mkParam 0.7 [])) /\
             value f = 8000) /\
  (exists cv, node_at e (ratWaveshaper e) = Some (WaveShaperNode cv oversample_4x)) /\
  (exists g, node_at e (outputNode e) = Some (GainNode g) /\ value g = 1.0) /\
  (exists g, node_at e (ratPreGain e) = Some (GainNode g) /\ value g = 1.0) /\
  (exists g, node_at e (ratPostGain e) = Some (GainNode g) /\ value g = 0.8).
Proof.
  apply (reachable_fixed_settings (fun _ => 0)
           (exec (call (fun _ => 0) (Call_setMasterVolume (1/2))) engine0)).
  apply reachable_call, reachable_new.
Defined.

(** X7.  In every state a client can reach, the installed curve is the
    curve built for the stored distortion and the post-gain target is the
    stored volume: both hold from the constructor on, before any update. *)
Theorem reachable_follows_config (random : nat -> R) (e : DrumEngine) :
  reachable random e ->
  curve_values (chain_targets e) = Some (makeRatCurve (RatConfig.distortion (ratConfig e))) /\
  postGain_target (chain_targets e) = Some (RatConfig.volume (ratConfig e)).
Proof.
  intros Hr.
  enough (H : (exists o, node_at e (ratWaveshaper e) =
                 Some (WaveShaperNode
                         (Some (makeRatCurve (RatConfig.distortion (ratConfig e)))) o)) /\
              (exists g, node_at e (ratPostGain e) = Some (GainNode g) /\
                         param_target g = RatConfig.volume (ratConfig e))).
  { destruct H as ((o & Hw) & (g & Hg & Ht)).
    unfold chain_targets, curve_at, param_at.
    cbn [curve_values postGain_target]. rewrite Hw, Hg.
    cbn [getParam option_map]. rewrite Ht. split; reflexivity. }
  induction Hr as [context destination | e c Hr IH].
  - destruct (new_DrumEngine_nodes context destination)
      as (_ & _ & _ & Hw & _ & Hpo & _ & Hrc & _).
    rewrite Hw, Hpo, Hrc. cbn [RatConfig.distortion RatConfig.volume].
    split; [eexists; reflexivity|]. eexists. split; [reflexivity|].
    reflexivity.
  - destruct (call_effect random c e (reachable_chain_built random e Hr))
      as (Hp & _ & _ & _ & _ & _ & _ & Hws & Hpost).
    unfold chain_path in Hp. injection Hp as _ _ Erw _ Erpo _ _.
    rewrite Erw, Erpo.
    destruct IH as ((o & Iw) & (g & Ig & It)).
    destruct (Hws _ _ Iw) as (cv' & Hcv & Hor).
    destruct (Hpost _ Ig) as (g' & Hg' & _ & Hor').
    rewrite Hcv, Hg'. split.
    + exists o. destruct Hor as [(E1 & E2) | E1]; rewrite E1; [rewrite E2|]; reflexivity.
    + exists g'. split; [reflexivity|].
      destruct Hor' as [(E1 & E2) | E1]; [rewrite E1, E2; exact It | exact E1].
Qed.

Lemma reachable_follows_config_witness :
  curve_values (chain_targets engine0) =
    Some (makeRatCurve (RatConfig.distortion (ratConfig engine0))) /\
  postGain_target (chain_targets engine0) = Some (RatConfig.volume (ratConfig engine0)).
Proof. apply (reachable_follows_config (fun _ => 0) engine0). apply reachable_new. Defined.

(* ====================================================================== *)
(** ** Master volume and disposal *)

(** X8.  [setMasterVolume] schedules one ramp toward the new level on the
    master gain, from the current time with a time constant of 0.05 s, and
    writes nothing else: every other node, the targets of the pedal, the
    connections, the stored configuration and the kick-mod flag are as
    before. *)
Theorem setMasterVolume_ramp (vol : R) (e : DrumEngine) :
  chain_built e ->
  let e' := exec (setMasterVolume vol) e in
  (exists g,
     param_at e (outputNode e) gain = Some g /\
     param_at e' (outputNode e') gain =
       Some (mkParam (value g)
               (events g ++ [SetTargetAtTime vol (currentTime (ctx e)) 0.05]))) /\
  (forall r : nat, r <> outputNode e -> node_at e' r = node_at e r) /\
  chain_targets e' = chain_targets e /\
  connections (ctx e') = connections (ctx e) /\
  ratConfig e' = ratConfig e /\
  kickModEnabled e' = kickModEnabled e.
Proof.
  intros Hb e'. subst e'. rewrite setMasterVolume_exec.
  pose proof Hb as ((g0 & Ho) & _).
  assert (Hne : forall r : nat, r <> outputNode e ->
            node_at (with_ctx (with_nodes (alter (alterParam gain
               (schedule (SetTargetAtTime vol (currentTime (ctx e)) 0.05)))
               (outputNode e))) e) r = node_at e r).
  { intros r Hr. unfold node_at. cbn [with_ctx with_nodes ctx nodes].
    apply list_lookup_alter_ne. congruence. }
  split.
  { exists g0. unfold param_at. rewrite Ho. split; [reflexivity|].
    unfold node_at in *. cbn [with_ctx with_nodes ctx nodes outputNode].
    rewrite list_lookup_alter_eq, Ho. reflexivity. }
  split; [exact Hne|].
  split; [|repeat split; reflexivity].
  unfold chain_targets, param_at, curve_at.
  cbn [with_ctx ratPreGain ratWaveshaper ratFilter ratPostGain].
  rewrite !Hne; [reflexivity| | | |];
    [apply (chain_refs_distinct e 5%nat 0%nat) | apply (chain_refs_distinct e 4%nat 0%nat)
     | apply (chain_refs_distinct e 3%nat 0%nat) | apply (chain_refs_distinct e 2%nat 0%nat)];
    solve [exact Hb | reflexivity | lia].
Qed.

Lemma setMasterVolume_ramp_witness :
  let e := engine0 in
  let e' := exec (setMasterVolume (1/2)) e in
  (exists g,
     param_at e (outputNode e) gain = Some g /\
     param_at e' (outputNode e') gain =
       Some (mkParam (value g)
               (events g ++ [SetTargetAtTime (1/2) (currentTime (ctx e)) 0.05]))) /\
  (forall r : nat, r <> outputNode e -> node_at e' r = node_at e r) /\
  chain_targets e' = chain_targets e /\
  connections (ctx e') = connections (ctx e) /\
  ratConfig e' = ratConfig e /\
  kickModEnabled e' = kickModEnabled e.
Proof. apply (setMasterVolume_ramp (1/2) engine0). exact engine0_chain_built. Defined.

Lemma dispose_exec (e : DrumEngine) :
  exec dispose e =
  with_ctx (with_connections
    (List.filter (fun c => negb (Nat.eqb (fst c) (outputNode e))))) e.
Proof. destruct e as [[t sr ns cs d] o ri rp rw rf rpo co km rc]. reflexivity. Qed.

Lemma filter_twice {A : Type} (f : A -> bool) (l : list A) :
  List.filter f (List.filter f l) = List.filter f l.
Proof.
  induction l as [|x l IH]; [reflexivity|].
  cbn [List.filter]. destruct (f x) eqn:Hx; [|exact IH].
  cbn [List.filter]. rewrite Hx, IH. reflexivity.
Qed.

(** X9.  After [dispose] no connection leaves the master gain, so nothing
    the chain carries reaches a destination through it; every connection
    that leaves another node is kept, the nodes, the stored configuration
    and the kick-mod flag are untouched, and disposing twice is disposing
    once. *)
Theorem dispose_detaches (e : DrumEngine) :
  let e' := exec dispose e in
  (forall a b : nat, connected e' a b <-> connected e a b /\ a <> outputNode e) /\
  (forall b : nat, ~ connected e' (outputNode e') b) /\
  nodes (ctx e') = nodes (ctx e) /\
  chain_path e' = chain_path e /\
  ratConfig e' = ratConfig e /\
  kickModEnabled e' = kickModEnabled e /\
  exec dispose e' = e'.
Proof.
  cbv zeta.
  assert (Hiff : forall a b : nat,
            connected (exec dispose e) a b <-> connected e a b /\ a <> outputNode e).
  { intros a b. rewrite dispose_exec. unfold connected.
    cbn [with_ctx with_connections ctx connections].
    rewrite !list_elem_of_In, filter_In. cbn [fst].
    rewrite Bool.negb_true_iff, Nat.eqb_neq. tauto. }
  split; [exact Hiff|].
  split.
  { intros b Hc. apply Hiff in Hc as (_ & Hne). apply Hne.
    rewrite dispose_exec. reflexivity. }
  clear Hiff. rewrite !dispose_exec.
  destruct e as [[t sr ns cs d] o ri rp rw rf rpo co km rc].
  unfold with_ctx, with_connections.
  cbn [with_ctx with_connections ctx nodes connections currentTime sampleRate randomDraws
       outputNode ratInput ratPreGain ratWaveshaper ratFilter ratPostGain compressor
       kickModEnabled ratConfig chain_path].
  rewrite filter_twice. repeat split; reflexivity.
Qed.

(* ====================================================================== *)
(** ** Successive distortion updates *)

Lemma updateRat_config (config : PartialRatConfig.t) (e : DrumEngine) :
  ratConfig (exec (updateRat config) e) = Object_assign (ratConfig e) config.
Proof. destruct (updateRat_fields config e) as (H & _). exact H. Qed.

(** X10.  Two distortion updates in a row merge: for each key the value
    stored afterwards is that of the second partial if it has the key, else
    that of the first, else the value stored before; and the targets of the
    chain after the two updates are those one update with the merged partial
    sets. *)
Theorem updateRat_twice (c1 c2 : PartialRatConfig.t) (e : DrumEngine) :
  chain_built e ->
  let merged :=
    PartialRatConfig.mk
      (match PartialRatConfig.distortion c2 with
       | Some d => Some d | None => PartialRatConfig.distortion c1 end)
      (match PartialRatConfig.filter c2 with
       | Some f => Some f | None => PartialRatConfig.filter c1 end)
      (match PartialRatConfig.volume c2 with
       | Some v => Some v | None => PartialRatConfig.volume c1 end) in
  let e2 := exec (updateRat c2) (exec (updateRat c1) e) in
  ratConfig e2 = ratConfig (exec (updateRat merged) e) /\
  chain_targets e2 = chain_targets (exec (updateRat merged) e) /\
  chain_targets e2 = config_targets (ratConfig e2).
Proof.
  intros Hb merged e2. subst e2.
  assert (Hrc : ratConfig (exec (updateRat c2) (exec (updateRat c1) e)) =
                ratConfig (exec (updateRat merged) e)).
  { rewrite !updateRat_config. subst merged.
    destruct c1 as [[d1|] [f1|] [v1|]], c2 as [[d2|] [f2|] [v2|]]; reflexivity. }
  split; [exact Hrc|].
  rewrite (updateRat_targets c2 _ (updateRat_chain_built c1 e Hb)).
  rewrite (updateRat_targets merged e Hb), Hrc.
  split; reflexivity.
Qed.

Lemma updateRat_twice_witness :
  let c1 := PartialRatConfig.mk (Some 1) None None in
  let c2 := PartialRatConfig.mk None (Some (1/2)) None in
  let merged :=
    PartialRatConfig.mk
      (match PartialRatConfig.distortion c2 with
       | Some d => Some d | None => PartialRatConfig.distortion c1 end)
      (match PartialRatConfig.filter c2 with
       | Some f => Some f | None => PartialRatConfig.filter c1 end)
      (match PartialRatConfig.volume c2 with
       | Some v => Some v | None => PartialRatConfig.volume c1 end) in
  let e2 := exec (updateRat c2) (exec (updateRat c1) engine0) in
  ratConfig e2 = ratConfig (exec (updateRat merged) engine0) /\
  chain_targets e2 = chain_targets (exec (updateRat merged) engine0) /\
  chain_targets e2 = config_targets (ratConfig e2).
Proof.
  apply (updateRat_twice (PartialRatConfig.mk (Some 1) None None)
           (PartialRatConfig.mk None (Some (1/2)) None) engine0).
  exact engine0_chain_built.
Defined.

(** X11.  A distortion update whose three values lie in [0,1] sets a
    pre-gain target in [1, 11], a cutoff target in [200, 20000] Hz and a
    post-gain target in [0, 1]. *)
Theorem updateRat_target_ranges (d f v : R) (e : DrumEngine) :
  chain_built e ->
  0 <= d <= 1 -> 0 <= f <= 1 -> 0 <= v <= 1 ->
  exists pre cut post : R,
    chain_targets (exec (updateRat (PartialRatConfig.mk (Some d) (Some f) (Some v))) e) =
      mkTargets (Some pre) (Some (makeRatCurve d)) (Some cut) (Some post) /\
    1 <= pre <= 11 /\
    200 <= cut <= 20000 /\
    0 <= post <= 1.
Proof.
  intros Hb Hd Hf Hv.
  exists (1 + d * 10), (200 * Rpower (20000 / 200) f), v.
  split.
  { rewrite (updateRat_targets _ e Hb), updateRat_config. reflexivity. }
  split; [lra|]. split; [|lra].
  assert (H0 : Rpower (20000 / 200) 0 <= Rpower (20000 / 200) f)
    by (apply Rle_Rpower; lra).
  assert (H1 : Rpower (20000 / 200) f <= Rpower (20000 / 200) 1)
    by (apply Rle_Rpower; lra).
  rewrite Rpower_O in H0 by lra. rewrite Rpower_1 in H1 by lra. lra.
Qed.

Lemma updateRat_target_ranges_witness :
  exists pre cut post : R,
    chain_targets (exec (updateRat (PartialRatConfig.mk (Some (1/2)) (Some (1/2)) (Some (1/2))))
                     engine0) =
      mkTargets (Some pre) (Some (makeRatCurve (1/2))) (Some cut) (Some post) /\
    1 <= pre <= 11 /\
    200 <= cut <= 20000 /\
    0 <= post <= 1.
Proof.
  apply (updateRat_target_ranges (1/2) (1/2) (1/2) engine0);
    [exact engine0_chain_built | lra | lra | lra].
Defined.

(* ====================================================================== *)
(** ** Triggers and parameter updates *)

(** A voice reads five things of the state: the number of nodes, the
    sample rate, the number of draws made, the input of the chain and, for
    the kick, the kick-mod flag.  On two states that agree on them it adds
    the same nodes and the same connections. *)
Lemma trigger_local (random : nat -> R) (type : DrumType) (time : R)
    (config : DrumVoiceConfig.t) (e1 e2 : DrumEngine) :
  length (nodes (ctx e2)) = length (nodes (ctx e1)) ->
  sampleRate (ctx e2) = sampleRate (ctx e1) ->
  randomDraws (ctx e2) = randomDraws (ctx e1) ->
  ratInput e2 = ratInput e1 ->
  (type = KICK -> kickModEnabled e2 = kickModEnabled e1) ->
  exists added wires draws,
    exec (trigger random type time config) e1 = grown e1 added wires draws /\
    exec (trigger random type time config) e2 = grown e2 added wires draws.
Proof.
  intros Hlen Hsr Hd Hri Hk.
  destruct type; cbn [trigger].
  - specialize (Hk eq_refl). destruct (kickModEnabled e1) eqn:K1.
    + eexists _, _, _. split; [apply (triggerKick_modded random time config e1 K1)|].
      rewrite (triggerKick_modded random time config e2 Hk). cbv zeta.
      rewrite Hlen, Hsr, Hd, Hri. reflexivity.
    + eexists _, _, _. split; [apply (triggerKick_plain random time config e1 K1)|].
      rewrite (triggerKick_plain random time config e2 Hk). cbv zeta.
      rewrite Hlen, Hd, Hri. reflexivity.
  - eexists _, _, _. split; [apply (triggerSnare_run random time config e1)|].
    rewrite (triggerSnare_run random time config e2). cbv zeta.
    rewrite Hlen, Hsr, Hd, Hri. reflexivity.
  - eexists _, _, _. split; [apply (triggerHiHat_run random time config false e1)|].
    rewrite (triggerHiHat_run random time config false e2). cbv zeta.
    rewrite Hlen, Hd, Hri. reflexivity.
  - eexists _, _, _. split; [apply (triggerClap_run random time config e1)|].
    rewrite (triggerClap_run random time config e2). cbv zeta.
    rewrite Hlen, Hsr, Hd, Hri. reflexivity.
Qed.

Lemma updateRat_grown (config : PartialRatConfig.t) (e : DrumEngine) added wires draws :
  chain_built e ->
  exec (updateRat config) (grown e added wires draws) =
  grown (exec (updateRat config) e) added wires
    (randomDraws (ctx (grown e added wires draws))).
Proof.
  intros Hb.
  assert (Hv : forall r, r ∈ chain_refs e -> (r < length (nodes (ctx e)))%nat)
    by (intros r; apply chain_built_valid, Hb).
  unfold chain_refs in Hv.
  assert (Hrp := Hv (ratPreGain e) ltac:(rewrite !elem_of_cons; auto 10)).
  assert (Hrw := Hv (ratWaveshaper e) ltac:(rewrite !elem_of_cons; auto 10)).
  assert (Hrf := Hv (ratFilter e) ltac:(rewrite !elem_of_cons; auto 10)).
  assert (Hrpo := Hv (ratPostGain e) ltac:(rewrite !elem_of_cons; auto 10)).
  rewrite !updateRat_exec. cbv zeta.
  destruct e as [[t sr ns cs d] o ri rp rw rf rpo co km rc].
  unfold grown.
  cbn [ctx nodes connections currentTime sampleRate randomDraws outputNode ratInput
       ratPreGain ratWaveshaper ratFilter ratPostGain compressor kickModEnabled ratConfig]
    in *.
  rewrite (alter_app_l _ ns) by exact Hrp.
  rewrite (alter_app_l _ (alter _ rp ns)) by (rewrite length_alter; exact Hrw).
  rewrite (alter_app_l _ (alter _ rw (alter _ rp ns)))
    by (rewrite !length_alter; exact Hrf).
  rewrite (alter_app_l _ (alter _ rf (alter _ rw (alter _ rp ns))))
    by (rewrite !length_alter; exact Hrpo).
  reflexivity.
Qed.

Lemma setMasterVolume_grown (vol : R) (e : DrumEngine) added wires draws :
  chain_built e ->
  exec (setMasterVolume vol) (grown e added wires draws) =
  grown (exec (setMasterVolume vol) e) added wires draws.
Proof.
  intros Hb.
  assert (Ho : (outputNode e < length (nodes (ctx e)))%nat).
  { apply chain_built_valid; [exact Hb|]. unfold chain_refs. apply list_elem_of_here. }
  rewrite !setMasterVolume_exec.
  destruct e as [[t sr ns cs d] o ri rp rw rf rpo co km rc].
  unfold grown, with_ctx, with_nodes.
  cbn [ctx nodes connections currentTime sampleRate randomDraws outputNode ratInput
       ratPreGain ratWaveshaper ratFilter ratPostGain compressor kickModEnabled ratConfig]
    in *.
  rewrite (alter_app_l _ ns) by exact Ho. reflexivity.
Qed.

(** X12.  On a built chain a trigger and a parameter update can be issued
    in either order: a distortion update or a master-volume change before a
    trigger leaves the same state as after it, and so does a kick-mod
    change around a trigger that is not a kick. *)
Theorem trigger_commutes (random : nat -> R) (type : DrumType) (time : R)
    (config : DrumVoiceConfig.t) (c : Call) (e : DrumEngine) :
  chain_built e ->
  match c with
  | Call_updateRat _ | Call_setMasterVolume _ => True
  | Call_setKickMod _ => type <> KICK
  | Call_trigger _ _ _ => False
  end ->
  exec (trigger random type time config) (exec (call random c) e) =
  exec (call random c) (exec (trigger random type time config) e).
Proof.
  intros Hb Hc.
  destruct c as [rat | enabled | vol | ty' t' c']; cbn [call] in *; [| | |contradiction].
  - destruct (updateRat_fields rat e)
      as (_ & _ & Eri & _ & _ & _ & _ & _ & Ekm & _ & Esr & _ & Elen).
    assert (Ed : randomDraws (ctx (exec (updateRat rat) e)) = randomDraws (ctx e))
      by (rewrite updateRat_exec; reflexivity).
    destruct (trigger_local random type time config e (exec (updateRat rat) e)
                Elen Esr Ed Eri (fun _ => Ekm))
      as (added & wires & draws & -> & ->).
    rewrite (updateRat_grown rat e added wires draws Hb). reflexivity.
  - destruct (trigger_local random type time config e (exec (setKickMod enabled) e)
                eq_refl eq_refl eq_refl eq_refl (fun H => False_ind _ (Hc H)))
      as (added & wires & draws & -> & ->).
    reflexivity.
  - assert (Elen : length (nodes (ctx (exec (setMasterVolume vol) e))) =
                   length (nodes (ctx e))).
    { rewrite setMasterVolume_exec. cbn [with_ctx with_nodes ctx nodes].
      apply length_alter. }
    assert (Esr : sampleRate (ctx (exec (setMasterVolume vol) e)) = sampleRate (ctx e))
      by (rewrite setMasterVolume_exec; reflexivity).
    assert (Ed : randomDraws (ctx (exec (setMasterVolume vol) e)) = randomDraws (ctx e))
      by (rewrite setMasterVolume_exec; reflexivity).
    assert (Eri : ratInput (exec (setMasterVolume vol) e) = ratInput e)
      by (rewrite setMasterVolume_exec; reflexivity).
    assert (Ekm : kickModEnabled (exec (setMasterVolume vol) e) = kickModEnabled e)
      by (rewrite setMasterVolume_exec; reflexivity).
    destruct (trigger_local random type time config e (exec (setMasterVolume vol) e)
                Elen Esr Ed Eri (fun _ => Ekm))
      as (added & wires & draws & -> & ->).
    rewrite (setMasterVolume_grown vol e added wires draws Hb). reflexivity.
Qed.

Lemma trigger_commutes_witness :
  let c := Call_updateRat (PartialRatConfig.mk (Some 1) None None) in
  let config := DrumVoiceConfig.mk 1 (1/2) (1/2) (1/2) 127 in
  exec (trigger (fun _ => 0) SNARE 0 config) (exec (call (fun _ => 0) c) engine0) =
  exec (call (fun _ => 0) c) (exec (trigger (fun _ => 0) SNARE 0 config) engine0).
Proof.
  apply (trigger_commutes (fun _ => 0) SNARE 0 (DrumVoiceConfig.mk 1 (1/2) (1/2) (1/2) 127)
           (Call_updateRat (PartialRatConfig.mk (Some 1) None None)) engine0).
  - exact engine0_chain_built.
  - exact I.
Defined.

(* ====================================================================== *)
(** ** What the voices build *)

(** X13.  For a trigger time that is not negative and a tune in [0,1], the
    kick's sub layer is a sine at [35 + 20 tune], between 35 and 55 Hz,
    stopped 0.6 s after the trigger time; its body starts above that
    frequency, at [180 + 60 tune] without kick-mod and [300 + 100 tune]
    with it, and sweeps down to it over 80 ms (40 ms with kick-mod); the
    click sweeps down to 40 Hz over 20 ms from 80 Hz (square) or, with
    kick-mod, 120 Hz (sawtooth). *)
Theorem kick_pitch (random : nat -> R) (time : R) (config : DrumVoiceConfig.t)
    (e : DrumEngine) :
  0 <= time ->
  0 <= DrumVoiceConfig.tune config <= 1 ->
  let added := new_nodes e (exec (trigger random KICK time config) e) in
  let modded := kickModEnabled e in
  let tune := DrumVoiceConfig.tune config in
  let sub := 35 + tune * 20 in
  let start := if modded then 300 + tune * 100 else 180 + tune * 60 in
  let dt := if modded then 0.04 else 0.08 in
  let click := if modded then 120 else 80 in
  added !! 0%nat =
    Some (OscillatorNode sine (mkParam 440 [SetValueAtTime sub time]) (mkParam 0 [])
            (Some time) (Some (time + 0.6))) /\
  added !! 2%nat =
    Some (OscillatorNode sine
            (mkParam 440 [SetValueAtTime start time;
                          ExponentialRampToValueAtTime sub (time + dt)])
            (mkParam 0 []) (Some time) (Some (time + 0.4))) /\
  added !! 4%nat =
    Some (OscillatorNode (if modded then sawtooth else square)
            (mkParam 440 [SetValueAtTime click time;
                          ExponentialRampToValueAtTime 40 (time + 0.02)])
            (mkParam 0 []) (Some time) (Some (time + 0.05))) /\
  35 <= sub <= 55 /\
  sub < start /\
  40 < click.
Proof.
  intros _ Ht. cbv zeta. cbn [trigger].
  destruct (kickModEnabled e) eqn:Hk.
  - rewrite (triggerKick_modded random time config e Hk), new_nodes_grown.
    cbn [lookup list_lookup].
    split; [reflexivity|]. split; [reflexivity|]. split; [reflexivity|].
    repeat split; lra.
  - rewrite (triggerKick_plain random time config e Hk), new_nodes_grown.
    cbn [lookup list_lookup].
    split; [reflexivity|]. split; [reflexivity|]. split; [reflexivity|].
    repeat split; lra.
Qed.

Lemma kick_pitch_witness :
  let random := fun _ : nat => 0 in
  let time := 0 in
  let config := DrumVoiceConfig.mk 1 (1/4) (1/2) (1/2) 127 in
  let e := engine0 in
  let added := new_nodes e (exec (trigger random KICK time config) e) in
  let modded := kickModEnabled e in
  let tune := DrumVoiceConfig.tune config in
  let sub := 35 + tune * 20 in
  let start := if modded then 300 + tune * 100 else 180 + tune * 60 in
  let dt := if modded then 0.04 else 0.08 in
  let click := if modded then 120 else 80 in
  added !! 0%nat =
    Some (OscillatorNode sine (mkParam 440 [SetValueAtTime sub time]) (mkParam 0 [])
            (Some time) (Some (time + 0.6))) /\
  added !! 2%nat =
    Some (OscillatorNode sine
            (mkParam 440 [SetValueAtTime start time;
                          ExponentialRampToValueAtTime sub (time + dt)])
            (mkParam 0 []) (Some time) (Some (time + 0.4))) /\
  added !! 4%nat =
    Some (OscillatorNode (if modded then sawtooth else square)
            (mkParam 440 [SetValueAtTime click time;
                          ExponentialRampToValueAtTime 40 (time + 0.02)])
            (mkParam 0 []) (Some time) (Some (time + 0.05))) /\
  35 <= sub <= 55 /\
  sub < start /\
  40 < click.
Proof.
  apply (kick_pitch (fun _ => 0) 0 (DrumVoiceConfig.mk 1 (1/4) (1/2) (1/2) 127) engine0);
    cbn [DrumVoiceConfig.tune]; lra.
Defined.

(** X14.  A clap is four noise bursts started 12 ms apart from the trigger
    time, none of them stopped, the first three at 0.4 of the master level
    and the fourth at 0.8 of it, and a tail started 40 ms after the trigger
    time at 0.3 of the master level and stopped 300 ms later. *)
Theorem clap_bursts (random : nat -> R) (time : R) (config : DrumVoiceConfig.t)
    (e : DrumEngine) :
  let added := new_nodes e (exec (trigger random CLAP time config) e) in
  let masterVol := DrumVoiceConfig.volume config * (DrumVoiceConfig.velocity config / 127) in
  map start_time (List.filter is_buffer_source added) =
    [Some time; Some (time + 0.012); Some (time + 0.024); Some (time + 0.036);
     Some (time + 0.04)] /\
  map stop_time (List.filter is_buffer_source added) =
    [None; None; None; None; Some (time + 0.34)] /\
  added !! 1%nat =
    Some (GainNode (mkParam 1 [SetValueAtTime (masterVol * 0.4) time;
                               ExponentialRampToValueAtTime 0.001 (time + 0.015)])) /\
  added !! 4%nat =
    Some (GainNode (mkParam 1 [SetValueAtTime (masterVol * 0.4) (time + 0.012);
                               ExponentialRampToValueAtTime 0.001 (time + 0.027)])) /\
  added !! 7%nat =
    Some (GainNode (mkParam 1 [SetValueAtTime (masterVol * 0.4) (time + 0.024);
                               ExponentialRampToValueAtTime 0.001 (time + 0.039)])) /\
  added !! 10%nat =
    Some (GainNode (mkParam 1 [SetValueAtTime (masterVol * 0.8) (time + 0.036);
                               ExponentialRampToValueAtTime 0.001 (time + 0.051)])) /\
  added !! 13%nat =
    Some (GainNode (mkParam 1 [SetValueAtTime (masterVol * 0.3) (time + 0.04);
                               ExponentialRampToValueAtTime 0.001 (time + 0.24)])).
Proof.
  cbv zeta. cbn [trigger].
  rewrite (triggerClap_run random time config e), new_nodes_grown.
  cbn [lookup list_lookup List.filter is_buffer_source map start_time stop_time INR].
  repeat split; num_eq.
Qed.

(** X15.  A hi-hat is a bank of exactly six square oscillators at 1, 1.34,
    1.67, 1.91, 2.18 and 2.41 times the base frequency [300 + 400 tune],
    each detuned by a draw in [-10, 10) cents, all started at the trigger
    time and stopped 0.1 s after it (0.5 s for the open variant), mixed at
    the levels 0.15, 0.13, 0.11, 0.09, 0.07 and 0.05; the six draws are the
    only ones the call makes. *)
Theorem hat_bank (random : nat -> R) (time : R) (config : DrumVoiceConfig.t)
    (isOpen : bool) (e : DrumEngine) :
  (forall n, 0 <= random n < 1) ->
  let e' := exec (triggerHiHat random time config isOpen) e in
  let added := new_nodes e e' in
  let oscillators := List.filter is_oscillator added in
  let baseFreq := 300 + DrumVoiceConfig.tune config * 400 in
  map (fun n => getParam frequency n) oscillators =
    map (fun ratio => Some (mkParam (baseFreq * ratio) []))
        [1.0; 1.34; 1.67; 1.91; 2.18; 2.41] /\
  Forall (fun n => exists f cents,
            n = OscillatorNode square (mkParam f []) (mkParam cents []) (Some time)
                  (Some (time + (if isOpen then 0.5 else 0.1))) /\
            -10 <= cents < 10) oscillators /\
  (exists l1 l2 l3 l4 l5 l6 : R,
     map (fun i => added !! i) [2; 4; 6; 8; 10; 12]%nat =
       map (fun l => Some (GainNode (mkParam l []))) [l1; l2; l3; l4; l5; l6] /\
     l1 = 0.15 /\ l2 = 0.13 /\ l3 = 0.11 /\ l4 = 0.09 /\ l5 = 0.07 /\ l6 = 0.05) /\
  randomDraws (ctx e') = (6 + randomDraws (ctx e))%nat.
Proof.
  intros Hr. cbv zeta.
  rewrite (triggerHiHat_run random time config isOpen e), new_nodes_grown.
  cbn [List.filter is_oscillator map getParam lookup list_lookup].
  split; [reflexivity|]. split.
  - repeat (apply List.Forall_cons;
            [eexists _, _; split; [reflexivity|];
             match goal with |- _ <= (random ?k - _) * _ < _ => specialize (Hr k) end; lra|]).
    apply List.Forall_nil.
  - split; [|reflexivity].
    eexists _, _, _, _, _, _. split; [reflexivity|].
    cbn [INR]. repeat split; lra.
Qed.

Lemma hat_bank_witness :
  let random := fun _ : nat => 1/2 in
  let time := 0 in
  let config := DrumVoiceConfig.mk 1 (1/2) (1/2) (1/2) 127 in
  let isOpen := false in
  let e := engine0 in
  let e' := exec (triggerHiHat random time config isOpen) e in
  let added := new_nodes e e' in
  let oscillators := List.filter is_oscillator added in
  let baseFreq := 300 + DrumVoiceConfig.tune config * 400 in
  map (fun n => getParam frequency n) oscillators =
    map (fun ratio => Some (mkParam (baseFreq * ratio) []))
        [1.0; 1.34; 1.67; 1.91; 2.18; 2.41] /\
  Forall (fun n => exists f cents,
            n = OscillatorNode square (mkParam f []) (mkParam cents []) (Some time)
                  (Some (time + (if isOpen then 0.5 else 0.1))) /\
            -10 <= cents < 10) oscillators /\
  (exists l1 l2 l3 l4 l5 l6 : R,
     map (fun i => added !! i) [2; 4; 6; 8; 10; 12]%nat =
       map (fun l => Some (GainNode (mkParam l []))) [l1; l2; l3; l4; l5; l6] /\
     l1 = 0.15 /\ l2 = 0.13 /\ l3 = 0.11 /\ l4 = 0.09 /\ l5 = 0.07 /\ l6 = 0.05) /\
  randomDraws (ctx e') = (6 + randomDraws (ctx e))%nat.
Proof.
  apply (hat_bank (fun _ => 1/2) 0 (DrumVoiceConfig.mk 1 (1/2) (1/2) (1/2) 127) false engine0).
  intros _. lra.
Defined.

Lemma wires_into_hit (r a : nat) (l : list (nat * nat)) :
  wires_into r ((a, r) :: l) = (a, r) :: wires_into r l.
Proof. unfold wires_into. cbn [List.filter snd]. rewrite Nat.eqb_refl. reflexivity. Qed.

Lemma wires_into_miss (r a b : nat) (l : list (nat * nat)) :
  b <> r -> wires_into r ((a, b) :: l) = wires_into r l.
Proof.
  intros H. unfold wires_into. cbn [List.filter snd].
  apply Nat.eqb_neq in H. rewrite H. reflexivity.
Qed.

Ltac count_wires :=
  repeat first [ rewrite wires_into_hit | rewrite wires_into_miss by lia ];
  reflexivity.

(** X16.  The size of what a trigger adds on a built chain, for a trigger
    time that is not negative, a positive volume and velocity and a tune
    that is not negative.  The kick adds 7 nodes, 3 of them sources, each
    layer wired into the input of the chain on its own (11 nodes, 4 sources
    and 4 wires into the input with kick-mod); the snare 11 nodes, 4
    sources, 4 wires into the input; the clap 16 nodes, 5 sources, 5 wires
    into the input; the hi-hat 16 nodes and 6 sources, mixed before the
    chain into a single wire. *)
Theorem trigger_layers (random : nat -> R) (type : DrumType) (time : R)
    (config : DrumVoiceConfig.t) (e : DrumEngine) :
  chain_built e ->
  0 <= time ->
  0 < DrumVoiceConfig.volume config ->
  0 < DrumVoiceConfig.velocity config ->
  0 <= DrumVoiceConfig.tune config ->
  let e' := exec (trigger random type time config) e in
  let added := new_nodes e e' in
  let wires := new_connections e e' in
  (length added, length (List.filter is_source added),
   length (wires_into (ratInput e) wires)) =
  match type with
  | KICK => if kickModEnabled e then (11, 4, 4) else (7, 3, 3)
  | SNARE => (11, 4, 4)
  | HAT => (16, 6, 1)
  | CLAP => (16, 5, 5)
  end%nat.
Proof.
  intros Hb _ _ _ _. cbv zeta.
  assert (Hri : (ratInput e < length (nodes (ctx e)))%nat).
  { apply chain_built_valid; [exact Hb|]. unfold chain_refs.
    rewrite !elem_of_cons. auto. }
  destruct type; cbn [trigger].
  - destruct (kickModEnabled e) eqn:Hk.
    + rewrite (triggerKick_modded random time config e Hk), new_nodes_grown,
        new_connections_grown.
      cbn [length List.filter is_source]. do 2 f_equal. count_wires.
    + rewrite (triggerKick_plain random time config e Hk), new_nodes_grown,
        new_connections_grown.
      cbn [length List.filter is_source]. do 2 f_equal. count_wires.
  - rewrite (triggerSnare_run random time config e), new_nodes_grown,
      new_connections_grown.
    cbn [length List.filter is_source]. do 2 f_equal. count_wires.
  - rewrite (triggerHiHat_run random time config false e), new_nodes_grown,
      new_connections_grown.
    cbn [length List.filter is_source]. do 2 f_equal. count_wires.
  - rewrite (triggerClap_run random time config e), new_nodes_grown,
      new_connections_grown.
    cbn [length List.filter is_source]. do 2 f_equal. count_wires.
Qed.

Lemma trigger_layers_witness :
  let e := engine0 in
  let e' := exec (trigger (fun _ => 0) SNARE 0 (DrumVoiceConfig.mk 1 (1/2) (1/2) (1/2) 127)) e in
  let added := new_nodes e e' in
  let wires := new_connections e e' in
  (length added, length (List.filter is_source added),
   length (wires_into (ratInput e) wires)) = (11, 4, 4)%nat.
Proof.
  apply (trigger_layers (fun _ => 0) SNARE 0 (DrumVoiceConfig.mk 1 (1/2) (1/2) (1/2) 127)
           engine0);
    [exact engine0_chain_built | ..];
    cbn [DrumVoiceConfig.volume DrumVoiceConfig.velocity DrumVoiceConfig.tune]; lra.
Defined.

(** X17.  For a positive volume and velocity and a tune that is not
    negative, every exponential ramp a trigger schedules, on a gain or on a
    frequency, has a strictly positive target. *)
Theorem trigger_ramp_targets_positive (random : nat -> R) (type : DrumType) (time : R)
    (config : DrumVoiceConfig.t) (e : DrumEngine) :
  0 < DrumVoiceConfig.volume config ->
  0 < DrumVoiceConfig.velocity config ->
  0 <= DrumVoiceConfig.tune config ->
  Forall (fun n => Forall (fun target => 0 < target) (exp_ramp_targets n))
    (new_nodes e (exec (trigger random type time config) e)).
Proof.
  intros Hv Hvel Ht.
  assert (Hm : 0 < DrumVoiceConfig.volume config * (DrumVoiceConfig.velocity config / 127)).
  { apply Rmult_lt_0_compat; lra. }
  assert (Htune : forall a b, 0 < a -> 0 <= b -> 0 < a + DrumVoiceConfig.tune config * b)
    by (intros; nra).
  destruct type; cbn [trigger].
  - destruct (kickModEnabled e) eqn:Hk.
    + rewrite (triggerKick_modded random time config e Hk), new_nodes_grown.
      forall_explicit ltac:(cbn [exp_ramp_targets node_params flat_map events
                                 exp_ramp_target app];
                            repeat (apply List.Forall_cons; [nra|]); apply List.Forall_nil).
    + rewrite (triggerKick_plain random time config e Hk), new_nodes_grown.
      forall_explicit ltac:(cbn [exp_ramp_targets node_params flat_map events
                                 exp_ramp_target app];
                            repeat (apply List.Forall_cons; [nra|]); apply List.Forall_nil).
  - rewrite (triggerSnare_run random time config e), new_nodes_grown.
    forall_explicit ltac:(cbn [exp_ramp_targets node_params flat_map events
                               exp_ramp_target app];
                          repeat (apply List.Forall_cons; [nra|]); apply List.Forall_nil).
  - rewrite (triggerHiHat_run random time config false e), new_nodes_grown.
    forall_explicit ltac:(cbn [exp_ramp_targets node_params flat_map events
                               exp_ramp_target app];
                          repeat (apply List.Forall_cons; [nra|]); apply List.Forall_nil).
  - rewrite (triggerClap_run random time config e), new_nodes_grown.
    forall_explicit ltac:(cbn [exp_ramp_targets node_params flat_map events
                               exp_ramp_target app];
                          repeat (apply List.Forall_cons; [nra|]); apply List.Forall_nil).
Qed.

Lemma trigger_ramp_targets_positive_witness :
  Forall (fun n => Forall (fun target => 0 < target) (exp_ramp_targets n))
    (new_nodes engine0
       (exec (trigger (fun _ => 0) SNARE 0 (DrumVoiceConfig.mk 1 (1/2) (1/2) (1/2) 127))
          engine0)).
Proof.
  apply (trigger_ramp_targets_positive (fun _ => 0) SNARE 0
           (DrumVoiceConfig.mk 1 (1/2) (1/2) (1/2) 127) engine0);
    cbn [DrumVoiceConfig.volume DrumVoiceConfig.velocity DrumVoiceConfig.tune]; lra.
Defined.

(** X18.  A snare triggered with volume 0 or velocity 0, both inside their
    domains, schedules an exponential ramp whose target is 0: the first
    stage of the decay of the wires goes to a tenth of the master level. *)
Theorem snare_silent_ramp_target (random : nat -> R) (time : R)
    (config : DrumVoiceConfig.t) (e : DrumEngine) :
  DrumVoiceConfig.volume config = 0 \/ DrumVoiceConfig.velocity config = 0 ->
  exists (n : AudioNode) (target : R),
    new_nodes e (exec (trigger random SNARE time config) e) !! 5%nat = Some n /\
    In target (exp_ramp_targets n) /\
    target = 0.
Proof.
  intros H. cbn [trigger].
  rewrite (triggerSnare_run random time config e), new_nodes_grown.
  cbn [lookup list_lookup].
  eexists _, _. split; [reflexivity|].
  cbn [exp_ramp_targets node_params flat_map events exp_ramp_target app In].
  split; [left; reflexivity|].
  destruct H as [-> | ->]; lra.
Qed.

Lemma snare_silent_ramp_target_witness :
  exists (n : AudioNode) (target : R),
    new_nodes engine0
      (exec (trigger (fun _ => 0) SNARE 0 (DrumVoiceConfig.mk 0 (1/2) (1/2) (1/2) 127)) engine0)
      !! 5%nat = Some n /\
    In target (exp_ramp_targets n) /\
    target = 0.
Proof.
  apply (snare_silent_ramp_target (fun _ => 0) 0 (DrumVoiceConfig.mk 0 (1/2) (1/2) (1/2) 127)
           engine0).
  left. reflexivity.
Defined.

(** X19.  For a trigger time that is not negative, a positive volume and
    velocity and a tune in [0,1], with [bodyFreq = 150 + 100 tune]: the
    snare's low body is a sine at [0.8 bodyFreq], between 120 and 200 Hz;
    its high body is a triangle that sweeps down from [2 bodyFreq], between
    300 and 500 Hz, to [1.2 bodyFreq] over 50 ms; its wires are noise
    between a highpass at 2000 Hz and a lowpass at [8000 + 4000 tune],
    between 8000 and 12000 Hz, whose level decays in two stages, from 0.6
    to 0.1 of the master level in 80 ms and on to 0.001 by 250 ms. *)
Theorem snare_layers (random : nat -> R) (time : R) (config : DrumVoiceConfig.t)
    (e : DrumEngine) :
  0 <= time ->
  0 < DrumVoiceConfig.volume config ->
  0 < DrumVoiceConfig.velocity config ->
  0 <= DrumVoiceConfig.tune config <= 1 ->
  let added := new_nodes e (exec (trigger random SNARE time config) e) in
  let masterVol := DrumVoiceConfig.volume config * (DrumVoiceConfig.velocity config / 127) in
  let tune := DrumVoiceConfig.tune config in
  let bodyFreq := 150 + tune * 100 in
  let low := bodyFreq * 0.8 in
  let high := bodyFreq * 2 in
  let highEnd := bodyFreq * 1.2 in
  let cutoff := 8000 + tune * 4000 in
  added !! 0%nat =
    Some (OscillatorNode sine (mkParam 440 [SetValueAtTime low time]) (mkParam 0 [])
            (Some time) (Some (time + 0.2))) /\
  added !! 2%nat =
    Some (OscillatorNode triangle
            (mkParam 440 [SetValueAtTime high time;
                          ExponentialRampToValueAtTime highEnd (time + 0.05)])
            (mkParam 0 []) (Some time) (Some (time + 0.15))) /\
  added !! 5%nat =
    Some (GainNode (mkParam 1 [SetValueAtTime (masterVol * 0.6) time;
                               ExponentialRampToValueAtTime (masterVol * 0.1) (time + 0.08);
                               ExponentialRampToValueAtTime 0.001 (time + 0.25)])) /\
  added !! 6%nat =
    Some (BiquadFilterNode highpass (mkParam 2000 []) (mkParam 0.5 [])) /\
  added !! 7%nat =
    Some (BiquadFilterNode lowpass (mkParam cutoff []) (mkParam 0.5 [])) /\
  120 <= low <= 200 /\
  highEnd < high /\
  300 <= high <= 500 /\
  8000 <= cutoff <= 12000 /\
  0 < masterVol * 0.1 < masterVol * 0.6.
Proof.
  intros _ Hv Hvel Ht. cbv zeta. cbn [trigger].
  assert (Hm : 0 < DrumVoiceConfig.volume config * (DrumVoiceConfig.velocity config / 127)).
  { apply Rmult_lt_0_compat; lra. }
  rewrite (triggerSnare_run random time config e), new_nodes_grown.
  cbn [lookup list_lookup].
  do 5 (split; [reflexivity|]).
  repeat split; lra.
Qed.

Lemma snare_layers_witness :
  let random := fun _ : nat => 0 in
  let time := 0 in
  let config := DrumVoiceConfig.mk 1 (1/4) (1/2) (1/2) 127 in
  let e := engine0 in
  let added := new_nodes e (exec (trigger random SNARE time config) e) in
  let masterVol := DrumVoiceConfig.volume config * (DrumVoiceConfig.velocity config / 127) in
  let tune := DrumVoiceConfig.tune config in
  let bodyFreq := 150 + tune * 100 in
  let low := bodyFreq * 0.8 in
  let high := bodyFreq * 2 in
  let highEnd := bodyFreq * 1.2 in
  let cutoff := 8000 + tune * 4000 in
  added !! 0%nat =
    Some (OscillatorNode sine (mkParam 440 [SetValueAtTime low time]) (mkParam 0 [])
            (Some time) (Some (time + 0.2))) /\
  added !! 2%nat =
    Some (OscillatorNode triangle
            (mkParam 440 [SetValueAtTime high time;
                          ExponentialRampToValueAtTime highEnd (time + 0.05)])
            (mkParam 0 []) (Some time) (Some (time + 0.15))) /\
  added !! 5%nat =
    Some (GainNode (mkParam 1 [SetValueAtTime (masterVol * 0.6) time;
                               ExponentialRampToValueAtTime (masterVol * 0.1) (time + 0.08);
                               ExponentialRampToValueAtTime 0.001 (time + 0.25)])) /\
  added !! 6%nat =
    Some (BiquadFilterNode highpass (mkParam 2000 []) (mkParam 0.5 [])) /\
  added !! 7%nat =
    Some (BiquadFilterNode lowpass (mkParam cutoff []) (mkParam 0.5 [])) /\
  120 <= low <= 200 /\
  highEnd < high /\
  300 <= high <= 500 /\
  8000 <= cutoff <= 12000 /\
  0 < masterVol * 0.1 < masterVol * 0.6.
Proof.
  apply (snare_layers (fun _ => 0) 0 (DrumVoiceConfig.mk 1 (1/4) (1/2) (1/2) 127) engine0);
    cbn [DrumVoiceConfig.volume DrumVoiceConfig.velocity DrumVoiceConfig.tune]; lra.
Defined.
